(** * YOLO wrapper of lightning-bolts: post-processing, batch validation,
      prior-shape configuration and the forward pass.

    Shallow embedding of [pl_bolts/models/detection/yolo/yolo_module.py] and
    [pl_bolts/models/detection/yolo/torch_networks.py].

    Tensor elements are modelled by exact rationals ([Q]); the properties
    below are about selection, ordering, indexing and error paths, none of
    which depends on rounding. *)

From Stdlib Require Import String.
From Stdlib Require Import List ZArith QArith Qminmax Bool Lia Arith.
From Stdlib Require Import Sorted Permutation.
Import ListNotations.

Set Implicit Arguments.

(* ################################################################## *)
(** * Part I: the program *)

(* ================================================================== *)
(** * Python results: a value or a raised exception *)

(** The messages of the [ValueError]s the two modules raise, with the values
    their f-strings print. *)
Inductive ErrorMessage : Type :=
  | CountMismatch (n_images n_targets : nat)
      (* "Got {n} images, but targets for {m} images." *)
  | ImageNotTensor (type_name : string)
      (* "Expected image to be of type Tensor, got {type}." *)
  | BoxesNotTensor (type_name : string)
      (* "Expected target boxes to be of type Tensor, got {type}." *)
  | BoxesBadShape (shape : list nat)
      (* "Expected target boxes to be tensors of shape [N, 4], got {shape}." *)
  | LabelsNotTensor (type_name : string)
      (* "Expected target labels to be of type Tensor, got {type}." *)
  | LabelsBadShape (shape : list nat)
      (* "Expected target labels to be tensors of shape [N] or
         [N, num_classes], got {shape}." *)
  | PriorShapesNotDivisibleBy3.
      (* "The number of provided prior shapes needs to be divisible by 3." *)

Inductive PyExc : Type :=
  | ValueError (msg : ErrorMessage)
  | IndexError
  | TypeError
  | AttributeError
  | RuntimeError.

Inductive result (A : Type) : Type :=
  | Ok (a : A)
  | Raise (e : PyExc).

Arguments Ok {A} a.
Arguments Raise {A} e.

Definition bind {A B : Type} (r : result A) (k : A -> result B) : result B :=
  match r with
  | Ok a => k a
  | Raise e => Raise e
  end.

Declare Scope py_scope.
Delimit Scope py_scope with py.
Notation "x <- c ;; k" := (bind c (fun x => k))
  (at level 61, c at next level, right associativity) : py_scope.
Open Scope py_scope.

(** [for x in xs: acc = f acc x], stopping at the first exception. *)
Fixpoint for_each {A S : Type} (f : S -> A -> result S) (xs : list A) (acc : S)
  : result S :=
  match xs with
  | [] => Ok acc
  | x :: rest => acc' <- f acc x ;; for_each f rest acc'
  end.

(* ================================================================== *)
(** * Tensor primitives used by the post-processing code *)

(** [a > b] on tensor elements. *)
Definition Qgtb (a b : Q) : bool := negb (Qle_bool a b).

(** [t[idxs]]: advanced indexing along the first dimension; an index past the
    end raises [IndexError]. *)
Fixpoint index_select {A : Type} (t : list A) (idxs : list nat) : result (list A) :=
  match idxs with
  | [] => Ok []
  | i :: rest =>
      match nth_error t i with
      | Some a => r <- index_select t rest ;; Ok (a :: r)
      | None => Raise IndexError
      end
  end.

(** [t[idxs, labels]]: pairwise advanced indexing of a 2-D tensor. *)
Fixpoint index_select2 {A : Type} (t : list (list A)) (ij : list (nat * nat))
  : result (list A) :=
  match ij with
  | [] => Ok []
  | (i, j) :: rest =>
      match nth_error t i with
      | Some row =>
          match nth_error row j with
          | Some a => r <- index_select2 t rest ;; Ok (a :: r)
          | None => Raise IndexError
          end
      | None => Raise IndexError
      end
  end.

(** [mask.nonzero()] of a 2-D boolean tensor: the (row, column) pairs of the
    true entries, in row-major order. *)
Fixpoint nonzero_row (i j : nat) (row : list bool) : list (nat * nat) :=
  match row with
  | [] => []
  | b :: rest => (if b then [(i, j)] else []) ++ nonzero_row i (S j) rest
  end.

Fixpoint nonzero_from (i : nat) (mask : list (list bool)) : list (nat * nat) :=
  match mask with
  | [] => []
  | row :: rest => nonzero_row i 0 row ++ nonzero_from (S i) rest
  end.

Definition nonzero (mask : list (list bool)) : list (nat * nat) :=
  nonzero_from 0 mask.

(** [classprobs * confidences[:, None]]: every row of class probabilities is
    scaled by the confidence of its predictor. *)
Definition mul_broadcast (classprobs : list (list Q)) (confidences : list Q)
  : list (list Q) :=
  map (fun pc => map (fun p => p * snd pc) (fst pc)) (combine classprobs confidences).

(** [scores > threshold], elementwise. *)
Definition gt_mask (scores : list (list Q)) (threshold : Q) : list (list bool) :=
  map (map (fun s => Qgtb s threshold)) scores.

(** [t[:k]] with Python's slice semantics: a negative bound counts from the
    end. *)
Definition py_slice_to {A : Type} (k : Z) (t : list A) : list A :=
  if (k <? 0)%Z then firstn (length t - Z.to_nat (- k)) t
  else firstn (Z.to_nat k) t.

(* ================================================================== *)
(** * Boxes and non-maximum suppression *)

Record Box : Type := mkBox { x1 : Q; y1 : Q; x2 : Q; y2 : Q }.

Definition box_area (b : Box) : Q := (x2 b - x1 b) * (y2 b - y1 b).

Definition box_iou (a b : Box) : Q :=
  let w := Qmax 0 (Qmin (x2 a) (x2 b) - Qmax (x1 a) (x1 b)) in
  let h := Qmax 0 (Qmin (y2 a) (y2 b) - Qmax (y1 a) (y1 b)) in
  let inter := w * h in
  inter / (box_area a + box_area b - inter).

Definition zero_box : Box := mkBox 0 0 0 0.

(** Insertion of index [k] into a list of indices ordered by descending
    score; [k] goes before the first index whose score is not greater. *)
Fixpoint insert_desc (score : nat -> Q) (k : nat) (l : list nat) : list nat :=
  match l with
  | [] => [k]
  | j :: rest =>
      if Qgtb (score j) (score k) then j :: insert_desc score k rest
      else k :: j :: rest
  end.

Definition sort_desc (score : nat -> Q) (l : list nat) : list nat :=
  fold_right (insert_desc score) [] l.

(** The greedy pass: walk the candidates by descending score and keep one
    unless an already kept candidate suppresses it. *)
Fixpoint nms_greedy (suppresses : nat -> nat -> bool) (order kept : list nat)
  : list nat :=
  match order with
  | [] => []
  | k :: rest =>
      if existsb (fun j => suppresses j k) kept
      then nms_greedy suppresses rest kept
      else k :: nms_greedy suppresses rest (k :: kept)
  end.

(** Modelled from the spec: [torchvision.ops.batched_nms] is imported by
    [yolo_module.py] and not defined in the repository.  Section 4.5: class
    labels are processed independently (suppression only within one label),
    candidates are sorted by descending score, a box is kept greedily and
    every remaining box with the same label and IoU above the threshold is
    discarded; the kept indices come out in descending score order. *)
Definition batched_nms (boxes : list Box) (scores : list Q) (labels : list nat)
    (iou_threshold : Q) : list nat :=
  let score k := nth k scores 0 in
  let suppresses j k :=
    Nat.eqb (nth j labels 0%nat) (nth k labels 0%nat)
    && Qgtb (box_iou (nth j boxes zero_box) (nth k boxes zero_box)) iou_threshold in
  nms_greedy suppresses (sort_desc score (seq 0 (length boxes))) [].

(* ================================================================== *)
(** * [YOLO.process_detections] and [YOLO.process_targets] *)

(** One predictor of the detection tensor [[predictors, 5 + classes]]:
    channels [:4], [4] and [5:]. *)
Record Prediction : Type := mkPrediction {
  pred_box : Box;
  pred_confidence : Q;
  pred_classprobs : list Q
}.

(** The attributes of [self] that post-processing reads. *)
Record YOLOParams : Type := mkYOLOParams {
  confidence_threshold : Q;
  nms_threshold : Q;
  detections_per_image : Z
}.

(** The dictionary [{"boxes": ..., "scores": ..., "labels": ...}]. *)
Record Detections : Type := mkDetections {
  det_boxes : list Box;
  det_scores : list Q;
  det_labels : list nat
}.

(** [classprobs * confidences[:, None]] of one image. *)
Definition image_scores (image_preds : list Prediction) : list (list Q) :=
  mul_broadcast (map pred_classprobs image_preds) (map pred_confidence image_preds).

(** [(scores > self.confidence_threshold).nonzero()]: the selected
    (predictor, class) pairs. *)
Definition select_pairs (self : YOLOParams) (image_preds : list Prediction)
  : list (nat * nat) :=
  nonzero (gt_mask (image_scores image_preds) (confidence_threshold self)).

(** The body of the loop of [process_detections], for one image. *)
Definition process_image (self : YOLOParams) (image_preds : list Prediction)
  : result Detections :=
  let boxes := map pred_box image_preds in
  let scores := image_scores image_preds in
  let pairs := select_pairs self image_preds in
  (* idxs, labels = pairs.T *)
  let idxs := map fst pairs in
  let labels := map snd pairs in
  boxes <- index_select boxes idxs ;;
  scores <- index_select2 scores (combine idxs labels) ;;
  let keep := batched_nms boxes scores labels (nms_threshold self) in
  let keep := py_slice_to (detections_per_image self) keep in
  boxes <- index_select boxes keep ;;
  scores <- index_select scores keep ;;
  labels <- index_select labels keep ;;
  Ok (mkDetections boxes scores labels).

Definition process_detections (self : YOLOParams) (preds : list (list Prediction))
  : result (list Detections) :=
  for_each (fun result image_preds =>
              d <- process_image self image_preds ;; Ok (result ++ [d]))
           preds [].

(** A target's labels: class ids ([Int64Tensor[N]], one dimension) or a
    boolean class mask ([BoolTensor[N, classes]], two dimensions). *)
Inductive LabelTensor : Type :=
  | ClassIds (ids : list Z)
  | ClassMask (mask : list (list bool)).

(** The dictionary [{"boxes": ..., "labels": ...}]. *)
Record Target : Type := mkTarget {
  tgt_boxes : list Box;
  tgt_labels : LabelTensor
}.

(** The body of the loop of [process_targets], for one image. *)
Definition process_image_targets (image_targets : Target) : result Target :=
  let boxes := tgt_boxes image_targets in
  let labels := tgt_labels image_targets in
  match labels with
  | ClassMask mask =>                         (* labels.ndim == 2 *)
      let pairs := nonzero mask in
      let idxs := map fst pairs in
      let labels := map (fun p => Z.of_nat (snd p)) pairs in
      boxes <- index_select boxes idxs ;;
      Ok (mkTarget boxes (ClassIds labels))
  | ClassIds _ => Ok (mkTarget boxes labels)
  end.

Definition process_targets (targets : list Target) : result (list Target) :=
  for_each (fun result image_targets =>
              t <- process_image_targets image_targets ;; Ok (result ++ [t]))
           targets [].

(* ================================================================== *)
(** * [YOLO._validate_batch] *)

(** A Python value as the validation looks at it: a tensor, known by its
    shape, or a value of some other type. *)
Inductive PyObj : Type :=
  | TensorObj (shape : list nat)
  | OtherObj (type_name : string).

(** A target dictionary: the values under ["boxes"] and ["labels"]. *)
Record TargetObj : Type := mkTargetObj {
  boxes_obj : PyObj;
  labels_obj : PyObj
}.

(** [len(tensor)]: the size of the first dimension; a tensor with no
    dimension has no length. *)
Definition tensor_len (shape : list nat) : result nat :=
  match shape with
  | n :: _ => Ok n
  | [] => Raise TypeError
  end.

Definition shape_eqb (s1 s2 : list nat) : bool :=
  if list_eq_dec Nat.eq_dec s1 s2 then true else false.

(** [torch.stack(images)]: the tensors must be at least one and of one
    shape; the result has a new first dimension. *)
Definition torch_stack (tensors : list PyObj) : result PyObj :=
  match tensors with
  | [] => Raise RuntimeError
  | OtherObj _ :: _ => Raise TypeError
  | TensorObj shape :: rest =>
      if forallb (fun t => match t with
                           | TensorObj s => shape_eqb s shape
                           | OtherObj _ => false
                           end) rest
      then Ok (TensorObj (length tensors :: shape))
      else Raise RuntimeError
  end.

(** The body of [for image in images]. *)
Definition check_image (image : PyObj) : result unit :=
  match image with
  | TensorObj _ => Ok tt
  | OtherObj ty => Raise (ValueError (ImageNotTensor ty))
  end.

(** The body of [for target in targets]; [or] evaluates its right operand
    only when the left one is false. *)
Definition check_target (target : TargetObj) : result unit :=
  match boxes_obj target with
  | OtherObj ty => Raise (ValueError (BoxesNotTensor ty))
  | TensorObj boxes =>
      if negb (length boxes =? 2)%nat then Raise (ValueError (BoxesBadShape boxes))
      else if negb (last boxes 0 =? 4)%nat then Raise (ValueError (BoxesBadShape boxes))
      else
        match labels_obj target with
        | OtherObj ty => Raise (ValueError (LabelsNotTensor ty))
        | TensorObj labels =>
            if (length labels <? 1)%nat then Raise (ValueError (LabelsBadShape labels))
            else if (2 <? length labels)%nat then Raise (ValueError (LabelsBadShape labels))
            else
              n_labels <- tensor_len labels ;;
              n_boxes <- tensor_len boxes ;;
              if negb (n_labels =? n_boxes)%nat
              then Raise (ValueError (LabelsBadShape labels))
              else Ok tt
        end
  end.

Definition _validate_batch (batch : list PyObj * list TargetObj)
  : result (PyObj * list TargetObj) :=
  let (images, targets) := batch in
  if negb (length images =? length targets)%nat
  then Raise (ValueError (CountMismatch (length images) (length targets)))
  else
    _ <- for_each (fun _ image => check_image image) images tt ;;
    _ <- for_each (fun _ target => check_target target) targets tt ;;
    images <- torch_stack images ;;
    Ok (images, targets).

(** The first two statements of [training_step], [validation_step] and
    [test_step]: [images, targets = self._validate_batch(batch)], then the
    forward pass with its losses, [self(images, targets)]. *)
Definition validated_forward {R : Type}
    (self_call : PyObj -> list TargetObj -> result R)
    (batch : list PyObj * list TargetObj) : result R :=
  validated <- _validate_batch batch ;;
  self_call (fst validated) (snd validated).

(* ================================================================== *)
(** * Prior shapes in the network constructors ([torch_networks.py]) *)

Definition PriorShape : Type := (Z * Z)%type.

(** The prior shapes learned from the COCO data. *)
Definition coco_prior_shapes : list PriorShape :=
  [ (12, 16); (19, 36); (40, 28); (36, 75); (76, 55); (72, 146);
    (142, 110); (192, 243); (459, 401) ]%Z.

(** YOLOX: one anchor per cell, the stride as the prior size. *)
Definition yolox_prior_shapes : list PriorShape := [ (8, 8); (16, 16); (32, 32) ]%Z.

(** [divmod(a, b)] and [range(a, b)] on natural numbers. *)
Definition py_divmod (a b : nat) : nat * nat := (a / b, a mod b)%nat.

Definition range (a b : nat) : list nat := seq a (b - a).

(** What a constructor settles about the detection heads: the prior shapes
    in use, [anchors_per_cell], the number of channels it gives each output
    convolution, and the [prior_shape_idxs] it hands to [detect] for the
    three detection layers. *)
Record DetectionHeads : Type := mkDetectionHeads {
  prior_shapes : list PriorShape;
  anchors_per_cell : nat;
  num_outputs : nat;
  detect3 : list nat;
  detect4 : list nat;
  detect5 : list nat
}.

(** The opening [if prior_shapes is None: ... else: ...] that the four
    constructors share, up to the default they use. *)
Definition resolve_prior_shapes (default : list PriorShape) (default_anchors : nat)
    (prior_shapes : option (list PriorShape)) : result (list PriorShape * nat) :=
  match prior_shapes with
  | None => Ok (default, default_anchors)
  | Some prior_shapes =>
      let (anchors_per_cell, modulo) := py_divmod (length prior_shapes) 3 in
      if negb (modulo =? 0)%nat
      then Raise (ValueError PriorShapesNotDivisibleBy3)
      else Ok (prior_shapes, anchors_per_cell)
  end.

Definition YOLOV4TinyNetwork_init (num_classes : nat)
    (prior_shapes : option (list PriorShape)) : result DetectionHeads :=
  resolved <- resolve_prior_shapes coco_prior_shapes 3 prior_shapes ;;
  let (prior_shapes, anchors_per_cell) := resolved in
  let num_outputs := ((5 + num_classes) * anchors_per_cell)%nat in
  Ok (mkDetectionHeads prior_shapes anchors_per_cell num_outputs
        [0; 1; 2]%nat [3; 4; 5]%nat [6; 7; 8]%nat).

Definition YOLOV4Network_init (num_classes : nat)
    (prior_shapes : option (list PriorShape)) : result DetectionHeads :=
  resolved <- resolve_prior_shapes coco_prior_shapes 3 prior_shapes ;;
  let (prior_shapes, anchors_per_cell) := resolved in
  let num_outputs := ((5 + num_classes) * anchors_per_cell)%nat in
  Ok (mkDetectionHeads prior_shapes anchors_per_cell num_outputs
        (range 0 anchors_per_cell)
        (range anchors_per_cell (anchors_per_cell * 2))
        (range (anchors_per_cell * 2) (anchors_per_cell * 3))).

Definition YOLOV5Network_init (num_classes : nat)
    (prior_shapes : option (list PriorShape)) : result DetectionHeads :=
  resolved <- resolve_prior_shapes coco_prior_shapes 3 prior_shapes ;;
  let (prior_shapes, anchors_per_cell) := resolved in
  let num_outputs := ((5 + num_classes) * anchors_per_cell)%nat in
  Ok (mkDetectionHeads prior_shapes anchors_per_cell num_outputs
        (range 0 anchors_per_cell)
        (range anchors_per_cell (anchors_per_cell * 2))
        (range (anchors_per_cell * 2) (anchors_per_cell * 3))).

(** YOLOX has no [num_outputs]: its box, confidence and class heads give
    [anchors_per_cell * 4], [anchors_per_cell] and
    [anchors_per_cell * num_classes] channels, concatenated for the layer. *)
Definition YOLOXNetwork_init (num_classes : nat)
    (prior_shapes : option (list PriorShape)) : result DetectionHeads :=
  resolved <- resolve_prior_shapes yolox_prior_shapes 1 prior_shapes ;;
  let (prior_shapes, anchors_per_cell) := resolved in
  Ok (mkDetectionHeads prior_shapes anchors_per_cell
        (anchors_per_cell * 4 + anchors_per_cell + anchors_per_cell * num_classes)%nat
        (range 0 anchors_per_cell)
        (range anchors_per_cell (anchors_per_cell * 2))
        (range (anchors_per_cell * 2) (anchors_per_cell * 3))).

(** The four constructors, to state what they share. *)
Inductive NetworkKind : Type := V4Tiny | V4 | V5 | X.

Definition network_init (kind : NetworkKind)
  : nat -> option (list PriorShape) -> result DetectionHeads :=
  match kind with
  | V4Tiny => YOLOV4TinyNetwork_init
  | V4 => YOLOV4Network_init
  | V5 => YOLOV5Network_init
  | X => YOLOXNetwork_init
  end.

(* ================================================================== *)
(** * The forward pass: [YOLOV4Network.forward] and [YOLO.forward] *)

(** The loss vector of a detection layer: overlap, confidence and
    classification loss ([losses[0]], [losses[1]], [losses[2]]). *)
Record Losses : Type := mkLosses {
  overlap_loss : Q;
  confidence_loss : Q;
  class_loss : Q
}.

(** The attributes a detection layer sets when it is given targets; they
    do not exist before. *)
Record LayerAttrs : Type := mkLayerAttrs {
  losses_attr : option Losses;
  hits_attr : option Z
}.

(** Reading an attribute that was never set raises [AttributeError]. *)
Definition get_attr {A : Type} (attr : option A) : result A :=
  match attr with
  | Some v => Ok v
  | None => Raise AttributeError
  end.

(** [sum(hits)]. *)
Definition py_sum (hits : list Z) : Z := fold_left Z.add hits 0%Z.

(** [torch.true_divide(layer_hits, total_hits) if total_hits > 0 else 1.0]. *)
Definition hit_rate (layer_hits total_hits : Z) : Q :=
  if (0 <? total_hits)%Z then inject_Z layer_hits / inject_Z total_hits else 1.

(** The name [f"layer_{layer_idx}_hit_rate"] under which a rate is logged. *)
Inductive LogName : Type :=
  | layer_hit_rate (layer_idx : nat).

(** [for layer_idx, layer_hits in enumerate(hits): self.log(...)]: the log
    grows by one record per layer. *)
Fixpoint log_hit_rates (total_hits : Z) (layer_idx : nat) (hits : list Z)
    (log : list (LogName * Q)) : list (LogName * Q) :=
  match hits with
  | [] => log
  | layer_hits :: rest =>
      log_hit_rates total_hits (S layer_idx) rest
        (log ++ [(layer_hit_rate layer_idx, hit_rate layer_hits total_hits)])
  end.

(** [torch.stack(losses)]: the list must not be empty. *)
Definition stack_losses (losses : list Losses) : result (list Losses) :=
  match losses with
  | [] => Raise RuntimeError
  | _ => Ok losses
  end.

Definition Qsum (l : list Q) : Q := fold_right Qplus 0 l.

(** [.sum(0)] of the stacked loss vectors: the sum of each column. *)
Definition sum0 (stacked : list Losses) : Losses :=
  mkLosses (Qsum (map overlap_loss stacked))
           (Qsum (map confidence_loss stacked))
           (Qsum (map class_loss stacked)).

Section Forward.

(** The tensor library and the layers are given: tensors, the target list
    of a batch, image sizes, [torch.cat] (which may refuse its arguments)
    and [get_image_size] of [utils.py]. *)
Variable Tensor : Type.
Variable Targets : Type.
Variable ImageSize : Type.
Variable torch_cat : list Tensor -> nat -> result Tensor.
Variable get_image_size : Tensor -> ImageSize.

(** Modelled from the spec: the detection layer ([layers.py]) is not among
    the sources.  Section 4.4: the layer decodes its input into predictions
    (reshape, sigmoid, grid offsets, prior shapes, corner format, image
    scale); if targets are given it runs the matcher and the loss
    aggregator and stores [losses] (a 3-vector) and [hits] (a scalar) as
    attributes; it returns the raw predictions regardless. *)
Record DetectionLayer : Type := mkDetectionLayer {
  decode : Tensor -> ImageSize -> Tensor;
  match_and_loss : Tensor -> ImageSize -> Targets -> Losses * Z
}.

(** Modelled from the spec: the layer's [forward] (section 4.4, as above);
    the attributes are the state it may change. *)
Definition DetectionLayer_forward (layer : DetectionLayer) (x : Tensor)
    (image_size : ImageSize) (targets : option Targets) (attrs : LayerAttrs)
  : Tensor * LayerAttrs :=
  let output := decode layer x image_size in
  match targets with
  | None => (output, attrs)
  | Some targets =>
      let (losses, hits) := match_and_loss layer output image_size targets in
      (output, mkLayerAttrs (Some losses) (Some hits))
  end.

(** The lists [detections], [losses] and [hits] that a network's forward
    pass fills. *)
Definition Outputs : Type := (list Tensor * list Losses * list Z)%type.

(** [y = self.detectN(x, image_size, targets); detections.append(y)] and,
    if targets are given, [losses.append(self.detectN.losses)] and
    [hits.append(self.detectN.hits)]. *)
Definition run_detect (layer : DetectionLayer) (x : Tensor) (image_size : ImageSize)
    (targets : option Targets) (attrs : LayerAttrs) (outputs : Outputs)
  : result (Outputs * LayerAttrs) :=
  let '(detections, losses, hits) := outputs in
  let (y, attrs) := DetectionLayer_forward layer x image_size targets attrs in
  let detections := detections ++ [y] in
  match targets with
  | None => Ok ((detections, losses, hits), attrs)
  | Some _ =>
      layer_losses <- get_attr (losses_attr attrs) ;;
      layer_hits <- get_attr (hits_attr attrs) ;;
      Ok ((detections, losses ++ [layer_losses], hits ++ [layer_hits]), attrs)
  end.

(** The modules of [YOLOV4Network], as the functions they compute. *)
Record YOLOV4Network : Type := mkYOLOV4Network {
  backbone : Tensor -> Tensor * Tensor * Tensor * Tensor * Tensor;
  pre3 : Tensor -> Tensor;
  fpn3 : Tensor -> Tensor;
  out3 : Tensor -> Tensor;
  pre4 : Tensor -> Tensor;
  fpn4 : Tensor -> Tensor;
  pan4 : Tensor -> Tensor;
  out4 : Tensor -> Tensor;
  pan5 : Tensor -> Tensor;
  out5 : Tensor -> Tensor;
  upsample4 : Tensor -> Tensor;
  upsample5 : Tensor -> Tensor;
  downsample3 : Tensor -> Tensor;
  downsample4 : Tensor -> Tensor;
  v4_detect3 : DetectionLayer;
  v4_detect4 : DetectionLayer;
  v4_detect5 : DetectionLayer
}.

(** The attributes of the three detection layers. *)
Record NetState : Type := mkNetState {
  attrs3 : LayerAttrs;
  attrs4 : LayerAttrs;
  attrs5 : LayerAttrs
}.

Definition YOLOV4Network_forward (self : YOLOV4Network) (x : Tensor)
    (targets : option Targets) (state : NetState)
  : result (Outputs * NetState) :=
  let outputs : Outputs := ([], [], []) in
  let image_size := get_image_size x in
  let '(_, _, c3, c4, c5) := backbone self x in
  x <- torch_cat [pre4 self c4; upsample5 self c5] 1 ;;
  let p4 := fpn4 self x in
  x <- torch_cat [pre3 self c3; upsample4 self p4] 1 ;;
  let n3 := fpn3 self x in
  x <- torch_cat [downsample3 self n3; p4] 1 ;;
  let n4 := pan4 self x in
  x <- torch_cat [downsample4 self n4; c5] 1 ;;
  let n5 := pan5 self x in
  r3 <- run_detect (v4_detect3 self) (out3 self n3) image_size targets
          (attrs3 state) outputs ;;
  r4 <- run_detect (v4_detect4 self) (out4 self n4) image_size targets
          (attrs4 state) (fst r3) ;;
  r5 <- run_detect (v4_detect5 self) (out5 self n5) image_size targets
          (attrs5 state) (fst r4) ;;
  Ok (fst r5, mkNetState (snd r3) (snd r4) (snd r5)).

(** What [YOLO.forward] returns: the detections alone, or the detections
    and the losses. *)
Inductive ForwardOutput : Type :=
  | Detections_only (detections : Tensor)
  | Detections_and_losses (detections : Tensor) (losses : Losses).

(** [self.network] can be any module with this call; [NS] is its state. *)
Definition Network (NS : Type) : Type :=
  Tensor -> option Targets -> NS -> result (Outputs * NS).

(** The state [YOLO.forward] can change: the network's and the log. *)
Record YOLOState (NS : Type) : Type := mkYOLOState {
  net_state : NS;
  log : list (LogName * Q)
}.

Definition YOLO_forward {NS : Type} (network : Network NS) (images : Tensor)
    (targets : option Targets) (state : YOLOState NS)
  : result (ForwardOutput * YOLOState NS) :=
  r <- network images targets (net_state state) ;;
  let '((detections, losses, hits), net) := r in
  detections <- torch_cat detections 1 ;;
  match targets with
  | None => Ok (Detections_only detections, mkYOLOState net (log state))
  | Some _ =>
      let total_hits := py_sum hits in
      let log := log_hit_rates total_hits 0 hits (log state) in
      stacked <- stack_losses losses ;;
      let losses := sum0 stacked in
      Ok (Detections_and_losses detections losses, mkYOLOState net log)
  end.

(** The detections of a forward pass, whatever else it returns. *)
Definition detections_of {NS : Type} (r : result (ForwardOutput * YOLOState NS))
  : result Tensor :=
  out <- r ;;
  match fst out with
  | Detections_only d => Ok d
  | Detections_and_losses d _ => Ok d
  end.

End Forward.

(* ================================================================== *)
(** * Overlap of prior shapes: [aligned_iou] *)

(** Modelled from the spec: [_aligned_iou] ([yolo_layers.py]) is not among
    the sources; only its test is.  Section 4.1: the boxes are taken as
    centered at the origin, so only width and height matter; the result
    holds the intersection over union of every pair of the two sets, of
    shape [[len(dims1), len(dims2)]]. *)
Definition aligned_iou (dims1 dims2 : list (Q * Q)) : list (list Q) :=
  map (fun d1 =>
         map (fun d2 =>
                let inter := Qmin (fst d1) (fst d2) * Qmin (snd d1) (snd d2) in
                let union := fst d1 * snd d1 + fst d2 * snd d2 - inter in
                inter / union)
             dims2)
      dims1.

(* ################################################################## *)
(** * Part II: the vocabulary of the statements *)

(** [j] may stand before [k] in an order of descending score: its score is
    not smaller. *)
Definition desc (score : nat -> Q) (j k : nat) : Prop := score k <= score j.

Definition default_prediction : Prediction := mkPrediction zero_box 0 [].

(** Box, score and label of the selected pair [(predictor, class)]. *)
Definition pair_box (image_preds : list Prediction) (p : nat * nat) : Box :=
  pred_box (nth (fst p) image_preds default_prediction).

Definition pair_score (image_preds : list Prediction) (p : nat * nat) : Q :=
  nth (snd p) (pred_classprobs (nth (fst p) image_preds default_prediction)) 0
  * pred_confidence (nth (fst p) image_preds default_prediction).

Definition candidate_entry (image_preds : list Prediction) (p : nat * nat)
  : Box * (Q * nat) :=
  (pair_box image_preds p, (pair_score image_preds p, snd p)).

(** The rows of a result dictionary, read side by side. *)
Definition entries (d : Detections) : list (Box * (Q * nat)) :=
  combine (det_boxes d) (combine (det_scores d) (det_labels d)).

(** The positions, in the list of selected pairs, that survive suppression
    and truncation. *)
Definition kept_candidates (self : YOLOParams) (image_preds : list Prediction)
  : list nat :=
  let pairs := select_pairs self image_preds in
  py_slice_to (detections_per_image self)
    (batched_nms (map (pair_box image_preds) pairs)
                 (map (pair_score image_preds) pairs)
                 (map snd pairs) (nms_threshold self)).

(** The value [process_image] returns. *)
Definition processed (self : YOLOParams) (image_preds : list Prediction) : Detections :=
  let pairs := select_pairs self image_preds in
  let keep := kept_candidates self image_preds in
  mkDetections
    (map (fun k => nth k (map (pair_box image_preds) pairs) zero_box) keep)
    (map (fun k => nth k (map (pair_score image_preds) pairs) 0) keep)
    (map (fun k => nth k (map snd pairs) 0%nat) keep).

(** The classes a row of a class mask marks, in ascending order. *)
Definition true_classes (row : list bool) : list nat :=
  filter (fun c => nth c row false) (seq 0 (length row)).

(** Single-label form of a multi-label target: box by box, one
    (box, class) row for every class its mask row marks. *)
Definition single_label_rows (boxes : list Box) (mask : list (list bool))
  : list (Box * Z) :=
  flat_map (fun bm => map (fun c => (fst bm, Z.of_nat c)) (true_classes (snd bm)))
           (combine boxes mask).

(** Every row of a class mask belongs to a box ([_validate_batch] has
    checked that labels and boxes have one length). *)
Definition mask_rows_have_boxes (t : Target) : Prop :=
  match tgt_labels t with
  | ClassIds _ => True
  | ClassMask mask => (length mask <= length (tgt_boxes t))%nat
  end.

(** The format the specification asks of a batch. *)
Definition is_tensor (o : PyObj) : Prop := exists shape, o = TensorObj shape.

Definition target_well_formed (t : TargetObj) : Prop :=
  exists n,
    boxes_obj t = TensorObj [n; 4%nat]
    /\ (labels_obj t = TensorObj [n] \/ exists c, labels_obj t = TensorObj [n; c]).

Definition batch_well_formed (batch : list PyObj * list TargetObj) : Prop :=
  length (fst batch) = length (snd batch)
  /\ Forall is_tensor (fst batch)
  /\ Forall target_well_formed (snd batch).

(** [s] is the sum of the numbers [l]: nothing for no number, and one
    number more for each. *)
Inductive is_sum_of : list Q -> Q -> Prop :=
  | sum_of_none : is_sum_of [] 0
  | sum_of_more (x : Q) (l : list Q) (s : Q) :
      is_sum_of l s -> is_sum_of (x :: l) (x + s).

(* ================================================================== *)
(** * Concrete inputs *)

(** Two images of different sizes, with the targets of [example_batch]
    below. *)
Definition ragged_batch : list PyObj * list TargetObj :=
  ( [ TensorObj [3; 4; 4]%nat; TensorObj [3; 8; 8]%nat ],
    [ mkTargetObj (TensorObj [2; 4]%nat) (TensorObj [2]%nat);
      mkTargetObj (TensorObj [0; 4]%nat) (TensorObj [0; 20]%nat) ] ).

(** One predictor whose score exceeds the threshold for both classes, and a
    model that keeps a single detection per image. *)
Definition one_detection_params : YOLOParams := mkYOLOParams (1 # 2) (45 # 100) 1.

Definition two_class_prediction : Prediction :=
  mkPrediction (mkBox 0 0 10 10) 1 [9 # 10; 8 # 10].

Definition three_predictions : list Prediction :=
  [ mkPrediction (mkBox 0 0 10 10) 1 [9 # 10; 8 # 10];
    mkPrediction (mkBox 1 1 10 10) (9 # 10) [1 # 2; 1];
    mkPrediction (mkBox 50 50 60 60) (1 # 2) [1; 0] ].

Definition default_params : YOLOParams := mkYOLOParams (2 # 10) (45 # 100) 300.

Definition faint_predictions : list Prediction :=
  [ mkPrediction (mkBox 0 0 10 10) (1 # 10) [9 # 10; 8 # 10];
    mkPrediction (mkBox 5 5 20 20) (1 # 2) [2 # 5; 0] ].

Definition multi_label_target : Target :=
  mkTarget [mkBox 0 0 4 4; mkBox 2 2 8 8; mkBox 1 1 3 3]
           (ClassMask [[true; false; true]; [false; false; false]; [false; true; false]]).

Definition single_label_target : Target :=
  mkTarget [mkBox 0 0 4 4; mkBox 2 2 8 8] (ClassIds [7%Z; 2%Z]).

Definition example_batch : list PyObj * list TargetObj :=
  ( [ TensorObj [3; 4; 4]%nat; TensorObj [3; 4; 4]%nat ],
    [ mkTargetObj (TensorObj [2; 4]%nat) (TensorObj [2]%nat);
      mkTargetObj (TensorObj [0; 4]%nat) (TensorObj [0; 20]%nat) ] ).

Definition twelve_prior_shapes : list PriorShape :=
  [ (10, 13); (16, 30); (33, 23); (30, 61); (62, 45); (59, 119);
    (116, 90); (156, 198); (373, 326); (400, 380); (420, 400); (459, 401) ]%Z.

(** Tensors as flat lists, concatenation as append, every convolution the
    identity; the three layers report fixed losses and hits. *)
Definition toy_cat (tensors : list (list Q)) (dim : nat) : result (list Q) :=
  Ok (concat tensors).

Definition toy_image_size (x : list Q) : nat := length x.

Definition toy_layer (losses : Losses) (hits : Z) : DetectionLayer (list Q) unit nat :=
  mkDetectionLayer (fun x _ => x) (fun _ _ _ => (losses, hits)).

Definition toy_losses : list Losses :=
  [ mkLosses (1 # 2) (1 # 4) 0; mkLosses 1 (1 # 4) (3 # 2); mkLosses 0 (1 # 2) 0 ].

Definition toy_network : YOLOV4Network (list Q) unit nat :=
  mkYOLOV4Network
    (fun x => (x, x, x, x, x))
    (fun x => x) (fun x => x) (fun x => x) (fun x => x) (fun x => x)
    (fun x => x) (fun x => x) (fun x => x) (fun x => x) (fun x => x)
    (fun x => x) (fun x => x) (fun x => x)
    (toy_layer (mkLosses (1 # 2) (1 # 4) 0) 0)
    (toy_layer (mkLosses 1 (1 # 4) (3 # 2)) 2)
    (toy_layer (mkLosses 0 (1 # 2) 0) 0).

Definition fresh_attrs : LayerAttrs := mkLayerAttrs None None.

Definition toy_state : YOLOState NetState :=
  mkYOLOState (mkNetState fresh_attrs fresh_attrs fresh_attrs) [].

Definition toy_trained_state : NetState :=
  mkNetState (mkLayerAttrs (Some (mkLosses (1 # 2) (1 # 4) 0)) (Some 0%Z))
             (mkLayerAttrs (Some (mkLosses 1 (1 # 4) (3 # 2))) (Some 2%Z))
             (mkLayerAttrs (Some (mkLosses 0 (1 # 2) 0)) (Some 0%Z)).

Definition toy_detections : list (list Q) :=
  [ [1; 1; 1]; [1; 1; 1; 1; 1]; [1; 1; 1; 1; 1; 1] ].

(** The parameters of [test_aligned_iou]. *)
Definition test_dims1 : list (Q * Q) := [ (1, 1); (10, 1); (100, 10) ].

Definition test_dims2 : list (Q * Q) := [ (1, 10); (2, 20) ].

Definition expected_ious : list (list Q) :=
  [ [1 / 10; 1 / 40]; [1 / 19; 2 / 48]; [10 / 1000; 20 / 1020] ].

(* ################################################################## *)
(** * Part III: facts *)

(* ================================================================== *)
(** * Facts about the tensor primitives *)

Lemma Qgtb_true_iff (a b : Q) : Qgtb a b = true <-> b < a.
Proof.
  unfold Qgtb. rewrite negb_true_iff. split; intro H.
  - apply Qnot_le_lt. intro Hle. apply Qle_bool_iff in Hle. congruence.
  - destruct (Qle_bool a b) eqn:E; [| reflexivity].
    apply Qle_bool_iff in E. exfalso. exact (Qlt_not_le _ _ H E).
Qed.

Lemma Qgtb_false_iff (a b : Q) : Qgtb a b = false <-> a <= b.
Proof.
  unfold Qgtb. rewrite negb_false_iff. apply Qle_bool_iff.
Qed.

Lemma index_select_ok (A : Type) (d : A) (t : list A) (idxs : list nat) :
  Forall (fun i => (i < length t)%nat) idxs ->
  index_select t idxs = Ok (map (fun i => nth i t d) idxs).
Proof.
  induction idxs as [| i rest IH]; simpl; intro H.
  - reflexivity.
  - inversion H as [| ? ? Hi Hrest]; subst.
    destruct (nth_error t i) as [a |] eqn:E.
    + rewrite (IH Hrest). simpl. now rewrite (nth_error_nth _ _ d E).
    + apply nth_error_None in E. lia.
Qed.

Lemma index_select2_ok (A : Type) (d : A) (t : list (list A)) (ij : list (nat * nat)) :
  Forall (fun p => exists row, nth_error t (fst p) = Some row
                               /\ (snd p < length row)%nat) ij ->
  index_select2 t ij = Ok (map (fun p => nth (snd p) (nth (fst p) t []) d) ij).
Proof.
  induction ij as [| [i j] rest IH]; simpl; intro H.
  - reflexivity.
  - inversion H as [| ? ? Hi Hrest]; subst.
    destruct Hi as (row & Hrow & Hj). simpl in Hrow, Hj.
    rewrite Hrow. rewrite (nth_error_nth _ _ [] Hrow).
    destruct (nth_error row j) as [a |] eqn:E.
    + rewrite (IH Hrest). simpl. now rewrite (nth_error_nth _ _ d E).
    + apply nth_error_None in E. lia.
Qed.

Lemma nonzero_row_In (i j : nat) (row : list bool) (a b : nat) :
  In (a, b) (nonzero_row i j row) <->
  a = i /\ exists k, b = (j + k)%nat /\ nth_error row k = Some true.
Proof.
  revert j. induction row as [| x rest IH]; intro j; simpl.
  - split; [tauto |]. intros (_ & k & _ & Hk). destruct k; discriminate.
  - rewrite in_app_iff, IH. split.
    + intros [H | (Ha & k & Hb & Hk)].
      * destruct x; simpl in H; [| tauto].
        destruct H as [H | []]. inversion H; subst.
        split; [reflexivity |]. exists 0%nat. split; [lia | reflexivity].
      * split; [assumption |]. exists (S k). split; [lia | assumption].
    + intros (Ha & [| k] & Hb & Hk); simpl in Hk.
      * left. inversion Hk; subst. simpl. left. f_equal. lia.
      * right. split; [assumption |]. exists k. split; [lia | assumption].
Qed.

Lemma nonzero_from_In (i : nat) (mask : list (list bool)) (a b : nat) :
  In (a, b) (nonzero_from i mask) <->
  exists r row, a = (i + r)%nat /\ nth_error mask r = Some row
                /\ nth_error row b = Some true.
Proof.
  revert i. induction mask as [| row0 rest IH]; intro i; simpl.
  - split; [tauto |]. intros ([| r] & row & _ & Hr & _); discriminate.
  - rewrite in_app_iff, IH, nonzero_row_In. split.
    + intros [(Ha & k & Hb & Hk) | (r & row & Ha & Hr & Hb)].
      * exists 0%nat, row0. subst. simpl. repeat split; [lia | assumption].
      * exists (S r), row. repeat split; [lia | assumption | assumption].
    + intros ([| r] & row & Ha & Hr & Hb); simpl in Hr.
      * left. inversion Hr; subst. split; [lia |]. now exists b.
      * right. exists r, row. repeat split; [lia | assumption | assumption].
Qed.

Lemma nonzero_In (mask : list (list bool)) (a b : nat) :
  In (a, b) (nonzero mask) <->
  exists row, nth_error mask a = Some row /\ nth_error row b = Some true.
Proof.
  unfold nonzero. rewrite nonzero_from_In. split.
  - intros (r & row & -> & Hr & Hb). now exists row.
  - intros (row & Hr & Hb). now exists a, row.
Qed.

Lemma nonzero_row_NoDup (i j : nat) (row : list bool) : NoDup (nonzero_row i j row).
Proof.
  revert j. induction row as [| x rest IH]; intro j; simpl.
  - constructor.
  - destruct x; simpl; [| apply IH].
    constructor; [| apply IH].
    rewrite nonzero_row_In. intros (_ & k & Hk & _). lia.
Qed.

Lemma nonzero_from_NoDup (i : nat) (mask : list (list bool)) :
  NoDup (nonzero_from i mask).
Proof.
  revert i. induction mask as [| row rest IH]; intro i; simpl.
  - constructor.
  - apply NoDup_app; [apply nonzero_row_NoDup | apply IH |].
    intros [a b] Hin Hin'.
    apply nonzero_row_In in Hin. apply nonzero_from_In in Hin'.
    destruct Hin as (Ha & _). destruct Hin' as (r & _ & Ha' & _). lia.
Qed.

Lemma nonzero_NoDup (mask : list (list bool)) : NoDup (nonzero mask).
Proof. apply nonzero_from_NoDup. Qed.

(* ================================================================== *)
(** * Facts about the suppression routine *)

Section SortDesc.
Variable score : nat -> Q.

Lemma desc_trans (a b c : nat) : (desc score) a b -> (desc score) b c -> (desc score) a c.
Proof. unfold desc. intros H1 H2. exact (Qle_trans _ _ _ H2 H1). Qed.

Lemma insert_desc_perm (k : nat) (l : list nat) :
  Permutation (insert_desc score k l) (k :: l).
Proof.
  induction l as [| j rest IH]; simpl.
  - apply Permutation_refl.
  - destruct (Qgtb (score j) (score k)).
    + eapply perm_trans; [apply perm_skip, IH | apply perm_swap].
    + apply Permutation_refl.
Qed.

Lemma sort_desc_perm (l : list nat) : Permutation (sort_desc score l) l.
Proof.
  induction l as [| k rest IH]; simpl.
  - apply perm_nil.
  - eapply perm_trans; [apply insert_desc_perm | now apply perm_skip].
Qed.

Lemma insert_desc_sorted (k : nat) (l : list nat) :
  StronglySorted (desc score) l -> StronglySorted (desc score) (insert_desc score k l).
Proof.
  induction l as [| j rest IH]; simpl; intro H.
  - constructor; constructor.
  - inversion H as [| ? ? Hrest Hj]; subst.
    destruct (Qgtb (score j) (score k)) eqn:E.
    + constructor; [now apply IH |].
      apply Qgtb_true_iff in E.
      eapply Permutation_Forall; [apply Permutation_sym, insert_desc_perm |].
      constructor; [apply Qlt_le_weak, E | assumption].
    + apply Qgtb_false_iff in E.
      constructor; [assumption |].
      constructor; [exact E |].
      eapply Forall_impl; [| exact Hj].
      intros a Ha. eapply desc_trans; [exact E | exact Ha].
Qed.

Lemma sort_desc_sorted (l : list nat) : StronglySorted (desc score) (sort_desc score l).
Proof.
  induction l as [| k rest IH]; simpl.
  - constructor.
  - now apply insert_desc_sorted.
Qed.
End SortDesc.

Section Greedy.
Variable suppresses : nat -> nat -> bool.

Lemma nms_greedy_incl (order kept : list nat) :
  incl (nms_greedy suppresses order kept) order.
Proof.
  revert kept. induction order as [| k rest IH]; intro kept; simpl.
  - apply incl_refl.
  - destruct (existsb _ kept).
    + apply incl_tl, IH.
    + apply incl_cons; [now left | apply incl_tl, IH].
Qed.

Lemma nms_greedy_NoDup (order kept : list nat) :
  NoDup order -> NoDup (nms_greedy suppresses order kept).
Proof.
  revert kept. induction order as [| k rest IH]; intros kept H; simpl.
  - constructor.
  - inversion H as [| ? ? Hk Hrest]; subst.
    destruct (existsb _ kept); [now apply IH |].
    constructor; [| now apply IH].
    intro Hin. apply Hk. exact (nms_greedy_incl _ _ _ Hin).
Qed.

Lemma nms_greedy_sorted (R : nat -> nat -> Prop) (order kept : list nat) :
  StronglySorted R order -> StronglySorted R (nms_greedy suppresses order kept).
Proof.
  revert kept. induction order as [| k rest IH]; intros kept H; simpl.
  - constructor.
  - inversion H as [| ? ? Hrest Hk]; subst.
    destruct (existsb _ kept); [now apply IH |].
    constructor; [now apply IH |].
    rewrite Forall_forall in *. intros a Ha.
    apply Hk. exact (nms_greedy_incl _ _ _ Ha).
Qed.

(** When no candidate suppresses another one, the greedy pass keeps all. *)
Lemma nms_greedy_keeps_all (order kept : list nat) :
  NoDup order ->
  (forall k, In k order -> ~ In k kept) ->
  (forall j k, In j (kept ++ order) -> In k order -> j <> k ->
               suppresses j k = false) ->
  nms_greedy suppresses order kept = order.
Proof.
  revert kept. induction order as [| k rest IH]; intros kept Hnd Hkept H; simpl.
  - reflexivity.
  - inversion Hnd as [| ? ? Hk Hrest]; subst.
    replace (existsb (fun j => suppresses j k) kept) with false.
    + f_equal. apply IH.
      * assumption.
      * intros k' Hk' [<- | Hin]; [contradiction |].
        apply (Hkept k'); [now right | assumption].
      * intros j k' Hj Hk'. apply H; [| now right].
        apply in_app_iff. apply in_app_iff in Hj.
        destruct Hj as [[<- | Hj] | Hj];
          [right; now left | now left | right; now right].
    + symmetry. apply not_true_is_false. intro Hex.
      apply existsb_exists in Hex. destruct Hex as (j & Hj & Hs).
      rewrite H in Hs; [discriminate | | now left |].
      * apply in_app_iff. now left.
      * intros ->. apply (Hkept k); [now left | assumption].
Qed.
End Greedy.

Lemma batched_nms_in_range (boxes : list Box) (scores : list Q) (labels : list nat)
    (thr : Q) :
  Forall (fun k => (k < length boxes)%nat) (batched_nms boxes scores labels thr).
Proof.
  apply Forall_forall. intros k Hk. unfold batched_nms in Hk.
  apply nms_greedy_incl in Hk.
  apply (Permutation_in _ (sort_desc_perm _ _)) in Hk.
  apply in_seq in Hk. lia.
Qed.

Lemma batched_nms_NoDup (boxes : list Box) (scores : list Q) (labels : list nat)
    (thr : Q) :
  NoDup (batched_nms boxes scores labels thr).
Proof.
  unfold batched_nms. apply nms_greedy_NoDup.
  eapply Permutation_NoDup; [apply Permutation_sym, sort_desc_perm | apply seq_NoDup].
Qed.

Lemma batched_nms_sorted (boxes : list Box) (scores : list Q) (labels : list nat)
    (thr : Q) :
  StronglySorted (desc (fun k => nth k scores 0))
                 (batched_nms boxes scores labels thr).
Proof.
  unfold batched_nms. apply nms_greedy_sorted, sort_desc_sorted.
Qed.

Lemma py_slice_to_firstn (A : Type) (k : Z) (t : list A) :
  exists n, py_slice_to k t = firstn n t.
Proof.
  unfold py_slice_to. destruct (k <? 0)%Z; eexists; reflexivity.
Qed.

Lemma py_slice_to_length (A : Type) (k : Z) (t : list A) :
  (0 <= k)%Z -> (Z.of_nat (length (py_slice_to k t)) <= k)%Z.
Proof.
  intro Hk. unfold py_slice_to.
  destruct (k <? 0)%Z eqn:E; [apply Z.ltb_lt in E; lia |].
  rewrite length_firstn. lia.
Qed.

Lemma py_slice_to_all (A : Type) (k : Z) (t : list A) :
  (Z.of_nat (length t) <= k)%Z -> py_slice_to k t = t.
Proof.
  intro Hk. unfold py_slice_to.
  destruct (k <? 0)%Z eqn:E; [apply Z.ltb_lt in E; lia |].
  apply firstn_all2. lia.
Qed.

Lemma firstn_incl (A : Type) (n : nat) (l : list A) : incl (firstn n l) l.
Proof.
  revert n. induction l as [| a l IH]; intros [| n]; simpl;
    try apply incl_refl; try apply incl_nil_l.
  apply incl_cons; [now left | apply incl_tl, IH].
Qed.

Lemma firstn_NoDup (A : Type) (n : nat) (l : list A) : NoDup l -> NoDup (firstn n l).
Proof.
  revert n. induction l as [| a l IH]; intros [| n] H; simpl; try constructor.
  - inversion H; subst. intro Hin. now apply firstn_incl in Hin.
  - inversion H; subst. now apply IH.
Qed.

Lemma firstn_sorted (A : Type) (R : A -> A -> Prop) (n : nat) (l : list A) :
  StronglySorted R l -> StronglySorted R (firstn n l).
Proof.
  revert n. induction l as [| a l IH]; intros [| n] H; simpl; try constructor.
  - inversion H; subst. now apply IH.
  - inversion H as [| ? ? _ Ha]; subst.
    rewrite Forall_forall in *. intros b Hb. apply Ha.
    exact (firstn_incl _ _ _ Hb).
Qed.

Lemma map_sorted (A B : Type) (f : A -> B) (R : B -> B -> Prop) (l : list A) :
  StronglySorted (fun a b => R (f a) (f b)) l -> StronglySorted R (map f l).
Proof.
  induction 1 as [| a l _ IH Ha]; simpl; constructor.
  - exact IH.
  - rewrite Forall_forall in *. intros b Hb.
    apply in_map_iff in Hb. destruct Hb as (x & <- & Hx). now apply Ha.
Qed.

(* ================================================================== *)
(** * Facts about [process_detections] *)

Lemma image_scores_eq (image_preds : list Prediction) :
  image_scores image_preds =
  map (fun pr => map (fun p => p * pred_confidence pr) (pred_classprobs pr))
      image_preds.
Proof.
  unfold image_scores, mul_broadcast.
  induction image_preds as [| pr rest IH]; simpl; [reflexivity | now rewrite IH].
Qed.

Lemma select_pairs_In (self : YOLOParams) (image_preds : list Prediction) (i c : nat) :
  In (i, c) (select_pairs self image_preds) <->
  exists pr p, nth_error image_preds i = Some pr
               /\ nth_error (pred_classprobs pr) c = Some p
               /\ confidence_threshold self < p * pred_confidence pr.
Proof.
  unfold select_pairs, gt_mask. rewrite nonzero_In, image_scores_eq, map_map.
  split.
  - intros (row & Hrow & Hc).
    rewrite nth_error_map in Hrow.
    destruct (nth_error image_preds i) as [pr |] eqn:Ei; [| discriminate].
    simpl in Hrow. inversion Hrow; subst row. clear Hrow.
    rewrite map_map, nth_error_map in Hc.
    destruct (nth_error (pred_classprobs pr) c) as [p |] eqn:Ec; [| discriminate].
    simpl in Hc. inversion Hc as [Hgt]. apply Qgtb_true_iff in Hgt.
    now exists pr, p.
  - intros (pr & p & Hi & Hc & Hgt).
    eexists. rewrite nth_error_map, Hi. simpl. split; [reflexivity |].
    rewrite map_map, nth_error_map, Hc. simpl.
    f_equal. now apply Qgtb_true_iff.
Qed.

Lemma select_pairs_NoDup (self : YOLOParams) (image_preds : list Prediction) :
  NoDup (select_pairs self image_preds).
Proof. apply nonzero_NoDup. Qed.

Lemma selected_boxes_eq (self : YOLOParams) (image_preds : list Prediction) :
  index_select (map pred_box image_preds) (map fst (select_pairs self image_preds))
  = Ok (map (pair_box image_preds) (select_pairs self image_preds)).
Proof.
  rewrite (index_select_ok zero_box).
  - rewrite map_map. f_equal. apply map_ext. intros [i c]. unfold pair_box. simpl.
    change zero_box with (pred_box default_prediction). apply map_nth.
  - apply Forall_forall. intros i Hi. apply in_map_iff in Hi.
    destruct Hi as ([i' c] & <- & Hin). simpl.
    apply select_pairs_In in Hin. destruct Hin as (pr & _ & Hpr & _).
    rewrite length_map. apply nth_error_Some. congruence.
Qed.

Lemma selected_scores_eq (self : YOLOParams) (image_preds : list Prediction) :
  index_select2 (image_scores image_preds) (select_pairs self image_preds)
  = Ok (map (pair_score image_preds) (select_pairs self image_preds)).
Proof.
  rewrite (index_select2_ok 0).
  - f_equal. apply map_ext_in. intros [i c] Hin. simpl.
    apply select_pairs_In in Hin. destruct Hin as (pr & p & Hpr & Hp & _).
    unfold pair_score. simpl.
    rewrite (nth_error_nth _ _ default_prediction Hpr).
    rewrite (nth_error_nth _ _ 0 Hp).
    rewrite image_scores_eq.
    erewrite (nth_error_nth _ _ []);
      [| rewrite nth_error_map, Hpr; reflexivity].
    apply nth_error_nth. now rewrite nth_error_map, Hp.
  - apply Forall_forall. intros [i c] Hin. simpl.
    apply select_pairs_In in Hin. destruct Hin as (pr & p & Hpr & Hp & _).
    rewrite image_scores_eq.
    eexists. rewrite nth_error_map, Hpr. simpl. split; [reflexivity |].
    rewrite length_map. apply nth_error_Some. congruence.
Qed.

Lemma combine_fst_snd (A B : Type) (l : list (A * B)) :
  combine (map fst l) (map snd l) = l.
Proof.
  induction l as [| [a b] l IH]; simpl; [reflexivity | now rewrite IH].
Qed.

Lemma kept_candidates_in_range (self : YOLOParams) (image_preds : list Prediction) :
  Forall (fun k => (k < length (select_pairs self image_preds))%nat)
         (kept_candidates self image_preds).
Proof.
  unfold kept_candidates.
  destruct (py_slice_to_firstn (detections_per_image self)
              (batched_nms (map (pair_box image_preds) (select_pairs self image_preds))
                           (map (pair_score image_preds) (select_pairs self image_preds))
                           (map snd (select_pairs self image_preds))
                           (nms_threshold self))) as (n & ->).
  apply Forall_forall. intros k Hk. apply firstn_incl in Hk.
  pose proof (batched_nms_in_range
                (map (pair_box image_preds) (select_pairs self image_preds))
                (map (pair_score image_preds) (select_pairs self image_preds))
                (map snd (select_pairs self image_preds)) (nms_threshold self)) as H.
  rewrite Forall_forall in H. apply H in Hk. now rewrite length_map in Hk.
Qed.

(** The loop body never raises, and its result is the gathering of the
    selected pairs at the kept positions. *)
Lemma process_image_eq (self : YOLOParams) (image_preds : list Prediction) :
  process_image self image_preds =
  let pairs := select_pairs self image_preds in
  let keep := kept_candidates self image_preds in
  Ok (mkDetections
        (map (fun k => nth k (map (pair_box image_preds) pairs) zero_box) keep)
        (map (fun k => nth k (map (pair_score image_preds) pairs) 0) keep)
        (map (fun k => nth k (map snd pairs) 0%nat) keep)).
Proof.
  unfold process_image.
  rewrite selected_boxes_eq. simpl.
  rewrite combine_fst_snd, selected_scores_eq. simpl.
  fold (kept_candidates self image_preds).
  pose proof (kept_candidates_in_range self image_preds) as Hr.
  rewrite (index_select_ok zero_box) by now rewrite length_map.
  simpl.
  rewrite (index_select_ok 0) by now rewrite length_map.
  simpl.
  rewrite (index_select_ok 0%nat) by now rewrite length_map.
  reflexivity.
Qed.

Lemma for_each_append (A B : Type) (f : A -> result B) (g : A -> B)
    (xs : list A) (acc : list B) :
  (forall x, f x = Ok (g x)) ->
  for_each (fun result x => y <- f x ;; Ok (result ++ [y])) xs acc
  = Ok (acc ++ map g xs).
Proof.
  intro Hf. revert acc. induction xs as [| x rest IH]; intro acc; simpl.
  - now rewrite app_nil_r.
  - rewrite Hf. simpl. rewrite IH, <- app_assoc. reflexivity.
Qed.

Lemma process_detections_eq (self : YOLOParams) (preds : list (list Prediction)) :
  process_detections self preds = Ok (map (processed self) preds).
Proof.
  unfold process_detections.
  rewrite (for_each_append _ (processed self)); [reflexivity |].
  intro image_preds. apply process_image_eq.
Qed.

Lemma combine_map3 (A B C D : Type) (f : A -> B) (g : A -> C) (h : A -> D)
    (l : list A) :
  combine (map f l) (combine (map g l) (map h l))
  = map (fun a => (f a, (g a, h a))) l.
Proof.
  induction l as [| a l IH]; simpl; [reflexivity | now rewrite IH].
Qed.

Lemma nth_map_in_range (A B : Type) (f : A -> B) (l : list A) (k : nat)
    (d : A) (d' : B) :
  (k < length l)%nat -> nth k (map f l) d' = f (nth k l d).
Proof.
  intro Hk. rewrite (nth_indep _ d' (f d)) by now rewrite length_map.
  apply map_nth.
Qed.

Lemma map_nth_seq_all (A : Type) (d : A) (l : list A) :
  map (fun k => nth k l d) (seq 0 (length l)) = l.
Proof.
  apply (nth_ext _ _ d d).
  - now rewrite length_map, length_seq.
  - intros n Hn. rewrite length_map, length_seq in Hn.
    rewrite (nth_map_in_range (fun k => nth k l d) _ 0%nat d)
      by now rewrite length_seq.
    now rewrite seq_nth.
Qed.

Lemma entries_processed (self : YOLOParams) (image_preds : list Prediction) :
  entries (processed self image_preds)
  = map (fun k => candidate_entry image_preds
                    (nth k (select_pairs self image_preds) (0%nat, 0%nat)))
        (kept_candidates self image_preds).
Proof.
  unfold entries, processed. simpl. rewrite combine_map3.
  apply map_ext_in. intros k Hk.
  pose proof (kept_candidates_in_range self image_preds) as Hr.
  rewrite Forall_forall in Hr. specialize (Hr k Hk).
  unfold candidate_entry.
  rewrite (nth_map_in_range (pair_box image_preds) _ (0%nat, 0%nat)) by assumption.
  rewrite (nth_map_in_range (pair_score image_preds) _ (0%nat, 0%nat)) by assumption.
  rewrite (nth_map_in_range snd _ (0%nat, 0%nat)) by assumption.
  reflexivity.
Qed.

Lemma kept_candidates_NoDup (self : YOLOParams) (image_preds : list Prediction) :
  NoDup (kept_candidates self image_preds).
Proof.
  unfold kept_candidates.
  destruct (py_slice_to_firstn (detections_per_image self)
              (batched_nms (map (pair_box image_preds) (select_pairs self image_preds))
                           (map (pair_score image_preds) (select_pairs self image_preds))
                           (map snd (select_pairs self image_preds))
                           (nms_threshold self))) as (n & ->).
  apply firstn_NoDup, batched_nms_NoDup.
Qed.

(** Candidates that do not overlap another candidate of the same label
    above the threshold all survive, as long as truncation leaves room. *)
Lemma kept_candidates_all (self : YOLOParams) (image_preds : list Prediction) :
  (Z.of_nat (length (select_pairs self image_preds))
     <= detections_per_image self)%Z ->
  (forall i1 i2 c, i1 <> i2 ->
     In (i1, c) (select_pairs self image_preds) ->
     In (i2, c) (select_pairs self image_preds) ->
     box_iou (pair_box image_preds (i1, c)) (pair_box image_preds (i2, c))
       <= nms_threshold self) ->
  Permutation (kept_candidates self image_preds)
              (seq 0 (length (select_pairs self image_preds))).
Proof.
  intros Hroom Hfree. unfold kept_candidates.
  set (pairs := select_pairs self image_preds) in *.
  unfold batched_nms. rewrite length_map.
  rewrite nms_greedy_keeps_all.
  - rewrite py_slice_to_all; [apply sort_desc_perm |].
    rewrite (Permutation_length (sort_desc_perm _ _)), length_seq. exact Hroom.
  - eapply Permutation_NoDup; [apply Permutation_sym, sort_desc_perm | apply seq_NoDup].
  - intros k _ [].
  - intros j k Hj Hk Hjk. simpl in Hj.
    apply (Permutation_in _ (sort_desc_perm _ _)) in Hk. apply in_seq in Hk.
    apply (Permutation_in _ (sort_desc_perm _ _)) in Hj. apply in_seq in Hj.
    destruct (Nat.eqb (nth j (map snd pairs) 0%nat) (nth k (map snd pairs) 0%nat))
      eqn:El; [| reflexivity].
    simpl. apply Nat.eqb_eq in El.
    apply Qgtb_false_iff.
    rewrite (nth_map_in_range (pair_box image_preds) _ (0%nat, 0%nat)) by lia.
    rewrite (nth_map_in_range (pair_box image_preds) _ (0%nat, 0%nat)) by lia.
    rewrite (nth_map_in_range snd _ (0%nat, 0%nat)) in El by lia.
    rewrite (nth_map_in_range snd _ (0%nat, 0%nat)) in El by lia.
    assert (Hinj : In (nth j pairs (0%nat, 0%nat)) pairs) by (apply nth_In; lia).
    assert (Hink : In (nth k pairs (0%nat, 0%nat)) pairs) by (apply nth_In; lia).
    assert (Hne : nth j pairs (0%nat, 0%nat) <> nth k pairs (0%nat, 0%nat)).
    { intro Heq. apply Hjk.
      apply (proj1 (NoDup_nth pairs (0%nat, 0%nat)) (select_pairs_NoDup _ _));
        [lia | lia | assumption]. }
    destruct (nth j pairs (0%nat, 0%nat)) as [i1 c1].
    destruct (nth k pairs (0%nat, 0%nat)) as [i2 c2].
    simpl in El. subst c2.
    apply Hfree; [| assumption | assumption].
    intros ->. now apply Hne.
Qed.

Lemma Forall2_map_self (A B : Type) (P : A -> B -> Prop) (f : A -> B) (l : list A) :
  (forall a, P a (f a)) -> Forall2 P l (map f l).
Proof.
  intro H. induction l as [| a l IH]; simpl; constructor; [apply H | exact IH].
Qed.

Lemma candidate_entry_eq (image_preds : list Prediction) (i c : nat)
    (pr : Prediction) (p : Q) :
  nth_error image_preds i = Some pr ->
  nth_error (pred_classprobs pr) c = Some p ->
  candidate_entry image_preds (i, c) = (pred_box pr, (p * pred_confidence pr, c)).
Proof.
  intros Hpr Hp. unfold candidate_entry, pair_box, pair_score. simpl.
  rewrite (nth_error_nth _ _ default_prediction Hpr).
  now rewrite (nth_error_nth _ _ 0 Hp).
Qed.

(** C1 (amended).  For every image, [process_detections] scores each
    (predictor, class) pair by class probability times confidence and
    selects, each once, exactly the pairs whose score exceeds
    [confidence_threshold]; a selected pair stands for the row (box of the
    predictor, that score, the class as label), so two classes of one
    predictor give two rows with the same box.  The output rows are selected
    pairs, none repeated; they are all of them whenever truncation leaves
    room and no two selected pairs of the same label overlap above
    [nms_threshold]. *)
Theorem process_detections_selects_pairs
    (self : YOLOParams) (preds : list (list Prediction)) :
  exists result,
    process_detections self preds = Ok result /\
    Forall2
      (fun image_preds d =>
         let pairs := select_pairs self image_preds in
         NoDup pairs /\
         (forall i c,
             In (i, c) pairs <->
             exists pr p,
               nth_error image_preds i = Some pr
               /\ nth_error (pred_classprobs pr) c = Some p
               /\ confidence_threshold self < p * pred_confidence pr
               /\ candidate_entry image_preds (i, c)
                  = (pred_box pr, (p * pred_confidence pr, c))) /\
         (exists keep,
             NoDup keep
             /\ Forall (fun k => (k < length pairs)%nat) keep
             /\ entries d
                = map (fun k => candidate_entry image_preds (nth k pairs (0%nat, 0%nat)))
                      keep) /\
         ((Z.of_nat (length pairs) <= detections_per_image self)%Z ->
          (forall i1 i2 c, i1 <> i2 -> In (i1, c) pairs -> In (i2, c) pairs ->
             box_iou (pair_box image_preds (i1, c)) (pair_box image_preds (i2, c))
               <= nms_threshold self) ->
          Permutation (entries d) (map (candidate_entry image_preds) pairs)))
      preds result.
Proof.
  exists (map (processed self) preds). split; [apply process_detections_eq |].
  apply Forall2_map_self. intro image_preds. cbv zeta.
  split; [apply select_pairs_NoDup |]. split; [| split].
  - intros i c. rewrite select_pairs_In. split.
    + intros (pr & p & Hpr & Hp & Hgt). exists pr, p.
      repeat split; try assumption. now apply candidate_entry_eq.
    + intros (pr & p & Hpr & Hp & Hgt & _). now exists pr, p.
  - exists (kept_candidates self image_preds).
    split; [apply kept_candidates_NoDup |].
    split; [apply kept_candidates_in_range | apply entries_processed].
  - intros Hroom Hfree. rewrite entries_processed.
    eapply perm_trans;
      [apply Permutation_map, kept_candidates_all; assumption |].
    rewrite <- (map_map (fun k => nth k (select_pairs self image_preds) (0%nat, 0%nat))
                        (candidate_entry image_preds)).
    rewrite map_nth_seq_all. apply Permutation_refl.
Qed.

(** C1 (as stated) fails: both classes of the only predictor score above the
    threshold, yet the output holds one entry, not two. *)
Lemma process_detections_duplication_counterexample :
  confidence_threshold one_detection_params < (9 # 10) * 1
  /\ confidence_threshold one_detection_params < (8 # 10) * 1
  /\ process_detections one_detection_params [[two_class_prediction]]
     = Ok [mkDetections [mkBox 0 0 10 10] [9 # 10] [0%nat]].
Proof.
  repeat split.
Qed.

(** C2.  When [detections_per_image] is a count (not negative), every
    image's result holds at most that many entries, its three tensors have
    one length, and its scores are in non-increasing order. *)
Theorem process_detections_truncated_sorted
    (self : YOLOParams) (preds : list (list Prediction)) :
  (0 <= detections_per_image self)%Z ->
  exists result,
    process_detections self preds = Ok result /\
    length result = length preds /\
    Forall
      (fun d =>
         (Z.of_nat (length (det_scores d)) <= detections_per_image self)%Z
         /\ length (det_boxes d) = length (det_scores d)
         /\ length (det_labels d) = length (det_scores d)
         /\ StronglySorted (fun a b => b <= a) (det_scores d))
      result.
Proof.
  intro Hcount.
  exists (map (processed self) preds). split; [apply process_detections_eq |].
  split; [apply length_map |].
  apply Forall_forall. intros d Hd. apply in_map_iff in Hd.
  destruct Hd as (image_preds & <- & _). unfold processed. simpl.
  rewrite !length_map. repeat split.
  - unfold kept_candidates. now apply py_slice_to_length.
  - apply map_sorted. unfold kept_candidates.
    destruct (py_slice_to_firstn (detections_per_image self)
                (batched_nms (map (pair_box image_preds) (select_pairs self image_preds))
                             (map (pair_score image_preds) (select_pairs self image_preds))
                             (map snd (select_pairs self image_preds))
                             (nms_threshold self))) as (n & ->).
    apply firstn_sorted. apply batched_nms_sorted.
Qed.

(** At a model that keeps one detection per image, on two images. *)
Lemma process_detections_truncated_sorted_witness :
  (0 <= detections_per_image one_detection_params)%Z
  /\ exists result,
       process_detections one_detection_params [three_predictions; []] = Ok result /\
       length result = 2%nat /\
       Forall
         (fun d =>
            (Z.of_nat (length (det_scores d))
               <= detections_per_image one_detection_params)%Z
            /\ length (det_boxes d) = length (det_scores d)
            /\ length (det_labels d) = length (det_scores d)
            /\ StronglySorted (fun a b => b <= a) (det_scores d))
         result.
Proof.
  split; [simpl; lia |].
  apply (process_detections_truncated_sorted one_detection_params
           [three_predictions; []]).
  simpl; lia.
Defined.

(** C8.  An image none of whose (predictor, class) pairs scores above
    [confidence_threshold] gets a dictionary of three empty tensors, and no
    exception is raised. *)
Theorem process_detections_empty
    (self : YOLOParams) (preds : list (list Prediction)) (n : nat)
    (image_preds : list Prediction) :
  nth_error preds n = Some image_preds ->
  (forall pr p, In pr image_preds -> In p (pred_classprobs pr) ->
                p * pred_confidence pr <= confidence_threshold self) ->
  exists result,
    process_detections self preds = Ok result
    /\ nth_error result n = Some (mkDetections [] [] []).
Proof.
  intros Hn Hlow.
  exists (map (processed self) preds). split; [apply process_detections_eq |].
  rewrite nth_error_map, Hn. simpl. f_equal.
  assert (Hnone : select_pairs self image_preds = []).
  { destruct (select_pairs self image_preds) as [| [i c] rest] eqn:E; [reflexivity |].
    assert (Hin : In (i, c) (select_pairs self image_preds)) by (rewrite E; now left).
    apply select_pairs_In in Hin. destruct Hin as (pr & p & Hpr & Hp & Hgt).
    exfalso. apply (Qlt_not_le _ _ Hgt).
    apply Hlow; eapply nth_error_In; eassumption. }
  unfold processed, kept_candidates. rewrite Hnone. simpl.
  unfold batched_nms, py_slice_to. simpl.
  destruct (detections_per_image self <? 0)%Z; rewrite ?firstn_nil; reflexivity.
Qed.

(** At the default thresholds, on an image whose scores all stay below. *)
Lemma process_detections_empty_witness :
  nth_error [three_predictions; faint_predictions] 1 = Some faint_predictions
  /\ exists result,
       process_detections default_params [three_predictions; faint_predictions]
       = Ok result
       /\ nth_error result 1 = Some (mkDetections [] [] []).
Proof.
  split; [reflexivity |].
  apply (process_detections_empty default_params
           [three_predictions; faint_predictions] 1 (image_preds := faint_predictions)).
  - reflexivity.
  - intros pr p Hpr Hp. simpl in Hpr.
    destruct Hpr as [<- | [<- | []]]; simpl in Hp;
      destruct Hp as [<- | [<- | []]]; vm_compute; discriminate.
Defined.

(** At the default thresholds the two classes of the one predictor both
    reach the output, with the same box. *)
Lemma process_detections_selects_pairs_witness :
  process_detections default_params [[two_class_prediction]]
  = Ok [mkDetections [mkBox 0 0 10 10; mkBox 0 0 10 10] [9 # 10; 8 # 10] [0; 1]%nat]
  /\ Permutation
       (entries (mkDetections [mkBox 0 0 10 10; mkBox 0 0 10 10]
                              [9 # 10; 8 # 10] [0; 1]%nat))
       (map (candidate_entry [two_class_prediction])
            (select_pairs default_params [two_class_prediction])).
Proof.
  split; [reflexivity |].
  destruct (process_detections_selects_pairs default_params [[two_class_prediction]])
    as (result & Heq & Hall).
  vm_compute in Heq. injection Heq as <-.
  inversion Hall as [| ? ? ? ? Hone _]; subst. cbv zeta in Hone.
  destruct Hone as (_ & _ & _ & Hperm). apply Hperm.
  - vm_compute. discriminate.
  - intros i1 i2 c Hne H1 H2.
    vm_compute in H1. vm_compute in H2.
    destruct H1 as [H1 | [H1 | []]]; destruct H2 as [H2 | [H2 | []]];
      congruence.
Defined.

(* ================================================================== *)
(** * Facts about [process_targets] *)

Lemma true_classes_cons (b : bool) (row : list bool) :
  true_classes (b :: row)
  = (if b then [0%nat] else []) ++ map S (true_classes row).
Proof.
  unfold true_classes. simpl length. rewrite <- cons_seq. simpl filter.
  rewrite <- seq_shift, filter_map_swap. simpl.
  destruct b; reflexivity.
Qed.

Lemma true_classes_In (row : list bool) (c : nat) :
  In c (true_classes row) <-> nth_error row c = Some true.
Proof.
  unfold true_classes. rewrite filter_In, in_seq. split.
  - intros (Hc & Hnth). rewrite <- Hnth. apply nth_error_nth'. lia.
  - intro H. split.
    + split; [lia |]. simpl. apply nth_error_Some. congruence.
    + now apply nth_error_nth.
Qed.

Lemma true_classes_NoDup (row : list bool) : NoDup (true_classes row).
Proof. apply NoDup_filter, seq_NoDup. Qed.

Lemma nonzero_row_true_classes (i j : nat) (row : list bool) :
  nonzero_row i j row = map (fun c => (i, (j + c)%nat)) (true_classes row).
Proof.
  revert j. induction row as [| b rest IH]; intro j.
  - reflexivity.
  - simpl nonzero_row. rewrite true_classes_cons, map_app, map_map, IH.
    f_equal.
    + destruct b; simpl; [now rewrite Nat.add_0_r | reflexivity].
    + apply map_ext. intro c. f_equal. lia.
Qed.

Lemma skipn_nth_cons (A : Type) (d : A) (i : nat) (l : list A) :
  (i < length l)%nat -> skipn i l = nth i l d :: skipn (S i) l.
Proof.
  revert l. induction i as [| i IH]; intros [| a l] H; simpl in *; try lia.
  - reflexivity.
  - apply IH. lia.
Qed.

Lemma nonzero_from_rows (boxes : list Box) (mask : list (list bool)) (i : nat) :
  (i + length mask <= length boxes)%nat ->
  map (fun p => (nth (fst p) boxes zero_box, Z.of_nat (snd p))) (nonzero_from i mask)
  = single_label_rows (skipn i boxes) mask.
Proof.
  revert i. induction mask as [| row rest IH]; intros i Hlen; simpl in *.
  - unfold single_label_rows. now rewrite combine_nil.
  - rewrite map_app, IH by lia.
    rewrite (@skipn_nth_cons _ zero_box i boxes) by lia.
    unfold single_label_rows. simpl. f_equal.
    rewrite nonzero_row_true_classes, map_map. reflexivity.
Qed.

Lemma combine_map_fst_all (A B C : Type) (f : A -> B) (g : A -> C) (l : list A) :
  combine (map f l) (map g l) = map (fun a => (f a, g a)) l.
Proof.
  induction l as [| a l IH]; simpl; [reflexivity | now rewrite IH].
Qed.

Lemma process_image_targets_mask (boxes : list Box) (mask : list (list bool)) :
  (length mask <= length boxes)%nat ->
  exists boxes' ids,
    process_image_targets (mkTarget boxes (ClassMask mask))
    = Ok (mkTarget boxes' (ClassIds ids))
    /\ length boxes' = length ids
    /\ combine boxes' ids = single_label_rows boxes mask.
Proof.
  intro Hlen. unfold process_image_targets. simpl.
  rewrite (index_select_ok zero_box).
  - simpl. do 2 eexists. split; [reflexivity |].
    split; [now rewrite !length_map |].
    rewrite map_map, combine_map_fst_all.
    exact (nonzero_from_rows boxes mask 0 Hlen).
  - apply Forall_forall. intros i Hi. apply in_map_iff in Hi.
    destruct Hi as ([a b] & <- & Hin). simpl.
    apply nonzero_In in Hin. destruct Hin as (row & Hrow & _).
    assert (a < length mask)%nat by (apply nth_error_Some; congruence). lia.
Qed.

(** C10.  [process_targets] returns a target with one-dimensional labels as
    it is, and turns a target with a two-dimensional class mask into
    single-label form: box by box, one (box, class) row for every class the
    box's mask row marks.  (That every mask row has a box is what
    [_validate_batch] has checked.) *)
Theorem process_targets_single_label (targets : list Target) :
  Forall mask_rows_have_boxes targets ->
  exists result,
    process_targets targets = Ok result /\
    Forall2
      (fun t r =>
         match tgt_labels t with
         | ClassIds _ => r = t
         | ClassMask mask =>
             exists ids,
               tgt_labels r = ClassIds ids
               /\ length (tgt_boxes r) = length ids
               /\ combine (tgt_boxes r) ids = single_label_rows (tgt_boxes t) mask
               /\ Forall (fun row =>
                            NoDup (true_classes row)
                            /\ forall c, In c (true_classes row)
                                         <-> nth_error row c = Some true) mask
         end)
      targets result.
Proof.
  intro Hvalid. unfold process_targets.
  assert (Hgen : forall acc,
             exists out,
               for_each (fun result image_targets =>
                           t <- process_image_targets image_targets ;;
                           Ok (result ++ [t])) targets acc = Ok (acc ++ out)
               /\ Forall2
                    (fun t r =>
                       match tgt_labels t with
                       | ClassIds _ => r = t
                       | ClassMask mask =>
                           exists ids,
                             tgt_labels r = ClassIds ids
                             /\ length (tgt_boxes r) = length ids
                             /\ combine (tgt_boxes r) ids
                                = single_label_rows (tgt_boxes t) mask
                             /\ Forall (fun row =>
                                          NoDup (true_classes row)
                                          /\ forall c, In c (true_classes row)
                                                       <-> nth_error row c = Some true)
                                       mask
                       end) targets out).
  { induction Hvalid as [| t rest Ht _ IH]; intro acc; simpl.
    - exists []. split; [now rewrite app_nil_r | constructor].
    - destruct t as [boxes [ids | mask]]; unfold mask_rows_have_boxes in Ht; simpl in Ht.
      + simpl. destruct (IH (acc ++ [mkTarget boxes (ClassIds ids)])) as (out & Hout & Hall).
        exists (mkTarget boxes (ClassIds ids) :: out).
        split; [now rewrite Hout, <- app_assoc |].
        constructor; [reflexivity | exact Hall].
      + destruct (process_image_targets_mask boxes mask) as (boxes' & ids & Heq & Hl & Hrows);
          [lia |].
        rewrite Heq. simpl.
        destruct (IH (acc ++ [mkTarget boxes' (ClassIds ids)])) as (out & Hout & Hall).
        exists (mkTarget boxes' (ClassIds ids) :: out).
        split; [now rewrite Hout, <- app_assoc |].
        constructor; [| exact Hall].
        simpl. exists ids. repeat split; try assumption.
        apply Forall_forall. intros row _.
        split; [apply true_classes_NoDup | apply true_classes_In]. }
  destruct (Hgen []) as (out & Hout & Hall). now exists out.
Qed.

(** On one single-label and one multi-label target. *)
Lemma process_targets_single_label_witness :
  Forall mask_rows_have_boxes [single_label_target; multi_label_target]
  /\ process_targets [single_label_target; multi_label_target]
     = Ok [ single_label_target;
            mkTarget [mkBox 0 0 4 4; mkBox 0 0 4 4; mkBox 1 1 3 3]
                     (ClassIds [0%Z; 2%Z; 1%Z]) ]
  /\ exists result,
       process_targets [single_label_target; multi_label_target] = Ok result /\
       Forall2
         (fun t r =>
            match tgt_labels t with
            | ClassIds _ => r = t
            | ClassMask mask =>
                exists ids,
                  tgt_labels r = ClassIds ids
                  /\ length (tgt_boxes r) = length ids
                  /\ combine (tgt_boxes r) ids = single_label_rows (tgt_boxes t) mask
                  /\ Forall (fun row =>
                               NoDup (true_classes row)
                               /\ forall c, In c (true_classes row)
                                            <-> nth_error row c = Some true) mask
            end)
         [single_label_target; multi_label_target] result.
Proof.
  assert (H : Forall mask_rows_have_boxes [single_label_target; multi_label_target])
    by (repeat constructor; unfold mask_rows_have_boxes; simpl; lia).
  split; [exact H |]. split; [reflexivity |].
  exact (process_targets_single_label H).
Defined.

(* ================================================================== *)
(** * Facts about [_validate_batch] *)

Lemma check_image_cases (image : PyObj) :
  (is_tensor image /\ check_image image = Ok tt)
  \/ (~ is_tensor image /\ exists msg, check_image image = Raise (ValueError msg)).
Proof.
  destruct image as [shape | ty]; simpl.
  - left. split; [now exists shape | reflexivity].
  - right. split; [intros (shape & H); discriminate | eexists; reflexivity].
Qed.

Lemma check_target_cases (target : TargetObj) :
  (target_well_formed target /\ check_target target = Ok tt)
  \/ (~ target_well_formed target
      /\ exists msg, check_target target = Raise (ValueError msg)).
Proof.
  destruct target as [boxes labels]. unfold check_target, target_well_formed. simpl.
  destruct boxes as [bshape | ty];
    [| right; split; [intros (n & H & _); discriminate | eexists; reflexivity]].
  destruct bshape as [| n [| m [| x bs]]]; simpl;
    try (right; split; [intros (k & H & _); discriminate | eexists; reflexivity]).
  destruct (Nat.eqb_spec m 4) as [-> | Hm]; simpl;
    [| right; split; [intros (k & H & _); congruence | eexists; reflexivity]].
  destruct labels as [lshape | ty];
    [| right; split; [intros (k & _ & [H | (c & H)]); discriminate
                     | eexists; reflexivity]].
  destruct lshape as [| l [| c [| y ls]]]; simpl;
    try (right; split; [intros (k & _ & [H | (c' & H)]); discriminate
                       | eexists; reflexivity]).
  - destruct (Nat.eqb_spec l n) as [-> | Hl]; simpl.
    + left. split; [| reflexivity]. exists n. split; [reflexivity | now left].
    + right. split; [| eexists; reflexivity].
      intros (k & Hb & [H | (c' & H)]); congruence.
  - destruct (Nat.eqb_spec l n) as [-> | Hl]; simpl.
    + left. split; [| reflexivity]. exists n. split; [reflexivity |].
      right. now exists c.
    + right. split; [| eexists; reflexivity].
      intros (k & Hb & [H | (c' & H)]); congruence.
Qed.

Lemma for_each_check (A : Type) (check : A -> result unit) (P : A -> Prop) :
  (forall x, (P x /\ check x = Ok tt)
             \/ (~ P x /\ exists msg, check x = Raise (ValueError msg))) ->
  forall xs,
    (Forall P xs /\ for_each (fun _ x => check x) xs tt = Ok tt)
    \/ (~ Forall P xs
        /\ exists msg, for_each (fun _ x => check x) xs tt = Raise (ValueError msg)).
Proof.
  intros Hcheck xs. induction xs as [| x rest IH]; simpl.
  - left. split; [constructor | reflexivity].
  - destruct (Hcheck x) as [(Hx & ->) | (Hx & msg & ->)]; simpl.
    + destruct IH as [(Hrest & ->) | (Hrest & msg & ->)].
      * left. split; [now constructor | reflexivity].
      * right. split; [| now exists msg].
        intro H. inversion H; subst. contradiction.
    + right. split; [| now exists msg].
      intro H. inversion H; subst. contradiction.
Qed.

Lemma validate_batch_cases (batch : list PyObj * list TargetObj) :
  (batch_well_formed batch
   /\ _validate_batch batch
      = (images <- torch_stack (fst batch) ;; Ok (images, snd batch)))
  \/ (~ batch_well_formed batch
      /\ exists msg, _validate_batch batch = Raise (ValueError msg)).
Proof.
  destruct batch as [images targets]. unfold batch_well_formed, _validate_batch. simpl.
  destruct (Nat.eqb_spec (length images) (length targets)) as [Hlen | Hlen]; simpl;
    [| right; split; [tauto | eexists; reflexivity]].
  destruct (for_each_check check_image is_tensor check_image_cases images)
    as [(Hi & ->) | (Hi & msg & ->)]; simpl;
    [| right; split; [tauto | now exists msg]].
  destruct (for_each_check check_target target_well_formed check_target_cases targets)
    as [(Ht & ->) | (Ht & msg & ->)]; simpl;
    [| right; split; [tauto | now exists msg]].
  left. tauto.
Qed.

Lemma torch_stack_not_ValueError (tensors : list PyObj) (msg : ErrorMessage) :
  torch_stack tensors <> Raise (ValueError msg).
Proof.
  destruct tensors as [| [shape | ty] rest]; simpl; try discriminate.
  destruct (forallb _ rest); discriminate.
Qed.

Lemma torch_stack_same_shape (shape : list nat) (tensors : list PyObj) :
  tensors <> [] ->
  Forall (eq (TensorObj shape)) tensors ->
  torch_stack tensors = Ok (TensorObj (length tensors :: shape)).
Proof.
  intros Hne Hall. destruct tensors as [| t rest]; [contradiction |].
  inversion Hall as [| ? ? <- Hrest]; subst. simpl.
  replace (forallb _ rest) with true; [reflexivity |].
  symmetry. apply forallb_forall. intros t Ht.
  rewrite Forall_forall in Hrest. rewrite <- (Hrest t Ht).
  unfold shape_eqb. now destruct (list_eq_dec Nat.eq_dec shape shape).
Qed.

Lemma torch_stack_fails (tensors : list PyObj) :
  Forall is_tensor tensors ->
  (tensors = []
   \/ exists s1 s2, In (TensorObj s1) tensors /\ In (TensorObj s2) tensors
                    /\ s1 <> s2) ->
  torch_stack tensors = Raise RuntimeError.
Proof.
  intros Htensors [-> | (s1 & s2 & H1 & H2 & Hne)]; [reflexivity |].
  destruct tensors as [| [shape | ty] rest]; [contradiction | |].
  - simpl. destruct (forallb _ rest) eqn:E; [| reflexivity].
    exfalso. rewrite forallb_forall in E.
    assert (Hall : forall s, In (TensorObj s) (TensorObj shape :: rest) -> s = shape).
    { intros s [Hs | Hs]; [congruence |].
      specialize (E _ Hs). simpl in E. unfold shape_eqb in E.
      destruct (list_eq_dec Nat.eq_dec s shape); [assumption | discriminate]. }
    apply Hne. rewrite (Hall s1 H1), (Hall s2 H2). reflexivity.
  - inversion Htensors as [| ? ? (s & Hs) _]; discriminate.
Qed.

(** C6 (amended).  [_validate_batch] raises a [ValueError] (with one of
    its messages) exactly when the batch is not well formed: the numbers
    of images and targets differ, an image, a target's boxes or a target's
    labels is not a tensor, the boxes are not of shape [[N, 4]], or the
    labels are not of shape [[N]] or [[N, C]] with the boxes' [N].  A
    well-formed batch passes every check and goes on to the stacking of
    the images: it is returned, with the images stacked, when it holds at
    least one image and the images are of one shape; without an image, or
    with images of two shapes, the stacking raises a [RuntimeError].  In
    the steps the validation runs first: when it raises, the forward pass
    that computes the losses is not run. *)
Theorem validate_batch_checks_format (batch : list PyObj * list TargetObj) :
  (~ batch_well_formed batch
   <-> exists msg, _validate_batch batch = Raise (ValueError msg))
  /\ (batch_well_formed batch ->
      _validate_batch batch
      = (images <- torch_stack (fst batch) ;; Ok (images, snd batch)))
  /\ (batch_well_formed batch ->
      forall shape,
        fst batch <> [] ->
        Forall (eq (TensorObj shape)) (fst batch) ->
        _validate_batch batch
        = Ok (TensorObj (length (fst batch) :: shape), snd batch))
  /\ (batch_well_formed batch ->
      (fst batch = []
       \/ exists s1 s2, In (TensorObj s1) (fst batch)
                        /\ In (TensorObj s2) (fst batch) /\ s1 <> s2) ->
      _validate_batch batch = Raise RuntimeError)
  /\ (forall (R : Type) (self_call : PyObj -> list TargetObj -> result R) e,
        _validate_batch batch = Raise e ->
        validated_forward self_call batch = Raise e).
Proof.
  assert (Hok : batch_well_formed batch ->
                _validate_batch batch
                = (images <- torch_stack (fst batch) ;; Ok (images, snd batch))).
  { intro Hwf. destruct (validate_batch_cases batch) as [(_ & H) | (Hn & _)];
      [exact H | contradiction]. }
  split; [| split; [exact Hok | split; [| split]]].
  - split.
    + intro Hn. destruct (validate_batch_cases batch) as [(Hwf & _) | (_ & H)];
        [contradiction | exact H].
    + intros (msg & Hmsg) Hwf. rewrite (Hok Hwf) in Hmsg.
      destruct (torch_stack (fst batch)) as [stacked | e] eqn:E; simpl in Hmsg;
        [discriminate |].
      inversion Hmsg; subst. exact (torch_stack_not_ValueError _ E).
  - intros Hwf shape Hne Hshape.
    rewrite (Hok Hwf), (torch_stack_same_shape Hne Hshape). reflexivity.
  - intros Hwf Hbad.
    rewrite (Hok Hwf), (torch_stack_fails (proj1 (proj2 Hwf)) Hbad). reflexivity.
  - intros R self_call e He. unfold validated_forward. now rewrite He.
Qed.

(** On a well-formed batch of two images. *)
Lemma validate_batch_checks_format_witness :
  batch_well_formed example_batch
  /\ _validate_batch example_batch
     = Ok (TensorObj [2; 3; 4; 4]%nat, snd example_batch).
Proof.
  assert (H : batch_well_formed example_batch).
  { split; [reflexivity | split]; repeat constructor.
    - now exists [3; 4; 4]%nat.
    - now exists [3; 4; 4]%nat.
    - exists 2%nat. split; [reflexivity | now left].
    - exists 0%nat. split; [reflexivity | right; now exists 20%nat]. }
  split; [exact H |].
  apply (proj1 (proj2 (proj2 (validate_batch_checks_format example_batch)))
           H [3; 4; 4]%nat).
  - discriminate.
  - repeat constructor.
Defined.

(** C6 (as stated) fails: a batch without images, and a batch with two
    images of different sizes, meet every condition of the format, yet
    neither passes the validation. *)
Lemma validate_batch_passes_counterexample :
  (batch_well_formed ([], []) /\ _validate_batch ([], []) = Raise RuntimeError)
  /\ (batch_well_formed ragged_batch
      /\ _validate_batch ragged_batch = Raise RuntimeError).
Proof.
  split; split; try reflexivity.
  - split; [reflexivity | split; constructor].
  - split; [reflexivity | split]; repeat constructor.
    + now exists [3; 4; 4]%nat.
    + now exists [3; 8; 8]%nat.
    + exists 2%nat. split; [reflexivity | now left].
    + exists 0%nat. split; [reflexivity | right; now exists 20%nat].
Qed.

(* ================================================================== *)
(** * Facts about the constructors *)

Lemma resolve_prior_shapes_raises (default : list PriorShape) (n : nat)
    (shapes : list PriorShape) :
  (length shapes mod 3 <> 0)%nat ->
  resolve_prior_shapes default n (Some shapes)
  = Raise (ValueError PriorShapesNotDivisibleBy3).
Proof.
  intro H. unfold resolve_prior_shapes, py_divmod.
  destruct (Nat.eqb_spec (length shapes mod 3) 0); [contradiction | reflexivity].
Qed.

Lemma resolve_prior_shapes_accepts (default : list PriorShape) (n N : nat)
    (shapes : list PriorShape) :
  length shapes = (3 * N)%nat ->
  resolve_prior_shapes default n (Some shapes) = Ok (shapes, N).
Proof.
  intro H. unfold resolve_prior_shapes, py_divmod. rewrite H.
  rewrite (Nat.mul_comm 3 N), Nat.div_mul, Nat.Div0.mod_mul by lia.
  reflexivity.
Qed.

(** Every constructor refuses a number of prior shapes that 3 does not
    divide. *)
Lemma network_init_not_divisible (kind : NetworkKind) (num_classes : nat)
    (shapes : list PriorShape) :
  (length shapes mod 3 <> 0)%nat ->
  network_init kind num_classes (Some shapes)
  = Raise (ValueError PriorShapesNotDivisibleBy3).
Proof.
  intro H.
  destruct kind; simpl;
    unfold YOLOV4TinyNetwork_init, YOLOV4Network_init, YOLOV5Network_init,
           YOLOXNetwork_init;
    now rewrite resolve_prior_shapes_raises.
Qed.

(** YOLOv4, YOLOv5 and YOLOX take [3 * N] prior shapes and give each
    detection layer its own [N] of them, in order. *)
Lemma network_init_3N (kind : NetworkKind) (num_classes N : nat)
    (shapes : list PriorShape) :
  kind <> V4Tiny ->
  length shapes = (3 * N)%nat ->
  exists heads,
    network_init kind num_classes (Some shapes) = Ok heads
    /\ prior_shapes heads = shapes
    /\ anchors_per_cell heads = N
    /\ num_outputs heads = ((5 + num_classes) * N)%nat
    /\ detect3 heads = seq 0 N
    /\ detect4 heads = seq N N
    /\ detect5 heads = seq (2 * N) N
    /\ detect3 heads ++ detect4 heads ++ detect5 heads = seq 0 (length shapes).
Proof.
  intros Hkind Hlen.
  assert (Hseq : seq 0 N ++ seq N N ++ seq (2 * N) N = seq 0 (length shapes)).
  { rewrite Hlen. replace (3 * N)%nat with (N + (N + N))%nat by lia.
    rewrite !seq_app. simpl. repeat f_equal; lia. }
  destruct kind; [contradiction | | |]; simpl;
    unfold YOLOV4Network_init, YOLOV5Network_init, YOLOXNetwork_init;
    rewrite (@resolve_prior_shapes_accepts _ _ N shapes Hlen); simpl;
    eexists; (split; [reflexivity |]); simpl; unfold range;
    replace (N * 2 - N)%nat with N by lia;
    replace (N * 3 - N * 2)%nat with N by lia;
    replace (N - 0)%nat with N by lia;
    replace (N * 2)%nat with (2 * N)%nat by lia;
    repeat split; try exact Hseq; lia.
Qed.

(** The tiny network takes [3 * N] prior shapes as well and sizes its
    outputs for [N] anchors per cell, but hands the fixed indices 0 to 8 to
    its detection layers. *)
Lemma tiny_network_init_3N (num_classes N : nat) (shapes : list PriorShape) :
  length shapes = (3 * N)%nat ->
  YOLOV4TinyNetwork_init num_classes (Some shapes)
  = Ok (mkDetectionHeads shapes N ((5 + num_classes) * N)
          [0; 1; 2]%nat [3; 4; 5]%nat [6; 7; 8]%nat).
Proof.
  intro Hlen. unfold YOLOV4TinyNetwork_init.
  now rewrite (@resolve_prior_shapes_accepts _ _ N shapes Hlen).
Qed.

(** C7 (the tiny network at 12 prior shapes, [N = 4]).  The constructor
    accepts the list and sizes the output convolutions for 4 anchors per
    cell, yet each detection layer is handed 3 prior shapes, and the last
    three shapes go to no layer; YOLOv4 on the same list hands out 4 per
    layer. *)
Theorem tiny_network_fixed_prior_shape_idxs :
  YOLOV4TinyNetwork_init 20 (Some twelve_prior_shapes)
  = Ok (mkDetectionHeads twelve_prior_shapes 4 100
          [0; 1; 2]%nat [3; 4; 5]%nat [6; 7; 8]%nat)
  /\ YOLOV4Network_init 20 (Some twelve_prior_shapes)
     = Ok (mkDetectionHeads twelve_prior_shapes 4 100
             [0; 1; 2; 3]%nat [4; 5; 6; 7]%nat [8; 9; 10; 11]%nat).
Proof.
  split; reflexivity.
Qed.

(* ================================================================== *)
(** * Facts about the forward pass *)


Lemma hit_rate_some_hits (layer_hits total_hits : Z) :
  (0 < total_hits)%Z ->
  hit_rate layer_hits total_hits = inject_Z layer_hits / inject_Z total_hits.
Proof.
  intro H. unfold hit_rate. apply Z.ltb_lt in H. now rewrite H.
Qed.

Lemma log_hit_rates_eq (total_hits : Z) (layer_idx : nat) (hits : list Z)
    (log : list (LogName * Q)) :
  log_hit_rates total_hits layer_idx hits log
  = log ++ map (fun ih => (layer_hit_rate (fst ih), hit_rate (snd ih) total_hits))
               (combine (seq layer_idx (length hits)) hits).
Proof.
  revert layer_idx log. induction hits as [| h rest IH]; intros layer_idx log; simpl.
  - now rewrite app_nil_r.
  - rewrite IH, <- app_assoc. reflexivity.
Qed.

Lemma map_fst_combine_seq (A B : Type) (f : nat -> A) (g : B -> Q) (i : nat)
    (l : list B) :
  map fst (map (fun ih => (f (fst ih), g (snd ih))) (combine (seq i (length l)) l))
  = map f (seq i (length l))
  /\ map snd (map (fun ih => (f (fst ih), g (snd ih))) (combine (seq i (length l)) l))
     = map g l.
Proof.
  revert i. induction l as [| b l IH]; intro i; simpl.
  - split; reflexivity.
  - destruct (IH (S i)) as (H1 & H2). now rewrite H1, H2.
Qed.

Section ForwardFacts.

Variable Tensor : Type.
Variable Targets : Type.
Variable ImageSize : Type.
Variable torch_cat : list Tensor -> nat -> result Tensor.
Variable get_image_size : Tensor -> ImageSize.

(** The network gives the same detections with and without targets; with
    targets it also reports the three layers' losses and hits, without
    them it reports none and leaves the layers' attributes alone. *)
Lemma YOLOV4Network_forward_modes (self : YOLOV4Network Tensor Targets ImageSize)
    (x : Tensor) (targets : Targets) (state : NetState) :
  match YOLOV4Network_forward torch_cat get_image_size self x None state with
  | Ok (outputs, state') =>
      exists detections l3 l4 l5 h3 h4 h5 state'',
        outputs = (detections, [], [])
        /\ state' = state
        /\ YOLOV4Network_forward torch_cat get_image_size self x (Some targets) state
           = Ok ((detections, [l3; l4; l5], [h3; h4; h5]), state'')
  | Raise e =>
      YOLOV4Network_forward torch_cat get_image_size self x (Some targets) state
      = Raise e
  end.
Proof.
  unfold YOLOV4Network_forward.
  destruct (backbone self x) as [[[[c1 c2] c3] c4] c5].
  destruct (torch_cat [pre4 self c4; upsample5 self c5] 1) as [x4 |]; simpl;
    [| reflexivity].
  destruct (torch_cat [pre3 self c3; upsample4 self (fpn4 self x4)] 1) as [x3 |];
    simpl; [| reflexivity].
  destruct (torch_cat [downsample3 self (fpn3 self x3); fpn4 self x4] 1) as [y4 |];
    simpl; [| reflexivity].
  destruct (torch_cat [downsample4 self (pan4 self y4); c5] 1) as [y5 |];
    simpl; [| reflexivity].
  unfold run_detect, DetectionLayer_forward.
  destruct (match_and_loss (v4_detect3 self) _ _ _) as [l3 h3]; simpl.
  destruct (match_and_loss (v4_detect4 self) _ _ _) as [l4 h4]; simpl.
  destruct (match_and_loss (v4_detect5 self) _ _ _) as [l5 h5]; simpl.
  do 8 eexists. split; [reflexivity |].
  split; [now destruct state | reflexivity].
Qed.

(** C3.  With the layers and the state fixed, [YOLO.forward] over
    [YOLOV4Network] returns the same detections with targets as without
    (or fails in the same way, when the tensor library refuses a
    concatenation); without targets it leaves the layers' attributes and
    the log as they were. *)
Theorem forward_detections_independent_of_targets
    (self : YOLOV4Network Tensor Targets ImageSize) (images : Tensor)
    (targets : Targets) (state : YOLOState NetState) :
  detections_of
    (YOLO_forward torch_cat (YOLOV4Network_forward torch_cat get_image_size self)
       images (Some targets) state)
  = detections_of
      (YOLO_forward torch_cat (YOLOV4Network_forward torch_cat get_image_size self)
         images None state)
  /\ (forall out state',
        YOLO_forward torch_cat (YOLOV4Network_forward torch_cat get_image_size self)
          images None state = Ok (out, state') ->
        state' = state).
Proof.
  unfold YOLO_forward.
  pose proof (YOLOV4Network_forward_modes self images targets (net_state state)) as H.
  destruct (YOLOV4Network_forward torch_cat get_image_size self images None
              (net_state state)) as [[outputs state'] | e].
  - destruct H as (dets & l3 & l4 & l5 & h3 & h4 & h5 & st'' & -> & -> & ->).
    simpl. destruct (torch_cat dets 1) as [d |]; simpl.
    + split; [reflexivity |]. intros out st' Heq. inversion Heq; subst.
      now destruct state.
    + split; [reflexivity | discriminate].
  - rewrite H. simpl. split; [reflexivity | discriminate].
Qed.

Lemma is_sum_of_Qsum (l : list Q) : is_sum_of l (Qsum l).
Proof.
  induction l as [| x l IH]; [apply sum_of_none |].
  apply sum_of_more. exact IH.
Qed.

Lemma is_sum_of_unique (l : list Q) (s : Q) :
  is_sum_of l s -> s = fold_right Qplus 0 l.
Proof.
  induction 1 as [| x l s _ IH]; [reflexivity |]. simpl. now rewrite IH.
Qed.

(** C4.  When the network reports the loss vectors [losses] (at least
    one) for a pass with targets, [YOLO.forward] returns the concatenated
    detections and a loss vector of three components: its overlap loss is
    the sum of the layers' overlap losses, its confidence loss the sum of
    their confidence losses, its classification loss the sum of their
    classification losses.  Without targets it returns the concatenated
    detections alone. *)
Theorem forward_sums_layer_losses (NS : Type) (network : Network Tensor Targets NS)
    (images : Tensor) (state : YOLOState NS) :
  (forall targets detections losses hits net d,
      network images (Some targets) (net_state state)
      = Ok ((detections, losses, hits), net) ->
      torch_cat detections 1 = Ok d ->
      losses <> [] ->
      exists loss state',
        YOLO_forward torch_cat network images (Some targets) state
        = Ok (Detections_and_losses d loss, state')
        /\ is_sum_of (map overlap_loss losses) (overlap_loss loss)
        /\ is_sum_of (map confidence_loss losses) (confidence_loss loss)
        /\ is_sum_of (map class_loss losses) (class_loss loss))
  /\ (forall detections losses hits net d,
        network images None (net_state state) = Ok ((detections, losses, hits), net) ->
        torch_cat detections 1 = Ok d ->
        YOLO_forward torch_cat network images None state
        = Ok (Detections_only d, mkYOLOState net (log state))).
Proof.
  split.
  - intros targets detections losses hits net d Hnet Hcat Hne.
    unfold YOLO_forward. rewrite Hnet. simpl. rewrite Hcat. simpl.
    destruct losses as [| l rest]; [contradiction |].
    cbn [stack_losses bind]. do 2 eexists. split; [reflexivity |].
    unfold sum0. cbn [overlap_loss confidence_loss class_loss].
    repeat split; apply is_sum_of_Qsum.
  - intros detections losses hits net d Hnet Hcat.
    unfold YOLO_forward. rewrite Hnet. simpl. rewrite Hcat. reflexivity.
Qed.


End ForwardFacts.

(** On the small network: three layers with the loss vectors
    [(1/2, 1/4, 0)], [(1, 1/4, 3/2)] and [(0, 1/2, 0)]; the returned loss
    is [(3/2, 1, 3/2)]. *)
Lemma forward_sums_layer_losses_witness :
  exists loss state',
    YOLO_forward toy_cat (YOLOV4Network_forward toy_cat toy_image_size toy_network)
      [1] (Some tt) toy_state
    = Ok (Detections_and_losses (concat toy_detections) loss, state')
    /\ is_sum_of [1 # 2; 1; 0] (overlap_loss loss)
    /\ is_sum_of [1 # 4; 1 # 4; 1 # 2] (confidence_loss loss)
    /\ is_sum_of [0; 3 # 2; 0] (class_loss loss)
    /\ overlap_loss loss == 3 # 2
    /\ confidence_loss loss == 1
    /\ class_loss loss == 3 # 2.
Proof.
  destruct (proj1 (@forward_sums_layer_losses (list Q) unit toy_cat NetState
                     (YOLOV4Network_forward toy_cat toy_image_size toy_network)
                     [1] toy_state)
                  tt toy_detections toy_losses [0; 2; 0]%Z toy_trained_state
                  (concat toy_detections))
    as (loss & state' & Heq & Ho & Hc & Hk).
  - reflexivity.
  - reflexivity.
  - discriminate.
  - exists loss, state'.
    split; [exact Heq |]. split; [exact Ho |]. split; [exact Hc |].
    split; [exact Hk |].
    rewrite (is_sum_of_unique Ho), (is_sum_of_unique Hc), (is_sum_of_unique Hk).
    repeat split; reflexivity.
Defined.



(* ================================================================== *)
(** * Facts about [aligned_iou] *)

(** C9.  On the dimensions of [test_aligned_iou] the overlaps are, as
    rational numbers, the 3-by-2 matrix the test expects. *)
Theorem aligned_iou_test_values :
  Forall2 (Forall2 Qeq) (aligned_iou test_dims1 test_dims2) expected_ious.
Proof.
  vm_compute. repeat constructor.
Qed.

(* ################################################################## *)
(** * Part IV: more of the program *)

(* ================================================================== *)
(** * [YOLO.configure_optimizers] *)




(** [name.endswith(suffix)]. *)
Definition endswith (name suffix : string) : bool :=
  let l := list_ascii_of_string name in
  let s := list_ascii_of_string suffix in
  if list_eq_dec Ascii.ascii_dec (skipn (length l - length s) l) s then true else false.






(* ================================================================== *)
(** * [ResizedVOCDetectionDataModule] *)

(** An image tensor by its shape: [[..., height, width]]. *)
Record ImageShape : Type := mkImageShape {
  leading_dims : list nat;
  image_height : nat;
  image_width : nat
}.

(** [self.image_size = (height, width)]. *)
Record ResizedVOCDetectionDataModule : Type := mkResizedVOCDetectionDataModule {
  image_size : nat * nat
}.

Definition ResizedVOCDetectionDataModule_init (width height : nat)
  : ResizedVOCDetectionDataModule :=
  mkResizedVOCDetectionDataModule (height, width).

Definition Qnat (n : nat) : Q := inject_Z (Z.of_nat n).

(** [_resize]: the image takes the configured size, the boxes of the target
    are multiplied by [[scale_x, scale_y, scale_x, scale_y]]. *)
Definition _resize (self : ResizedVOCDetectionDataModule) (image : ImageShape)
    (target : Target) : ImageShape * Target :=
  let height := image_height image in
  let width := image_width image in
  let scale_y := Qnat (fst (image_size self)) / Qnat height in
  let scale_x := Qnat (snd (image_size self)) / Qnat width in
  let image := mkImageShape (leading_dims image)
                 (fst (image_size self)) (snd (image_size self)) in
  let boxes :=
    map (fun b => mkBox (x1 b * scale_x) (y1 b * scale_y)
                        (x2 b * scale_x) (y2 b * scale_y))
        (tgt_boxes target) in
  (image, mkTarget boxes (tgt_labels target)).

(* ================================================================== *)
(** * Vocabulary of the further statements *)


(** A class mask marks a row that has no box. *)
Definition marks_row_without_box (t : Target) : Prop :=
  match tgt_labels t with
  | ClassIds _ => False
  | ClassMask mask =>
      exists i row, nth_error mask i = Some row /\ In true row
                    /\ (length (tgt_boxes t) <= i)%nat
  end.

(** A 480 x 640 image with one box, for a module that resizes to the
    default 608 x 608. *)
Definition voc_image : ImageShape := mkImageShape [3%nat] 480 640.

Definition voc_target : Target := mkTarget [mkBox 64 48 320 240] (ClassIds [11%Z]).



(* ================================================================== *)
(** * [YOLO.training_step] *)




Section TrainingStep.

(** The batch is validated as it comes from the data loader, so tensors
    are known by their shapes here; the network is any module. *)
Variable torch_cat : list PyObj -> nat -> result PyObj.
Variable NS : Type.
Variable network : Network PyObj (list TargetObj) NS.


End TrainingStep.

(* ================================================================== *)
(** * The building blocks of [torch_networks.py] *)

Set Warnings "-register-all".
Open Scope nat_scope.

(** The modules the networks are made of.  The leaves are the layers of
    [layers.py] and [torch.nn], known by the arguments they are built with;
    the blocks are the classes of [torch_networks.py]. *)
Inductive nnModule : Type :=
  | Conv (in_channels out_channels kernel_size stride : nat)
         (activation norm : option string)
  | Conv2d (in_channels out_channels kernel_size : nat)
  | MaxPool (kernel_size stride : nat)
  | ZeroPad2d (left right top bottom : nat)
  | Upsample (scale_factor : nat)
  | Sequential (modules : list nnModule)
  | BottleneckBlock (convs : nnModule) (shortcut : bool)
  | TinyBlock (conv1 conv2 mix : nnModule)
  | CSPBlock (split1 split2 bottlenecks mix : nnModule)
  | FastSPP (conv maxpool mix : nnModule).

(** What the forward passes ask of the tensor library: applying a leaf
    layer, [torch.cat], [torch.chunk] and [+]; each may refuse its
    arguments. *)
Class TensorOps (T : Type) : Type := {
  leaf_forward : nnModule -> T -> result T;
  cat : list T -> nat -> result T;
  chunk : T -> nat -> nat -> result (list T);
  add : T -> T -> result T
}.

(** [t[i]] on a tuple. *)
Definition item {A : Type} (t : list A) (i : nat) : result A :=
  match nth_error t i with
  | Some a => Ok a
  | None => Raise IndexError
  end.

(** The [forward] methods of [nn.Sequential], [BottleneckBlock],
    [TinyBlock], [CSPBlock] and [FastSPP]. *)
Fixpoint nn_forward {T : Type} {ops : TensorOps T} (self : nnModule) (x : T)
  : result T :=
  match self with
  | Sequential modules =>
      (fix run (modules : list nnModule) (x : T) : result T :=
         match modules with
         | [] => Ok x
         | m :: rest => y <- nn_forward m x ;; run rest y
         end) modules x
  | BottleneckBlock convs shortcut =>
      y <- nn_forward convs x ;;
      if shortcut then add x y else Ok y
  | TinyBlock conv1 conv2 mix =>
      chunks <- chunk x 2 1 ;;
      x <- item chunks 1 ;;
      y1 <- nn_forward conv1 x ;;
      y2 <- nn_forward conv2 y1 ;;
      y <- cat [y2; y1] 1 ;;
      nn_forward mix y
  | CSPBlock split1 split2 bottlenecks mix =>
      s1 <- nn_forward split1 x ;;
      y1 <- nn_forward bottlenecks s1 ;;
      y2 <- nn_forward split2 x ;;
      y <- cat [y1; y2] 1 ;;
      nn_forward mix y
  | FastSPP conv maxpool mix =>
      y1 <- nn_forward conv x ;;
      y2 <- nn_forward maxpool y1 ;;
      y3 <- nn_forward maxpool y2 ;;
      y4 <- nn_forward maxpool y3 ;;
      y <- cat [y1; y2; y3; y4] 1 ;;
      nn_forward mix y
  | _ => leaf_forward self x
  end.

Definition silu : option string := Some "silu"%string.
Definition leaky : option string := Some "leaky"%string.
Definition batchnorm : option string := Some "batchnorm"%string.

Definition BottleneckBlock_init (in_channels out_channels : nat)
    (hidden_channels : option nat) (shortcut : bool)
    (activation norm : option string) : nnModule :=
  let hidden_channels :=
    match hidden_channels with
    | None => out_channels
    | Some h => h
    end in
  BottleneckBlock
    (Sequential [ Conv in_channels hidden_channels 1 1 activation norm;
                  Conv hidden_channels out_channels 3 1 activation norm ])
    (shortcut && (in_channels =? out_channels)%nat).

Definition TinyBlock_init (num_channels : nat) (activation norm : option string)
  : nnModule :=
  let hidden_channels := (num_channels / 2)%nat in
  TinyBlock (Conv hidden_channels hidden_channels 3 1 activation norm)
            (Conv hidden_channels hidden_channels 3 1 activation norm)
            (Conv num_channels num_channels 1 1 activation norm).

Definition CSPBlock_init (in_channels out_channels depth : nat) (shortcut : bool)
    (activation norm : option string) : nnModule :=
  let hidden_channels := (out_channels / 2)%nat in
  let bottlenecks :=
    map (fun _ => BottleneckBlock_init hidden_channels hidden_channels None
                    shortcut activation norm)
        (range 0 depth) in
  CSPBlock (Conv in_channels hidden_channels 1 1 activation norm)
           (Conv in_channels hidden_channels 1 1 activation norm)
           (Sequential bottlenecks)
           (Conv (hidden_channels * 2) out_channels 1 1 activation norm).

Definition FastSPP_init (in_channels out_channels kernel_size : nat)
    (activation norm : option string) : nnModule :=
  let hidden_channels := (in_channels / 2)%nat in
  FastSPP (Conv in_channels hidden_channels 1 1 activation norm)
          (MaxPool kernel_size 1)
          (Conv (hidden_channels * 4) out_channels 1 1 activation norm).

(** The five feature maps a backbone returns. *)
Definition Stages (T : Type) : Type := (T * T * T * T * T)%type.

Module YOLOV4TinyBackbone.

Record t : Type := mk {
  stage1 : nnModule;
  downsample2 : nnModule;
  stage2 : nnModule;
  downsample3 : nnModule;
  stage3 : nnModule;
  downsample4 : nnModule;
  stage4 : nnModule;
  downsample5 : nnModule
}.

Definition init (width : nat) (activation normalization : option string) : t :=
  let smooth num_channels :=
    Conv num_channels num_channels 3 1 activation normalization in
  let downsample in_channels out_channels :=
    Sequential [ Conv in_channels out_channels 3 2 activation normalization;
                 smooth out_channels ] in
  let maxpool out_channels :=
    Sequential [ ZeroPad2d 0 1 0 1; MaxPool 2 2; smooth out_channels ] in
  mk (Conv 3 width 3 2 activation normalization)
     (downsample width (width * 2))
     (TinyBlock_init (width * 2) activation normalization)
     (maxpool (width * 4))
     (TinyBlock_init (width * 4) activation normalization)
     (maxpool (width * 8))
     (TinyBlock_init (width * 8) activation normalization)
     (maxpool (width * 16)).

Definition forward {T : Type} {ops : TensorOps T} (self : t) (x : T)
  : result (Stages T) :=
  c1 <- nn_forward (stage1 self) x ;;
  x <- nn_forward (downsample2 self) c1 ;;
  c2 <- nn_forward (stage2 self) x ;;
  x <- cat [x; c2] 1 ;;
  x <- nn_forward (downsample3 self) x ;;
  c3 <- nn_forward (stage3 self) x ;;
  x <- cat [x; c3] 1 ;;
  x <- nn_forward (downsample4 self) x ;;
  c4 <- nn_forward (stage4 self) x ;;
  x <- cat [x; c4] 1 ;;
  c5 <- nn_forward (downsample5 self) x ;;
  Ok (c1, c2, c3, c4, c5).

End YOLOV4TinyBackbone.

(** The backbones of YOLOv4 and YOLOv5 have the same five stages, run one
    after the other. *)
Record CSPStages : Type := mkCSPStages {
  stage1 : nnModule;
  stage2 : nnModule;
  stage3 : nnModule;
  stage4 : nnModule;
  stage5 : nnModule
}.

Definition CSPStages_forward {T : Type} {ops : TensorOps T} (self : CSPStages)
    (x : T) : result (Stages T) :=
  c1 <- nn_forward (stage1 self) x ;;
  c2 <- nn_forward (stage2 self) c1 ;;
  c3 <- nn_forward (stage3 self) c2 ;;
  c4 <- nn_forward (stage4 self) c3 ;;
  c5 <- nn_forward (stage5 self) c4 ;;
  Ok (c1, c2, c3, c4, c5).

(** [YOLOV4Backbone.__init__]; its [csp] builds
    [CSPBlock(num_channels, num_channels, depth=depth)], with the block's
    own defaults for everything else. *)
Definition YOLOV4Backbone_init (width : nat) (activation normalization : option string)
  : CSPStages :=
  let downsample in_channels out_channels :=
    Conv in_channels out_channels 3 2 activation normalization in
  let csp num_channels depth :=
    CSPBlock_init num_channels num_channels depth true silu batchnorm in
  let spp num_channels :=
    FastSPP_init num_channels num_channels 5 activation normalization in
  mkCSPStages
    (Sequential [ Conv 3 width 3 1 activation normalization;
                  downsample width (width * 2);
                  csp (width * 2) 1 ])
    (Sequential [ downsample (width * 2) (width * 4); csp (width * 4) 2 ])
    (Sequential [ downsample (width * 4) (width * 8); csp (width * 8) 8 ])
    (Sequential [ downsample (width * 8) (width * 16); csp (width * 16) 8 ])
    (Sequential [ downsample (width * 16) (width * 32); csp (width * 32) 4;
                  spp (width * 32) ]).

Definition YOLOV5Backbone_init (depth width : nat)
    (activation normalization : option string) : CSPStages :=
  let downsample in_channels out_channels kernel_size :=
    Conv in_channels out_channels kernel_size 2 activation normalization in
  let csp num_channels depth :=
    CSPBlock_init num_channels num_channels depth true silu batchnorm in
  let spp num_channels :=
    FastSPP_init num_channels num_channels 5 activation normalization in
  mkCSPStages
    (downsample 3 width 6)
    (Sequential [ downsample width (width * 2) 3; csp (width * 2) depth ])
    (Sequential [ downsample (width * 2) (width * 4) 3; csp (width * 4) (depth * 2) ])
    (Sequential [ downsample (width * 4) (width * 8) 3; csp (width * 8) (depth * 3) ])
    (Sequential [ downsample (width * 8) (width * 16) 3; csp (width * 16) depth;
                  spp (width * 16) ]).

(* ================================================================== *)
(** * The networks of [torch_networks.py], up to the detection layers *)

(** In the [forward] of a network, the lines of a detection layer,
    [y = self.detectN(x, image_size, targets); detections.append(y)] and
    the [if targets is not None: ...] after them, are one step
    [detect N x] on the state [S] they change: the three lists and the
    layer's attributes. *)
Definition DetectStep (T S : Type) : Type := nat -> T -> S -> result S.

(** The tensors a forward pass hands to its detection layers, in the order
    of the calls, each with the number of its layer ([3] for [detect3]). *)
Definition DetectionInputs (T : Type) : Type := list (nat * T).

(** The step that only notes what the layer is handed. *)
Definition note_input {T : Type} : DetectStep T (DetectionInputs T) :=
  fun layer y inputs => Ok (inputs ++ [(layer, y)]).

(** [create_detection_layer(prior_shapes, prior_shape_idxs, ...)] of
    [layers.py], which is not among the sources.  Of what it does, the
    picking of the layer's prior shapes is modelled,
    [prior_shapes[i] for i in prior_shape_idxs]: an index past the end of
    the list raises [IndexError]. *)
Fixpoint create_detection_layer (prior_shapes : list PriorShape)
    (prior_shape_idxs : list nat) : result (list PriorShape) :=
  match prior_shape_idxs with
  | [] => Ok []
  | i :: rest =>
      shape <- item prior_shapes i ;;
      shapes <- create_detection_layer prior_shapes rest ;;
      Ok (shape :: shapes)
  end.

Module YOLOV4Tiny.

(** What the constructor sets: the arguments of the detection layers, the
    modules, and the prior shapes of [detect3], [detect4] and [detect5]. *)
Record Network : Type := mkNetwork {
  heads : DetectionHeads;
  backbone : YOLOV4TinyBackbone.t;
  fpn5 : nnModule;
  out5 : nnModule;
  upsample5 : nnModule;
  fpn4 : nnModule;
  out4 : nnModule;
  upsample4 : nnModule;
  fpn3 : nnModule;
  out3 : nnModule;
  priors3 : list PriorShape;
  priors4 : list PriorShape;
  priors5 : list PriorShape
}.

Definition Network_init (num_classes : nat) (backbone : option YOLOV4TinyBackbone.t)
    (width : nat) (activation normalization : option string)
    (prior_shapes : option (list PriorShape)) : result Network :=
  heads <- YOLOV4TinyNetwork_init num_classes prior_shapes ;;
  let '(mkDetectionHeads prior_shapes _ num_outputs idxs3 idxs4 idxs5) := heads in
  let conv1x1 in_channels out_channels :=
    Conv in_channels out_channels 1 1 activation normalization in
  let conv3x3 in_channels out_channels :=
    Conv in_channels out_channels 3 1 activation normalization in
  let linear in_channels out_channels := Conv2d in_channels out_channels 1 in
  let detect prior_shape_idxs :=
    create_detection_layer prior_shapes prior_shape_idxs in
  let backbone :=
    match backbone with
    | Some backbone => backbone
    | None => YOLOV4TinyBackbone.init width activation normalization
    end in
  detect3 <- detect idxs3 ;;
  detect4 <- detect idxs4 ;;
  detect5 <- detect idxs5 ;;
  Ok (mkNetwork heads backbone
        (conv1x1 (width * 16) (width * 8))
        (Sequential [ conv3x3 (width * 8) (width * 16);
                      linear (width * 16) num_outputs ])
        (Sequential [ conv1x1 (width * 8) (width * 4); Upsample 2 ])
        (conv3x3 (width * 12) (width * 8))
        (linear (width * 8) num_outputs)
        (Sequential [ conv1x1 (width * 8) (width * 2); Upsample 2 ])
        (conv3x3 (width * 6) (width * 4))
        (linear (width * 4) num_outputs)
        detect3 detect4 detect5).

Definition forward {T : Type} {ops : TensorOps T} {S : Type}
    (detect : DetectStep T S) (self : Network) (x : T) (s : S) : result S :=
  stages <- YOLOV4TinyBackbone.forward (backbone self) x ;;
  let '(_, _, c3, c4, c5) := stages in
  p5 <- nn_forward (fpn5 self) c5 ;;
  u5 <- nn_forward (upsample5 self) p5 ;;
  x <- cat [u5; c4] 1 ;;
  p4 <- nn_forward (fpn4 self) x ;;
  u4 <- nn_forward (upsample4 self) p4 ;;
  x <- cat [u4; c3] 1 ;;
  p3 <- nn_forward (fpn3 self) x ;;
  y <- nn_forward (out5 self) p5 ;;
  s <- detect 5 y s ;;
  y <- nn_forward (out4 self) p4 ;;
  s <- detect 4 y s ;;
  y <- nn_forward (out3 self) p3 ;;
  s <- detect 3 y s ;;
  Ok s.

End YOLOV4Tiny.

Module YOLOV4.

Record Network : Type := mkNetwork {
  heads : DetectionHeads;
  backbone : CSPStages;
  pre3 : nnModule;
  fpn3 : nnModule;
  out3 : nnModule;
  pre4 : nnModule;
  fpn4 : nnModule;
  pan4 : nnModule;
  out4 : nnModule;
  pan5 : nnModule;
  out5 : nnModule;
  upsample4 : nnModule;
  upsample5 : nnModule;
  downsample3 : nnModule;
  downsample4 : nnModule
}.

Definition Network_init (num_classes : nat) (backbone : option CSPStages)
    (width : nat) (activation normalization : option string)
    (prior_shapes : option (list PriorShape)) : result Network :=
  heads <- YOLOV4Network_init num_classes prior_shapes ;;
  let num_outputs := num_outputs heads in
  let downsample in_channels out_channels :=
    Conv in_channels out_channels 3 2 activation normalization in
  let conv1x1 in_channels out_channels :=
    Conv in_channels out_channels 1 1 activation normalization in
  let conv3x3 in_channels out_channels :=
    Conv in_channels out_channels 3 1 activation normalization in
  let linear in_channels out_channels := Conv2d in_channels out_channels 1 in
  let block in_channels out_channels :=
    CSPBlock_init in_channels out_channels 2 false activation normalization in
  Ok (mkNetwork heads
        (match backbone with
         | Some backbone => backbone
         | None => YOLOV4Backbone_init width activation normalization
         end)
        (conv1x1 (width * 8) (width * 4))
        (block (width * 8) (width * 8))
        (Sequential [ conv3x3 (width * 8) (width * 8);
                      linear (width * 8) num_outputs ])
        (conv1x1 (width * 16) (width * 8))
        (block (width * 16) (width * 16))
        (block (width * 24) (width * 16))
        (Sequential [ conv3x3 (width * 16) (width * 16);
                      linear (width * 16) num_outputs ])
        (block (width * 48) (width * 32))
        (Sequential [ conv3x3 (width * 32) (width * 32);
                      linear (width * 32) num_outputs ])
        (Sequential [ conv1x1 (width * 16) (width * 4); Upsample 2 ])
        (Sequential [ conv1x1 (width * 32) (width * 8); Upsample 2 ])
        (downsample (width * 8) (width * 8))
        (downsample (width * 16) (width * 16))).

Definition forward {T : Type} {ops : TensorOps T} {S : Type}
    (detect : DetectStep T S) (self : Network) (x : T) (s : S) : result S :=
  stages <- CSPStages_forward (backbone self) x ;;
  let '(_, _, c3, c4, c5) := stages in
  x <- nn_forward (pre4 self) c4 ;;
  u5 <- nn_forward (upsample5 self) c5 ;;
  x <- cat [x; u5] 1 ;;
  p4 <- nn_forward (fpn4 self) x ;;
  x <- nn_forward (pre3 self) c3 ;;
  u4 <- nn_forward (upsample4 self) p4 ;;
  x <- cat [x; u4] 1 ;;
  n3 <- nn_forward (fpn3 self) x ;;
  d3 <- nn_forward (downsample3 self) n3 ;;
  x <- cat [d3; p4] 1 ;;
  n4 <- nn_forward (pan4 self) x ;;
  d4 <- nn_forward (downsample4 self) n4 ;;
  x <- cat [d4; c5] 1 ;;
  n5 <- nn_forward (pan5 self) x ;;
  y <- nn_forward (out3 self) n3 ;;
  s <- detect 3 y s ;;
  y <- nn_forward (out4 self) n4 ;;
  s <- detect 4 y s ;;
  y <- nn_forward (out5 self) n5 ;;
  s <- detect 5 y s ;;
  Ok s.

End YOLOV4.

Module YOLOV5.

Record Network : Type := mkNetwork {
  heads : DetectionHeads;
  backbone : CSPStages;
  pan3 : nnModule;
  out3 : nnModule;
  fpn4 : nnModule;
  pan4 : nnModule;
  out4 : nnModule;
  fpn5 : nnModule;
  pan5 : nnModule;
  out5 : nnModule;
  upsample : nnModule;
  downsample3 : nnModule;
  downsample4 : nnModule
}.

Definition Network_init (num_classes : nat) (backbone : option CSPStages)
    (depth width : nat) (activation normalization : option string)
    (prior_shapes : option (list PriorShape)) : result Network :=
  heads <- YOLOV5Network_init num_classes prior_shapes ;;
  let num_outputs := num_outputs heads in
  let downsample in_channels out_channels :=
    Conv in_channels out_channels 3 2 activation normalization in
  let conv1x1 in_channels out_channels :=
    Conv in_channels out_channels 1 1 activation normalization in
  let linear in_channels out_channels := Conv2d in_channels out_channels 1 in
  let block in_channels out_channels :=
    CSPBlock_init in_channels out_channels depth false activation normalization in
  Ok (mkNetwork heads
        (match backbone with
         | Some backbone => backbone
         | None => YOLOV5Backbone_init depth width activation normalization
         end)
        (block (width * 8) (width * 4))
        (linear (width * 4) num_outputs)
        (Sequential [ block (width * 16) (width * 8);
                      conv1x1 (width * 8) (width * 4) ])
        (block (width * 8) (width * 8))
        (linear (width * 8) num_outputs)
        (conv1x1 (width * 16) (width * 8))
        (block (width * 16) (width * 16))
        (linear (width * 16) num_outputs)
        (Upsample 2)
        (downsample (width * 4) (width * 4))
        (downsample (width * 8) (width * 8))).

(** The feature pyramid that YOLOv5 and YOLOX share: the features [n3],
    [n4] and [n5] from the stages [c3], [c4] and [c5]. *)
Definition pyramid {T : Type} {ops : TensorOps T}
    (fpn5 upsample fpn4 pan3 downsample3 pan4 downsample4 pan5 : nnModule)
    (c3 c4 c5 : T) : result (T * T * T) :=
  p5 <- nn_forward fpn5 c5 ;;
  u5 <- nn_forward upsample p5 ;;
  x <- cat [u5; c4] 1 ;;
  p4 <- nn_forward fpn4 x ;;
  u4 <- nn_forward upsample p4 ;;
  x <- cat [u4; c3] 1 ;;
  n3 <- nn_forward pan3 x ;;
  d3 <- nn_forward downsample3 n3 ;;
  x <- cat [d3; p4] 1 ;;
  n4 <- nn_forward pan4 x ;;
  d4 <- nn_forward downsample4 n4 ;;
  x <- cat [d4; p5] 1 ;;
  n5 <- nn_forward pan5 x ;;
  Ok (n3, n4, n5).

Definition forward {T : Type} {ops : TensorOps T} {S : Type}
    (detect : DetectStep T S) (self : Network) (x : T) (s : S) : result S :=
  stages <- CSPStages_forward (backbone self) x ;;
  let '(_, _, c3, c4, c5) := stages in
  features <- pyramid (fpn5 self) (upsample self) (fpn4 self) (pan3 self)
                (downsample3 self) (pan4 self) (downsample4 self) (pan5 self)
                c3 c4 c5 ;;
  let '(n3, n4, n5) := features in
  y <- nn_forward (out3 self) n3 ;;
  s <- detect 3 y s ;;
  y <- nn_forward (out4 self) n4 ;;
  s <- detect 4 y s ;;
  y <- nn_forward (out5 self) n5 ;;
  s <- detect 5 y s ;;
  Ok s.

End YOLOV5.

Module YOLOX.

(** The five modules of one output: [outN_stem], [outN_feat], [outN_box],
    [outN_confidence] and [outN_classprob]. *)
Record Output : Type := mkOutput {
  stem : nnModule;
  feat : nnModule;
  box : nnModule;
  confidence : nnModule;
  classprob : nnModule
}.

Record Network : Type := mkNetwork {
  heads : DetectionHeads;
  backbone : CSPStages;
  pan3 : nnModule;
  out3 : Output;
  fpn4 : nnModule;
  pan4 : nnModule;
  out4 : Output;
  fpn5 : nnModule;
  pan5 : nnModule;
  out5 : Output;
  upsample : nnModule;
  downsample3 : nnModule;
  downsample4 : nnModule
}.

Definition Network_init (num_classes : nat) (backbone : option CSPStages)
    (depth width : nat) (activation normalization : option string)
    (prior_shapes : option (list PriorShape)) : result Network :=
  heads <- YOLOXNetwork_init num_classes prior_shapes ;;
  let anchors_per_cell := anchors_per_cell heads in
  let downsample in_channels out_channels :=
    Conv in_channels out_channels 3 2 activation normalization in
  let conv1x1 in_channels out_channels :=
    Conv in_channels out_channels 1 1 activation normalization in
  let conv3x3 in_channels out_channels :=
    Conv in_channels out_channels 3 1 activation normalization in
  let linear in_channels out_channels := Conv2d in_channels out_channels 1 in
  let bottleneck in_channels out_channels :=
    CSPBlock_init in_channels out_channels depth false activation normalization in
  let output in_channels :=
    mkOutput
      (conv1x1 in_channels (width * 4))
      (Sequential [ conv3x3 (width * 4) (width * 4); conv3x3 (width * 4) (width * 4) ])
      (linear (width * 4) (anchors_per_cell * 4))
      (linear (width * 4) anchors_per_cell)
      (Sequential [ conv3x3 (width * 4) (width * 4); conv3x3 (width * 4) (width * 4);
                    linear (width * 4) (anchors_per_cell * num_classes) ]) in
  Ok (mkNetwork heads
        (match backbone with
         | Some backbone => backbone
         | None => YOLOV5Backbone_init depth width activation normalization
         end)
        (bottleneck (width * 8) (width * 4))
        (output (width * 4))
        (Sequential [ bottleneck (width * 16) (width * 8);
                      conv1x1 (width * 8) (width * 4) ])
        (bottleneck (width * 8) (width * 8))
        (output (width * 8))
        (conv1x1 (width * 16) (width * 8))
        (bottleneck (width * 16) (width * 16))
        (output (width * 16))
        (Upsample 2)
        (downsample (width * 4) (width * 4))
        (downsample (width * 8) (width * 8))).

(** One output of [forward], from [x = self.outN_stem(n)] to the
    [torch.cat((box, confidence, classprob), dim=1)] handed to the
    detection layer. *)
Definition Output_forward {T : Type} {ops : TensorOps T} (self : Output) (n : T)
  : result T :=
  x <- nn_forward (stem self) n ;;
  features <- nn_forward (feat self) x ;;
  box <- nn_forward (box self) features ;;
  confidence <- nn_forward (confidence self) features ;;
  classprob <- nn_forward (classprob self) x ;;
  cat [box; confidence; classprob] 1.

Definition forward {T : Type} {ops : TensorOps T} {S : Type}
    (detect : DetectStep T S) (self : Network) (x : T) (s : S) : result S :=
  stages <- CSPStages_forward (backbone self) x ;;
  let '(_, _, c3, c4, c5) := stages in
  features <- YOLOV5.pyramid (fpn5 self) (upsample self) (fpn4 self) (pan3 self)
                (downsample3 self) (pan4 self) (downsample4 self) (pan5 self)
                c3 c4 c5 ;;
  let '(n3, n4, n5) := features in
  y <- Output_forward (out3 self) n3 ;;
  s <- detect 3 y s ;;
  y <- Output_forward (out4 self) n4 ;;
  s <- detect 4 y s ;;
  y <- Output_forward (out5 self) n5 ;;
  s <- detect 5 y s ;;
  Ok s.

End YOLOX.

(** Any of the four networks. *)
Inductive NetworkModules : Type :=
  | TinyModules (self : YOLOV4Tiny.Network)
  | V4Modules (self : YOLOV4.Network)
  | V5Modules (self : YOLOV5.Network)
  | XModules (self : YOLOX.Network).

Definition forward_steps {T : Type} {ops : TensorOps T} {S : Type}
    (detect : DetectStep T S) (network : NetworkModules) (x : T) (s : S)
  : result S :=
  match network with
  | TinyModules self => YOLOV4Tiny.forward detect self x s
  | V4Modules self => YOLOV4.forward detect self x s
  | V5Modules self => YOLOV5.forward detect self x s
  | XModules self => YOLOX.forward detect self x s
  end.

(** What the forward pass of a network hands to its detection layers. *)
Definition detection_inputs {T : Type} {ops : TensorOps T}
    (network : NetworkModules) (x : T) : result (DetectionInputs T) :=
  forward_steps note_input network x [].

Section DetectionSteps.

Variable T : Type.
Context {ops : TensorOps T}.
Variable Targets : Type.
Variable ImageSize : Type.
Variable get_image_size : T -> ImageSize.

(** [self.detect3], [self.detect4] and [self.detect5]. *)
Record DetectionLayers : Type := mkDetectionLayers {
  layer3 : DetectionLayer T Targets ImageSize;
  layer4 : DetectionLayer T Targets ImageSize;
  layer5 : DetectionLayer T Targets ImageSize
}.

Definition layer_of (layers : DetectionLayers) (layer : nat)
  : DetectionLayer T Targets ImageSize :=
  match layer with
  | 3 => layer3 layers
  | 4 => layer4 layers
  | _ => layer5 layers
  end.

Definition layer_attrs (layer : nat) (state : NetState) : LayerAttrs :=
  match layer with
  | 3 => attrs3 state
  | 4 => attrs4 state
  | _ => attrs5 state
  end.

Definition set_layer_attrs (layer : nat) (attrs : LayerAttrs) (state : NetState)
  : NetState :=
  match layer with
  | 3 => mkNetState attrs (attrs4 state) (attrs5 state)
  | 4 => mkNetState (attrs3 state) attrs (attrs5 state)
  | _ => mkNetState (attrs3 state) (attrs4 state) attrs
  end.

(** The step of a detection layer in full: the call of the layer and the
    appending to [detections], [losses] and [hits]. *)
Definition detect_step (layers : DetectionLayers) (image_size : ImageSize)
    (targets : option Targets) : DetectStep T (Outputs T * NetState) :=
  fun layer y acc =>
    r <- run_detect (layer_of layers layer) y image_size targets
           (layer_attrs layer (snd acc)) (fst acc) ;;
    Ok (fst r, set_layer_attrs layer (snd r) (snd acc)).

(** [forward] of a network with its detection layers. *)
Definition network_forward (network : NetworkModules) (layers : DetectionLayers)
    (x : T) (targets : option Targets) (state : NetState)
  : result (Outputs T * NetState) :=
  let outputs : Outputs T := ([], [], []) in
  let image_size := get_image_size x in
  forward_steps (detect_step layers image_size targets) network x (outputs, state).

(** What a detection layer makes of its input. *)
Definition decoded (layers : DetectionLayers) (image_size : ImageSize)
    (input : nat * T) : T :=
  decode (layer_of layers (fst input)) (snd input) image_size.

(** The losses and hits a detection layer finds for its input. *)
Definition matched (layers : DetectionLayers) (image_size : ImageSize)
    (targets : Targets) (input : nat * T) : Losses * Z :=
  match_and_loss (layer_of layers (fst input)) (decoded layers image_size input)
    image_size targets.

End DetectionSteps.


(* ================================================================== *)
(** * The convolutions inside a module *)

(** The [Conv] layers a module is made of, in the order they are built. *)
Fixpoint convs (m : nnModule) : list nnModule :=
  match m with
  | Conv _ _ _ _ _ _ => [m]
  | Sequential modules => flat_map convs modules
  | BottleneckBlock c _ => convs c
  | TinyBlock conv1 conv2 mix => convs conv1 ++ convs conv2 ++ convs mix
  | CSPBlock split1 split2 bottlenecks mix =>
      convs split1 ++ convs split2 ++ convs bottlenecks ++ convs mix
  | FastSPP conv _ mix => convs conv ++ convs mix
  | _ => []
  end.

(** The CSP blocks inside a module. *)
Fixpoint csp_blocks (m : nnModule) : list nnModule :=
  match m with
  | Sequential modules => flat_map csp_blocks modules
  | CSPBlock _ _ _ _ => [m]
  | _ => []
  end.

(** The five stages of a backbone. *)
Definition stages_of (backbone : CSPStages) : list nnModule :=
  [ stage1 backbone; stage2 backbone; stage3 backbone; stage4 backbone;
    stage5 backbone ].

(** The [activation] and [norm] a [Conv] was built with. *)
Definition conv_settings (m : nnModule) : option (option string * option string) :=
  match m with
  | Conv _ _ _ _ activation norm => Some (activation, norm)
  | _ => None
  end.

(* ================================================================== *)
(** * Tensors by their number of channels *)

(** The sizes [torch.chunk] cuts a dimension of a given size into: pieces
    of [ceil(size / chunks)], the last one smaller, as many as it takes. *)
Fixpoint chunk_sizes (piece remaining count : nat) : list nat :=
  match count with
  | O => []
  | S count =>
      if (remaining =? 0)%nat then []
      else Nat.min piece remaining :: chunk_sizes piece (remaining - piece) count
  end.

(** A convolution built for [in_channels] and [out_channels] asks for the
    first and gives the second, and needs at least one output channel. *)
Definition conv_channels (in_channels out_channels c : nat) : result nat :=
  if (c =? in_channels)%nat && negb (out_channels =? 0)%nat
  then Ok out_channels
  else Raise RuntimeError.

(** Tensors known by their size along dimension 1, the channels, under
    the shape rules of the tensor library: those of a convolution
    ([Conv] of [layers.py], which is not among the sources, is taken to
    hand [in_channels] and [out_channels] to the convolution it wraps);
    pooling, padding and upsampling keep the channels; [torch.cat] adds
    them up and refuses an empty list; [torch.chunk] refuses zero chunks
    and cuts an empty dimension into [chunks] empty pieces; [+] asks for
    equal numbers, or for a single channel on one side, which it
    broadcasts. *)
#[export] Instance channel_ops : TensorOps nat := {
  leaf_forward m c :=
    match m with
    | Conv in_channels out_channels _ _ _ _ =>
        conv_channels in_channels out_channels c
    | Conv2d in_channels out_channels _ =>
        conv_channels in_channels out_channels c
    | _ => Ok c
    end;
  cat tensors dim :=
    match tensors with
    | [] => Raise RuntimeError
    | _ => Ok (list_sum tensors)
    end;
  chunk c chunks dim :=
    if (chunks =? 0)%nat then Raise RuntimeError
    else if (c =? 0)%nat then Ok (repeat 0%nat chunks)
    else Ok (chunk_sizes ((c + chunks - 1) / chunks) c chunks);
  add a b :=
    if (a =? b)%nat then Ok a
    else if (a =? 1)%nat then Ok b
    else if (b =? 1)%nat then Ok a
    else Raise RuntimeError
}.

Open Scope Q_scope.

(* ################################################################## *)
(** * Part V: more facts *)

(* ================================================================== *)
(** * More about [process_detections] *)

(** Every detection that is output belongs to a predictor and a class of
    the image: it carries that predictor's box, the class as label, the
    class probability times the confidence as score, and that score is
    above [confidence_threshold]. *)
Theorem process_detections_outputs_sound
    (self : YOLOParams) (preds : list (list Prediction)) :
  exists result,
    process_detections self preds = Ok result /\
    Forall2
      (fun image_preds d =>
         Forall
           (fun e =>
              exists i pr p,
                nth_error image_preds i = Some pr
                /\ nth_error (pred_classprobs pr) (snd (snd e)) = Some p
                /\ fst e = pred_box pr
                /\ fst (snd e) = p * pred_confidence pr
                /\ confidence_threshold self < fst (snd e))
           (entries d))
      preds result.
Proof.
  exists (map (processed self) preds). split; [apply process_detections_eq |].
  apply Forall2_map_self. intro image_preds.
  rewrite entries_processed. apply Forall_forall. intros e He.
  apply in_map_iff in He. destruct He as (k & <- & Hk).
  pose proof (kept_candidates_in_range self image_preds) as Hr.
  rewrite Forall_forall in Hr. specialize (Hr k Hk).
  pose proof (nth_In _ (0%nat, 0%nat) Hr) as Hin.
  destruct (nth k (select_pairs self image_preds) (0%nat, 0%nat)) as [i c].
  apply select_pairs_In in Hin. destruct Hin as (pr & p & Hpr & Hp & Hgt).
  exists i, pr, p. rewrite (@candidate_entry_eq image_preds i c pr p Hpr Hp). simpl.
  repeat split; assumption.
Qed.

Lemma nms_greedy_pairwise (suppresses : nat -> nat -> bool) (order kept : list nat) :
  ForallOrdPairs (fun j k => suppresses j k = false)
                 (nms_greedy suppresses order kept)
  /\ Forall (fun k => forall j, In j kept -> suppresses j k = false)
            (nms_greedy suppresses order kept).
Proof.
  revert kept. induction order as [| k rest IH]; intro kept; simpl.
  - split; constructor.
  - destruct (existsb (fun j => suppresses j k) kept) eqn:E; [apply IH |].
    destruct (IH (k :: kept)) as (Hpairs & Hkept). split.
    + constructor; [| exact Hpairs].
      eapply Forall_impl; [| exact Hkept]. intros k' H. apply H. now left.
    + constructor.
      * intros j Hj. destruct (suppresses j k) eqn:Es; [| reflexivity].
        assert (existsb (fun j => suppresses j k) kept = true)
          by (apply existsb_exists; now exists j).
        congruence.
      * eapply Forall_impl; [| exact Hkept]. intros k' H j Hj. apply H. now right.
Qed.

Lemma firstn_ForallOrdPairs (A : Type) (R : A -> A -> Prop) (n : nat) (l : list A) :
  ForallOrdPairs R l -> ForallOrdPairs R (firstn n l).
Proof.
  intro H. revert n. induction H as [| a l Ha _ IH]; intros [| n]; simpl;
    try constructor.
  - rewrite Forall_forall in *. intros b Hb. apply Ha.
    exact (firstn_incl _ _ _ Hb).
  - apply IH.
Qed.

Lemma map_ForallOrdPairs (A B : Type) (f : A -> B) (R : B -> B -> Prop) (l : list A) :
  ForallOrdPairs (fun a b => R (f a) (f b)) l -> ForallOrdPairs R (map f l).
Proof.
  induction 1 as [| a l Ha _ IH]; simpl; constructor.
  - rewrite Forall_forall in *. intros b Hb.
    apply in_map_iff in Hb. destruct Hb as (x & <- & Hx). now apply Ha.
  - exact IH.
Qed.

Lemma ForallOrdPairs_In_impl (A : Type) (R S : A -> A -> Prop) (l : list A) :
  (forall a b, In a l -> In b l -> R a b -> S a b) ->
  ForallOrdPairs R l -> ForallOrdPairs S l.
Proof.
  intros HRS H. induction H as [| a l Ha _ IH]; constructor.
  - rewrite Forall_forall in *. intros b Hb.
    apply HRS; [now left | now right | now apply Ha].
  - apply IH. intros x y Hx Hy. apply HRS; now right.
Qed.

(** Of two detections output for one image, the one that stands later
    does not overlap the earlier one above [nms_threshold] if they have the
    same label. *)
Theorem process_detections_suppressed
    (self : YOLOParams) (preds : list (list Prediction)) :
  exists result,
    process_detections self preds = Ok result /\
    Forall
      (fun d =>
         ForallOrdPairs
           (fun e1 e2 =>
              snd (snd e1) = snd (snd e2) ->
              box_iou (fst e1) (fst e2) <= nms_threshold self)
           (entries d))
      result.
Proof.
  exists (map (processed self) preds). split; [apply process_detections_eq |].
  apply Forall_forall. intros d Hd. apply in_map_iff in Hd.
  destruct Hd as (image_preds & <- & _).
  rewrite entries_processed. apply map_ForallOrdPairs.
  pose proof (kept_candidates_in_range self image_preds) as Hr.
  rewrite Forall_forall in Hr.
  set (pairs := select_pairs self image_preds) in *.
  apply ForallOrdPairs_In_impl
    with (R := fun j k =>
                 Nat.eqb (nth j (map snd pairs) 0%nat) (nth k (map snd pairs) 0%nat)
                 && Qgtb (box_iou (nth j (map (pair_box image_preds) pairs) zero_box)
                                  (nth k (map (pair_box image_preds) pairs) zero_box))
                         (nms_threshold self) = false).
  - intros j k Hj Hk Hsup Hlabel. simpl in Hlabel.
    apply Hr in Hj. apply Hr in Hk.
    rewrite (nth_map_in_range snd _ (0%nat, 0%nat)) in Hsup by assumption.
    rewrite (nth_map_in_range snd _ (0%nat, 0%nat)) in Hsup by assumption.
    rewrite (nth_map_in_range (pair_box image_preds) _ (0%nat, 0%nat)) in Hsup
      by assumption.
    rewrite (nth_map_in_range (pair_box image_preds) _ (0%nat, 0%nat)) in Hsup
      by assumption.
    rewrite Hlabel, Nat.eqb_refl in Hsup. simpl in Hsup.
    apply Qgtb_false_iff in Hsup. exact Hsup.
  - unfold kept_candidates. fold pairs.
    destruct (py_slice_to_firstn (detections_per_image self)
                (batched_nms (map (pair_box image_preds) pairs)
                             (map (pair_score image_preds) pairs)
                             (map snd pairs) (nms_threshold self))) as (n & ->).
    apply firstn_ForallOrdPairs. unfold batched_nms.
    apply nms_greedy_pairwise.
Qed.

Lemma py_slice_to_cons (A : Type) (k : Z) (a : A) (l : list A) :
  (1 <= k)%Z -> py_slice_to k (a :: l) = a :: firstn (Z.to_nat k - 1) l.
Proof.
  intro Hk. unfold py_slice_to.
  destruct (k <? 0)%Z eqn:E; [apply Z.ltb_lt in E; lia |].
  destruct (Z.to_nat k) as [| m] eqn:Em; [lia |].
  simpl. now rewrite Nat.sub_0_r.
Qed.


(** As long as at least one detection may be kept and some pair is above
    the threshold, the first detection output for the image has the highest
    score of all selected pairs. *)
Theorem process_detections_keeps_best
    (self : YOLOParams) (image_preds : list Prediction) :
  (1 <= detections_per_image self)%Z ->
  select_pairs self image_preds <> [] ->
  exists d e rest,
    process_detections self [image_preds] = Ok [d]
    /\ entries d = e :: rest
    /\ Forall (fun p => pair_score image_preds p <= fst (snd e))
              (select_pairs self image_preds).
Proof.
  intros Hone Hsome.
  exists (processed self image_preds).
  rewrite process_detections_eq, entries_processed. simpl.
  set (pairs := select_pairs self image_preds) in *.
  set (score := fun k => nth k (map (pair_score image_preds) pairs) 0).
  assert (Hperm : Permutation (sort_desc score (seq 0 (length pairs)))
                              (seq 0 (length pairs))) by apply sort_desc_perm.
  assert (Hsorted : StronglySorted (desc score)
                      (sort_desc score (seq 0 (length pairs))))
    by apply sort_desc_sorted.
  unfold kept_candidates, batched_nms. fold pairs. rewrite length_map. fold score.
  destruct (sort_desc score (seq 0 (length pairs))) as [| k0 tl] eqn:Eorder.
  { apply Permutation_nil in Hperm.
    destruct pairs; [contradiction | discriminate]. }
  simpl nms_greedy. rewrite py_slice_to_cons by assumption. simpl map.
  do 2 eexists. split; [reflexivity |]. split; [reflexivity |]. simpl.
  assert (Hk0 : (k0 < length pairs)%nat).
  { assert (In k0 (seq 0 (length pairs)))
      by (apply (Permutation_in _ Hperm); now left).
    apply in_seq in H. lia. }
  apply Forall_forall. intros p Hp.
  destruct (In_nth _ _ (0%nat, 0%nat) Hp) as (k & Hk & <-).
  assert (Hin : In k (k0 :: tl)).
  { apply (Permutation_in _ (Permutation_sym Hperm)). apply in_seq. lia. }
  assert (Hle : score k <= score k0).
  { destruct Hin as [<- | Hin]; [apply Qle_refl |].
    inversion Hsorted as [| ? ? _ Hall]; subst.
    rewrite Forall_forall in Hall. exact (Hall k Hin). }
  unfold score in Hle.
  rewrite (nth_map_in_range (pair_score image_preds) _ (0%nat, 0%nat)) in Hle
    by assumption.
  rewrite (nth_map_in_range (pair_score image_preds) _ (0%nat, 0%nat)) in Hle
    by assumption.
  exact Hle.
Qed.

(** At the default thresholds, on three predictions. *)
Lemma process_detections_keeps_best_witness :
  exists d e rest,
    process_detections default_params [three_predictions] = Ok [d]
    /\ entries d = e :: rest
    /\ Forall (fun p => pair_score three_predictions p <= fst (snd e))
              (select_pairs default_params three_predictions).
Proof.
  apply (process_detections_keeps_best default_params three_predictions).
  - simpl. lia.
  - vm_compute. discriminate.
Defined.



(* ================================================================== *)
(** * More about [process_targets] *)

Lemma index_select_cases (A : Type) (t : list A) (idxs : list nat) :
  (Forall (fun i => (i < length t)%nat) idxs /\ exists r, index_select t idxs = Ok r)
  \/ (Exists (fun i => (length t <= i)%nat) idxs
      /\ index_select t idxs = Raise IndexError).
Proof.
  induction idxs as [| i rest IH]; simpl.
  - left. split; [constructor | now eexists].
  - destruct (nth_error t i) as [a |] eqn:E.
    + assert (Hi : (i < length t)%nat) by (apply nth_error_Some; congruence).
      destruct IH as [(Hall & r & ->) | (Hex & ->)]; simpl.
      * left. split; [now constructor | now eexists].
      * right. split; [now apply Exists_cons_tl | reflexivity].
    + apply nth_error_None in E. right. split; [now apply Exists_cons_hd | reflexivity].
Qed.

Lemma process_image_targets_cases (t : Target) :
  (~ marks_row_without_box t
   /\ exists boxes ids, process_image_targets t = Ok (mkTarget boxes (ClassIds ids)))
  \/ (marks_row_without_box t /\ process_image_targets t = Raise IndexError).
Proof.
  destruct t as [boxes [ids | mask]];
    unfold process_image_targets, marks_row_without_box; simpl.
  - left. split; [tauto | now do 2 eexists].
  - destruct (index_select_cases boxes (map fst (nonzero mask)))
      as [(Hall & r & ->) | (Hex & ->)]; simpl.
    + left. split; [| now do 2 eexists].
      intros (i & row & Hrow & Htrue & Hi).
      destruct (In_nth_error _ _ Htrue) as (c & Hc).
      assert (Hin : In (i, c) (nonzero mask)) by (apply nonzero_In; now exists row).
      rewrite Forall_forall in Hall.
      specialize (Hall i (in_map fst _ _ Hin)). simpl in Hall. lia.
    + right. split; [| reflexivity].
      apply Exists_exists in Hex. destruct Hex as (i & Hin & Hi).
      apply in_map_iff in Hin. destruct Hin as ([i' c] & Heq & Hin).
      simpl in Heq. subst i'.
      apply nonzero_In in Hin. destruct Hin as (row & Hrow & Hc).
      exists i, row. repeat split; [assumption | | assumption].
      eapply nth_error_In; eassumption.
Qed.

Lemma process_targets_cases (targets : list Target) (acc : list Target) :
  (~ Exists marks_row_without_box targets
   /\ exists out,
        for_each (fun result image_targets =>
                    t <- process_image_targets image_targets ;; Ok (result ++ [t]))
                 targets acc = Ok (acc ++ out)
        /\ Forall2 (fun t r => process_image_targets t = Ok r) targets out)
  \/ (Exists marks_row_without_box targets
      /\ for_each (fun result image_targets =>
                     t <- process_image_targets image_targets ;; Ok (result ++ [t]))
                  targets acc = Raise IndexError).
Proof.
  revert acc. induction targets as [| t rest IH]; intro acc; simpl.
  - left. split; [intro H; inversion H |].
    exists []. split; [now rewrite app_nil_r | constructor].
  - destruct (process_image_targets_cases t)
      as [(Hno & boxes & ids & Heq) | (Hyes & Heq)]; rewrite Heq; simpl.
    + destruct (IH (acc ++ [mkTarget boxes (ClassIds ids)]))
        as [(Hnone & out & Hout & Hall) | (Hsome & Hraise)].
      * left. split; [intro H; inversion H; contradiction |].
        exists (mkTarget boxes (ClassIds ids) :: out).
        split; [now rewrite Hout, <- app_assoc | now constructor].
      * right. split; [now apply Exists_cons_tl | exact Hraise].
    + right. split; [now apply Exists_cons_hd | reflexivity].
Qed.

(** [process_targets] fails only by an [IndexError], and exactly when the
    class mask of some target marks a row for which the target has no box;
    otherwise it returns one target per input target. *)
Theorem process_targets_raises (targets : list Target) :
  (Exists marks_row_without_box targets
   <-> process_targets targets = Raise IndexError)
  /\ (forall e, process_targets targets = Raise e -> e = IndexError)
  /\ (~ Exists marks_row_without_box targets ->
      exists result,
        process_targets targets = Ok result /\ length result = length targets).
Proof.
  unfold process_targets.
  destruct (process_targets_cases targets [])
    as [(Hnone & out & Hout & Hall) | (Hsome & Hraise)].
  - rewrite Hout. split; [| split].
    + split; [contradiction | discriminate].
    + discriminate.
    + intros _. exists out. split; [reflexivity |].
      symmetry. exact (Forall2_length Hall).
  - rewrite Hraise. split; [| split].
    + tauto.
    + intros e He. now inversion He.
    + contradiction.
Qed.

Lemma for_each_append_in (A B : Type) (f : A -> result B) (g : A -> B)
    (xs : list A) (acc : list B) :
  (forall x, In x xs -> f x = Ok (g x)) ->
  for_each (fun result x => y <- f x ;; Ok (result ++ [y])) xs acc
  = Ok (acc ++ map g xs).
Proof.
  revert acc. induction xs as [| x rest IH]; intros acc Hf; simpl.
  - now rewrite app_nil_r.
  - rewrite (Hf x) by now left. simpl.
    rewrite IH by (intros y Hy; apply Hf; now right).
    now rewrite <- app_assoc.
Qed.

Lemma Forall2_In_r (A B : Type) (P : A -> B -> Prop) (l : list A) (l' : list B)
    (b : B) :
  Forall2 P l l' -> In b l' -> exists a, In a l /\ P a b.
Proof.
  induction 1 as [| a b' l l' Hab _ IH]; intro Hin; [contradiction |].
  destruct Hin as [<- | Hin].
  - exists a. split; [now left | assumption].
  - destruct (IH Hin) as (a' & Ha' & HP). exists a'. split; [now right | assumption].
Qed.

(** What [process_targets] returns is in single-label form already:
    processing it again returns it unchanged. *)
Theorem process_targets_idempotent (targets result : list Target) :
  process_targets targets = Ok result ->
  process_targets result = Ok result.
Proof.
  unfold process_targets. intro H.
  destruct (process_targets_cases targets [])
    as [(_ & out & Hout & Hall) | (_ & Hraise)]; [| congruence].
  rewrite Hout in H. inversion H; subst result. simpl.
  rewrite (for_each_append_in _ (fun t => t)); [now rewrite map_id |].
  intros r Hr.
  destruct (@Forall2_In_r _ _ _ _ _ r Hall Hr) as (t & _ & Ht).
  destruct (process_image_targets_cases t)
    as [(_ & boxes & ids & Heq) | (_ & Heq)]; rewrite Heq in Ht; [| discriminate].
  inversion Ht; subst r. reflexivity.
Qed.

(** On the single-label and the multi-label target. *)
Lemma process_targets_idempotent_witness :
  process_targets [single_label_target; multi_label_target]
  = Ok [ single_label_target;
         mkTarget [mkBox 0 0 4 4; mkBox 0 0 4 4; mkBox 1 1 3 3]
                  (ClassIds [0%Z; 2%Z; 1%Z]) ]
  /\ process_targets
       [ single_label_target;
         mkTarget [mkBox 0 0 4 4; mkBox 0 0 4 4; mkBox 1 1 3 3]
                  (ClassIds [0%Z; 2%Z; 1%Z]) ]
     = Ok [ single_label_target;
            mkTarget [mkBox 0 0 4 4; mkBox 0 0 4 4; mkBox 1 1 3 3]
                     (ClassIds [0%Z; 2%Z; 1%Z]) ].
Proof.
  split; [reflexivity |].
  apply (@process_targets_idempotent [single_label_target; multi_label_target]).
  reflexivity.
Defined.

(* ================================================================== *)
(** * More about [_validate_batch] *)

Lemma for_each_check_first (A : Type) (check : A -> result unit)
    (pre post : list A) (x : A) (e : PyExc) :
  Forall (fun y => check y = Ok tt) pre ->
  check x = Raise e ->
  for_each (fun _ y => check y) (pre ++ x :: post) tt = Raise e.
Proof.
  intros Hpre Hx. induction Hpre as [| y pre Hy _ IH]; simpl.
  - now rewrite Hx.
  - now rewrite Hy.
Qed.

Lemma check_image_tensor (image : PyObj) : is_tensor image -> check_image image = Ok tt.
Proof. intros (shape & ->). reflexivity. Qed.

Lemma check_target_well_formed (t : TargetObj) :
  target_well_formed t -> check_target t = Ok tt.
Proof.
  intro H. destruct (check_target_cases t) as [(_ & Hok) | (Hn & _)];
    [exact Hok | contradiction].
Qed.

Lemma for_each_check_all (A : Type) (check : A -> result unit) (xs : list A) :
  Forall (fun y => check y = Ok tt) xs ->
  for_each (fun _ y => check y) xs tt = Ok tt.
Proof.
  induction 1 as [| y xs Hy _ IH]; simpl; [reflexivity | now rewrite Hy].
Qed.

(** The checks run in a fixed order and the first failure is the one
    reported: a count mismatch before anything else, with both counts; then
    the first image that is not a tensor, whatever the targets are; then
    the first target that fails its checks. *)
Theorem validate_batch_first_error (images : list PyObj) (targets : list TargetObj) :
  (length images <> length targets ->
   _validate_batch (images, targets)
   = Raise (ValueError (CountMismatch (length images) (length targets))))
  /\ (forall pre post ty,
        length images = length targets ->
        images = pre ++ OtherObj ty :: post ->
        Forall is_tensor pre ->
        _validate_batch (images, targets) = Raise (ValueError (ImageNotTensor ty)))
  /\ (forall pre post t e,
        length images = length targets ->
        Forall is_tensor images ->
        targets = pre ++ t :: post ->
        Forall target_well_formed pre ->
        check_target t = Raise e ->
        _validate_batch (images, targets) = Raise e).
Proof.
  unfold _validate_batch. split; [| split].
  - intro Hne. apply Nat.eqb_neq in Hne. now rewrite Hne.
  - intros pre post ty Hlen -> Hpre.
    apply Nat.eqb_eq in Hlen. rewrite Hlen. simpl.
    rewrite (@for_each_check_first _ check_image pre post (OtherObj ty)
               (ValueError (ImageNotTensor ty)));
      [reflexivity | | reflexivity].
    eapply Forall_impl; [| exact Hpre]. apply check_image_tensor.
  - intros pre post t e Hlen Himages -> Hpre Ht.
    apply Nat.eqb_eq in Hlen. rewrite Hlen. simpl.
    rewrite for_each_check_all
      by (eapply Forall_impl; [| exact Himages]; apply check_image_tensor).
    simpl.
    rewrite (@for_each_check_first _ check_target pre post t e);
      [reflexivity | | exact Ht].
    eapply Forall_impl; [| exact Hpre]. apply check_target_well_formed.
Qed.

(** A batch whose second image is not a tensor and whose first target has
    boxes of a wrong shape: the image is reported. *)
Lemma validate_batch_first_error_witness :
  _validate_batch
    ( [ TensorObj [3; 4; 4]%nat; OtherObj "PIL.Image" ],
      [ mkTargetObj (TensorObj [2; 5]%nat) (TensorObj [2]%nat);
        mkTargetObj (TensorObj [1; 4]%nat) (TensorObj [1]%nat) ] )
  = Raise (ValueError (ImageNotTensor "PIL.Image")).
Proof.
  apply (proj1 (proj2 (validate_batch_first_error
                         [ TensorObj [3; 4; 4]%nat; OtherObj "PIL.Image" ]
                         [ mkTargetObj (TensorObj [2; 5]%nat) (TensorObj [2]%nat);
                           mkTargetObj (TensorObj [1; 4]%nat) (TensorObj [1]%nat) ]))
               [TensorObj [3; 4; 4]%nat] [] "PIL.Image"%string).
  - reflexivity.
  - reflexivity.
  - repeat constructor. now exists [3; 4; 4]%nat.
Defined.

Lemma shape_eqb_eq (s1 s2 : list nat) : shape_eqb s1 s2 = true <-> s1 = s2.
Proof.
  unfold shape_eqb. destruct (list_eq_dec Nat.eq_dec s1 s2); split; congruence.
Qed.

Lemma torch_stack_Ok (tensors : list PyObj) (stacked : PyObj) :
  torch_stack tensors = Ok stacked ->
  exists shape,
    tensors <> []
    /\ Forall (eq (TensorObj shape)) tensors
    /\ stacked = TensorObj (length tensors :: shape).
Proof.
  intro H. destruct tensors as [| [shape | ty] rest]; simpl in H; try discriminate.
  destruct (forallb _ rest) eqn:E; [| discriminate].
  inversion H; subst. exists shape. split; [discriminate |].
  split; [| reflexivity].
  constructor; [reflexivity |].
  apply Forall_forall. intros t Ht. rewrite forallb_forall in E.
  specialize (E t Ht). destruct t as [s | ty]; [| discriminate].
  apply shape_eqb_eq in E. now subst.
Qed.

Lemma torch_stack_Raise (tensors : list PyObj) (e : PyExc) :
  Forall is_tensor tensors ->
  torch_stack tensors = Raise e ->
  e = RuntimeError
  /\ (tensors = []
      \/ exists s1 s2, In (TensorObj s1) tensors /\ In (TensorObj s2) tensors
                       /\ s1 <> s2).
Proof.
  intros Htensors H.
  destruct tensors as [| [shape | ty] rest]; simpl in H.
  - inversion H. split; [reflexivity | now left].
  - destruct (forallb _ rest) eqn:E; [discriminate |].
    inversion H. split; [reflexivity |]. right.
    assert (Hex : exists t, In t rest
                  /\ match t with
                     | TensorObj s => shape_eqb s shape
                     | OtherObj _ => false
                     end = false).
    { clear -E. induction rest as [| t rest IH]; [discriminate |].
      simpl in E. apply andb_false_iff in E. destruct E as [E | E].
      - exists t. split; [now left | exact E].
      - destruct (IH E) as (t' & Hin & Ht'). exists t'. split; [now right | exact Ht']. }
    destruct Hex as (t & Hin & Ht).
    inversion Htensors as [| ? ? _ Hrest]; subst.
    rewrite Forall_forall in Hrest. destruct (Hrest t Hin) as (s & ->).
    exists shape, s. split; [now left |]. split; [now right |].
    intros <-. unfold shape_eqb in Ht.
    destruct (list_eq_dec Nat.eq_dec shape shape); [discriminate | contradiction].
  - inversion Htensors as [| ? ? (s & Hs) _]; discriminate.
Qed.

(** The checks do not look at the sizes of the images.  A well-formed batch
    is returned, with its images stacked and its targets as they are,
    exactly when it holds at least one image and all images are of one
    shape; it fails, in the stacking and with the tensor library's
    [RuntimeError], exactly when it is empty or holds images of two
    shapes; and it fails in no other way. *)
Theorem validate_batch_stacking (batch : list PyObj * list TargetObj) :
  batch_well_formed batch ->
  (forall stacked targets,
     _validate_batch batch = Ok (stacked, targets)
     <-> targets = snd batch
         /\ exists shape,
              fst batch <> []
              /\ Forall (eq (TensorObj shape)) (fst batch)
              /\ stacked = TensorObj (length (fst batch) :: shape))
  /\ (_validate_batch batch = Raise RuntimeError
      <-> fst batch = []
          \/ exists s1 s2, In (TensorObj s1) (fst batch)
                           /\ In (TensorObj s2) (fst batch) /\ s1 <> s2)
  /\ (forall e, _validate_batch batch = Raise e -> e = RuntimeError).
Proof.
  intro Hwf.
  destruct (validate_batch_cases batch) as [(_ & Heq) | (Hn & _)]; [| contradiction].
  rewrite Heq. destruct batch as [images targets]. simpl in *. clear Heq.
  destruct Hwf as (_ & Himages & _). simpl in Himages.
  split; [| split].
  - intros stacked targets'. split.
    + intro H. destruct (torch_stack images) as [st | e] eqn:E; simpl in H;
        [| discriminate].
      inversion H; subst. split; [reflexivity |]. now apply torch_stack_Ok.
    + intros (-> & shape & Hne & Hall & ->).
      now rewrite (torch_stack_same_shape Hne Hall).
  - split.
    + intro H. destruct (torch_stack images) as [st | e] eqn:E; simpl in H;
        [discriminate |].
      exact (proj2 (torch_stack_Raise Himages E)).
    + intro Hbad. now rewrite (torch_stack_fails Himages Hbad).
  - intros e H. destruct (torch_stack images) as [st | e'] eqn:E; simpl in H;
      [discriminate |].
    inversion H; subst. exact (proj1 (torch_stack_Raise Himages E)).
Qed.

(** Two well-formed targets with two images of different sizes. *)
Lemma validate_batch_stacking_witness :
  batch_well_formed
    ( [ TensorObj [3; 4; 4]%nat; TensorObj [3; 8; 8]%nat ], snd example_batch )
  /\ _validate_batch
       ( [ TensorObj [3; 4; 4]%nat; TensorObj [3; 8; 8]%nat ], snd example_batch )
     = Raise RuntimeError.
Proof.
  assert (H : batch_well_formed
                ( [ TensorObj [3; 4; 4]%nat; TensorObj [3; 8; 8]%nat ],
                  snd example_batch )).
  { split; [reflexivity | split]; repeat constructor.
    - now exists [3; 4; 4]%nat.
    - now exists [3; 8; 8]%nat.
    - exists 2%nat. split; [reflexivity | now left].
    - exists 0%nat. split; [reflexivity | right; now exists 20%nat]. }
  split; [exact H |].
  apply (proj2 (proj1 (proj2 (validate_batch_stacking H)))).
  right. exists [3; 4; 4]%nat, [3; 8; 8]%nat.
  split; [now left | split; [right; now left | discriminate]].
Defined.

(* ================================================================== *)
(** * More about the hit rates *)

Lemma fold_left_Zadd (l : list Z) (a : Z) :
  fold_left Z.add l a = (a + fold_right Z.add 0 l)%Z.
Proof.
  revert a. induction l as [| h l IH]; intro a; simpl; [lia |].
  rewrite IH. lia.
Qed.

Lemma py_sum_fold_right (hits : list Z) : py_sum hits = fold_right Z.add 0%Z hits.
Proof. unfold py_sum. now rewrite fold_left_Zadd. Qed.

Lemma Qsum_rates (total : Q) (hits : list Z) :
  Qsum (map (fun h => inject_Z h / total) hits)
  == inject_Z (fold_right Z.add 0%Z hits) / total.
Proof.
  induction hits as [| h rest IH]; simpl.
  - unfold Qdiv. now rewrite Qmult_0_l.
  - rewrite IH, inject_Z_plus. unfold Qdiv. now rewrite Qmult_plus_distr_l.
Qed.

Lemma member_le_sum (hits : list Z) (h : Z) :
  Forall (fun x => (0 <= x)%Z) hits -> In h hits ->
  (0 <= h <= fold_right Z.add 0 hits)%Z.
Proof.
  induction 1 as [| x rest Hx Hrest IH]; intro Hin; [contradiction |].
  assert (0 <= fold_right Z.add 0 rest)%Z.
  { clear -Hrest. induction Hrest; simpl; lia. }
  simpl. destruct Hin as [<- | Hin]; [lia |].
  specialize (IH Hin). lia.
Qed.

Section HitRateFacts.

Variable Tensor : Type.
Variable Targets : Type.
Variable torch_cat : list Tensor -> nat -> result Tensor.

(** When some layer has matched a target and no hit count is negative, the
    hit rates logged in a forward pass lie between 0 and 1 and add up to
    1: they tell how the matched targets are spread over the layers. *)
Theorem forward_hit_rates_add_up (NS : Type) (network : Network Tensor Targets NS)
    (images : Tensor) (targets : Targets) (state : YOLOState NS)
    (detections : list Tensor) (losses : list Losses) (hits : list Z) (net : NS)
    (d : Tensor) :
  network images (Some targets) (net_state state)
  = Ok ((detections, losses, hits), net) ->
  torch_cat detections 1 = Ok d ->
  losses <> [] ->
  (0 < py_sum hits)%Z ->
  Forall (fun h => (0 <= h)%Z) hits ->
  exists out rates,
    YOLO_forward torch_cat network images (Some targets) state
    = Ok (out, mkYOLOState net (log state ++ rates))
    /\ length rates = length hits
    /\ Qsum (map snd rates) == 1
    /\ Forall (fun r => 0 <= snd r /\ snd r <= 1) rates.
Proof.
  intros Hnet Hcat Hne Hpos Hnonneg.
  unfold YOLO_forward. rewrite Hnet. simpl. rewrite Hcat. simpl.
  destruct losses as [| l rest]; [contradiction |]. simpl.
  rewrite log_hit_rates_eq.
  destruct (map_fst_combine_seq layer_hit_rate
              (fun h => hit_rate h (py_sum hits)) 0 hits) as (Hfst & Hsnd).
  do 2 eexists. split; [reflexivity |].
  assert (Htotal : 0 < inject_Z (py_sum hits)).
  { replace 0 with (inject_Z 0) by reflexivity. now rewrite <- Zlt_Qlt. }
  split; [| split].
  - rewrite <- (length_map fst), Hfst, length_map, length_seq. reflexivity.
  - rewrite Hsnd.
    rewrite (map_ext _ (fun h => inject_Z h / inject_Z (py_sum hits)))
      by (intro h; now apply hit_rate_some_hits).
    rewrite Qsum_rates, <- py_sum_fold_right.
    apply Qmult_inv_r. intro H0. rewrite H0 in Htotal.
    exact (Qlt_irrefl _ Htotal).
  - apply Forall_forall. intros r Hr.
    assert (Hin : In (snd r) (map (fun h => hit_rate h (py_sum hits)) hits))
      by (rewrite <- Hsnd; now apply in_map).
    apply in_map_iff in Hin. destruct Hin as (h & <- & Hh).
    rewrite hit_rate_some_hits by assumption.
    pose proof (@member_le_sum hits h Hnonneg Hh) as (H0 & Hle).
    rewrite <- py_sum_fold_right in Hle.
    split.
    + apply Qle_shift_div_l; [exact Htotal |].
      rewrite Qmult_0_l. replace 0 with (inject_Z 0) by reflexivity.
      now rewrite <- Zle_Qle.
    + apply Qle_shift_div_r; [exact Htotal |].
      rewrite Qmult_1_l. now rewrite <- Zle_Qle.
Qed.

End HitRateFacts.

(** On the small network, whose layers report 0, 2 and 0 hits. *)
Lemma forward_hit_rates_add_up_witness :
  exists out rates,
    YOLO_forward toy_cat (YOLOV4Network_forward toy_cat toy_image_size toy_network)
      [1] (Some tt) toy_state
    = Ok (out, mkYOLOState toy_trained_state (log toy_state ++ rates))
    /\ length rates = 3%nat
    /\ Qsum (map snd rates) == 1
    /\ Forall (fun r => 0 <= snd r /\ snd r <= 1) rates.
Proof.
  apply (@forward_hit_rates_add_up (list Q) unit toy_cat NetState
           (YOLOV4Network_forward toy_cat toy_image_size toy_network)
           [1] tt toy_state toy_detections toy_losses [0; 2; 0]%Z toy_trained_state
           (concat toy_detections)).
  - reflexivity.
  - reflexivity.
  - discriminate.
  - reflexivity.
  - repeat constructor; discriminate.
Defined.

(* ================================================================== *)
(** * Facts about [ResizedVOCDetectionDataModule._resize] *)

Lemma Qnat_pos (n : nat) : (0 < n)%nat -> 0 < Qnat n.
Proof.
  intro H. unfold Qnat. replace 0 with (inject_Z 0) by reflexivity.
  rewrite <- Zlt_Qlt. lia.
Qed.

Lemma Qnat_nonzero (n : nat) : (0 < n)%nat -> ~ Qnat n == 0.
Proof.
  intros H H0. apply Qnat_pos in H. rewrite H0 in H. exact (Qlt_irrefl _ H).
Qed.

(** A module built for [width] and [height] gives the image that height
    and width (in this order) and keeps its other dimensions and the
    labels.  Every box keeps its place relative to the image: each
    coordinate divided by the new width or height equals the old one
    divided by the old width or height; a box with [x1 <= x2] and
    [y1 <= y2] stays so. *)
Theorem resize_keeps_relative_boxes (width height : nat) (image : ImageShape)
    (target : Target) :
  (0 < width)%nat -> (0 < height)%nat ->
  (0 < image_width image)%nat -> (0 < image_height image)%nat ->
  fst (_resize (ResizedVOCDetectionDataModule_init width height) image target)
  = mkImageShape (leading_dims image) height width
  /\ tgt_labels (snd (_resize (ResizedVOCDetectionDataModule_init width height)
                              image target))
     = tgt_labels target
  /\ Forall2
       (fun b b' =>
          x1 b' / Qnat width == x1 b / Qnat (image_width image)
          /\ y1 b' / Qnat height == y1 b / Qnat (image_height image)
          /\ x2 b' / Qnat width == x2 b / Qnat (image_width image)
          /\ y2 b' / Qnat height == y2 b / Qnat (image_height image)
          /\ (x1 b <= x2 b -> x1 b' <= x2 b')
          /\ (y1 b <= y2 b -> y1 b' <= y2 b'))
       (tgt_boxes target)
       (tgt_boxes (snd (_resize (ResizedVOCDetectionDataModule_init width height)
                                image target))).
Proof.
  intros HW HH Hw Hh. unfold _resize, ResizedVOCDetectionDataModule_init. simpl.
  split; [reflexivity |]. split; [reflexivity |].
  pose proof (Qnat_nonzero HW) as HW0. pose proof (Qnat_nonzero HH) as HH0.
  pose proof (Qnat_nonzero Hw) as Hw0. pose proof (Qnat_nonzero Hh) as Hh0.
  assert (Hsx : 0 <= Qnat width / Qnat (image_width image)).
  { apply Qle_shift_div_l; [now apply Qnat_pos |].
    rewrite Qmult_0_l. apply Qlt_le_weak. now apply Qnat_pos. }
  assert (Hsy : 0 <= Qnat height / Qnat (image_height image)).
  { apply Qle_shift_div_l; [now apply Qnat_pos |].
    rewrite Qmult_0_l. apply Qlt_le_weak. now apply Qnat_pos. }
  apply Forall2_map_self. intro b. simpl.
  repeat split; try (field; split; assumption).
  - intro Hle. now apply Qmult_le_compat_r.
  - intro Hle. now apply Qmult_le_compat_r.
Qed.

(** A 480 x 640 image resized to 608 x 608. *)
Lemma resize_keeps_relative_boxes_witness :
  _resize (ResizedVOCDetectionDataModule_init 608 608) voc_image voc_target
  = (mkImageShape [3%nat] 608 608,
     mkTarget [mkBox (64 * (Qnat 608 / Qnat 640)) (48 * (Qnat 608 / Qnat 480))
                     (320 * (Qnat 608 / Qnat 640)) (240 * (Qnat 608 / Qnat 480))]
              (ClassIds [11%Z]))
  /\ Forall2
       (fun b b' =>
          x1 b' / Qnat 608 == x1 b / Qnat 640
          /\ y1 b' / Qnat 608 == y1 b / Qnat 480
          /\ x2 b' / Qnat 608 == x2 b / Qnat 640
          /\ y2 b' / Qnat 608 == y2 b / Qnat 480
          /\ (x1 b <= x2 b -> x1 b' <= x2 b')
          /\ (y1 b <= y2 b -> y1 b' <= y2 b'))
       (tgt_boxes voc_target)
       (tgt_boxes (snd (_resize (ResizedVOCDetectionDataModule_init 608 608)
                                voc_image voc_target))).
Proof.
  split; [reflexivity |].
  apply (@resize_keeps_relative_boxes 608 608 voc_image voc_target);
    simpl; lia.
Defined.

(* ================================================================== *)
(** * Facts about [configure_optimizers] *)

Lemma list_ascii_of_string_append (a b : string) :
  list_ascii_of_string (a ++ b) = list_ascii_of_string a ++ list_ascii_of_string b.
Proof.
  induction a as [| c a IH]; simpl; [reflexivity | now rewrite IH].
Qed.

(** [endswith] holds exactly of the names that are some prefix followed by
    the suffix. *)
Lemma endswith_iff (name suffix : string) :
  endswith name suffix = true <-> exists prefix, name = (prefix ++ suffix)%string.
Proof.
  unfold endswith.
  destruct (list_eq_dec Ascii.ascii_dec
              (skipn (length (list_ascii_of_string name)
                      - length (list_ascii_of_string suffix))
                     (list_ascii_of_string name))
              (list_ascii_of_string suffix)) as [Heq | Hne]; split;
    try discriminate; try reflexivity.
  - intros _.
    exists (string_of_list_ascii
              (firstn (length (list_ascii_of_string name)
                       - length (list_ascii_of_string suffix))
                      (list_ascii_of_string name))).
    rewrite <- (string_of_list_ascii_of_string name) at 1.
    rewrite <- (string_of_list_ascii_of_string (_ ++ suffix)).
    f_equal. rewrite list_ascii_of_string_append, list_ascii_of_string_of_list_ascii.
    rewrite <- Heq at 2. symmetry. apply firstn_skipn.
  - intros (prefix & ->). exfalso. apply Hne.
    rewrite list_ascii_of_string_append, length_app, Nat.add_sub.
    rewrite skipn_app, skipn_all, Nat.sub_diag. reflexivity.
Qed.







(* ================================================================== *)
(** * Facts about [training_step] *)




(* ================================================================== *)
(** * Channels through the building blocks *)

Open Scope nat_scope.

Lemma Sequential_nil (T : Type) (ops : TensorOps T) (x : T) :
  nn_forward (Sequential []) x = Ok x.
Proof. reflexivity. Qed.

Lemma Sequential_cons (T : Type) (ops : TensorOps T) (m : nnModule)
    (rest : list nnModule) (x : T) :
  nn_forward (Sequential (m :: rest)) x
  = (y <- nn_forward m x ;; nn_forward (Sequential rest) y).
Proof. reflexivity. Qed.

Lemma BottleneckBlock_forward (T : Type) (ops : TensorOps T) (convs : nnModule)
    (shortcut : bool) (x : T) :
  nn_forward (BottleneckBlock convs shortcut) x
  = (y <- nn_forward convs x ;; if shortcut then add x y else Ok y).
Proof. reflexivity. Qed.

Lemma TinyBlock_forward (T : Type) (ops : TensorOps T) (conv1 conv2 mix : nnModule)
    (x : T) :
  nn_forward (TinyBlock conv1 conv2 mix) x
  = (chunks <- chunk x 2 1 ;;
     x <- item chunks 1 ;;
     y1 <- nn_forward conv1 x ;;
     y2 <- nn_forward conv2 y1 ;;
     y <- cat [y2; y1] 1 ;;
     nn_forward mix y).
Proof. reflexivity. Qed.

Lemma CSPBlock_forward (T : Type) (ops : TensorOps T)
    (split1 split2 bottlenecks mix : nnModule) (x : T) :
  nn_forward (CSPBlock split1 split2 bottlenecks mix) x
  = (s1 <- nn_forward split1 x ;;
     y1 <- nn_forward bottlenecks s1 ;;
     y2 <- nn_forward split2 x ;;
     y <- cat [y1; y2] 1 ;;
     nn_forward mix y).
Proof. reflexivity. Qed.

Lemma FastSPP_forward (T : Type) (ops : TensorOps T) (conv maxpool mix : nnModule)
    (x : T) :
  nn_forward (FastSPP conv maxpool mix) x
  = (y1 <- nn_forward conv x ;;
     y2 <- nn_forward maxpool y1 ;;
     y3 <- nn_forward maxpool y2 ;;
     y4 <- nn_forward maxpool y3 ;;
     y <- cat [y1; y2; y3; y4] 1 ;;
     nn_forward mix y).
Proof. reflexivity. Qed.

Lemma channels_MaxPool (k s c : nat) : nn_forward (MaxPool k s) c = Ok c.
Proof. reflexivity. Qed.

Lemma channels_cat (c : nat) (rest : list nat) (dim : nat) :
  cat (c :: rest) dim = Ok (list_sum (c :: rest)).
Proof. reflexivity. Qed.

Lemma conv_channels_pos (i o c : nat) :
  0 < o -> conv_channels i o c = if c =? i then Ok o else Raise RuntimeError.
Proof.
  intro Ho. unfold conv_channels.
  destruct (Nat.eqb_spec o 0); [lia |]. now rewrite andb_true_r.
Qed.

Lemma channels_Conv (i o k s : nat) (a n : option string) (c : nat) :
  0 < o ->
  nn_forward (Conv i o k s a n) c = if c =? i then Ok o else Raise RuntimeError.
Proof. apply conv_channels_pos. Qed.

Lemma channels_Conv_eq (i o k s : nat) (a n : option string) (c : nat) :
  c = i -> 0 < o -> nn_forward (Conv i o k s a n) c = Ok o.
Proof. intros -> Ho. rewrite channels_Conv by assumption. now rewrite Nat.eqb_refl. Qed.

Lemma channels_Conv2d_eq (i o k c : nat) :
  c = i -> 0 < o -> nn_forward (Conv2d i o k) c = Ok o.
Proof.
  intros -> Ho. change (conv_channels i o i = Ok o).
  rewrite conv_channels_pos by assumption. now rewrite Nat.eqb_refl.
Qed.

(** A bottleneck block takes [in_channels] channels and nothing else, and
    gives [out_channels]; the shortcut is added only when the two agree, so
    the addition is never refused. *)
Lemma channels_BottleneckBlock (in_channels out_channels : nat)
    (hidden_channels : option nat) (shortcut : bool)
    (activation norm : option string) (c : nat) :
  0 < out_channels -> hidden_channels <> Some 0 ->
  nn_forward (BottleneckBlock_init in_channels out_channels hidden_channels
                shortcut activation norm) c
  = if c =? in_channels then Ok out_channels else Raise RuntimeError.
Proof.
  intros Hout Hhidden. unfold BottleneckBlock_init. cbv zeta.
  assert (Hpos : 0 < match hidden_channels with
                     | Some h => h
                     | None => out_channels
                     end).
  { destruct hidden_channels as [[| h] |]; [congruence | lia | assumption]. }
  rewrite BottleneckBlock_forward.
  rewrite Sequential_cons, channels_Conv by assumption.
  destruct (Nat.eqb_spec c in_channels) as [-> | Hne]; [| reflexivity].
  cbn [bind]. rewrite Sequential_cons, channels_Conv_eq by first [assumption | reflexivity].
  cbn [bind]. rewrite Sequential_nil. cbn [bind].
  destruct shortcut; [| reflexivity]. cbn [andb].
  destruct (Nat.eqb_spec in_channels out_channels) as [-> | Hio]; [| reflexivity].
  cbn [add channel_ops]. now rewrite Nat.eqb_refl.
Qed.

Lemma Sequential_keeps (T : Type) (ops : TensorOps T) (modules : list nnModule)
    (x : T) :
  Forall (fun m => nn_forward m x = Ok x) modules ->
  nn_forward (Sequential modules) x = Ok x.
Proof.
  induction 1 as [| m rest Hm _ IH]; [reflexivity |].
  rewrite Sequential_cons, Hm. exact IH.
Qed.

(** A CSP block takes [in_channels] channels and gives [out_channels],
    whatever its depth and also for an odd [out_channels]: the two halves
    are made by two convolutions of [out_channels // 2] channels each and
    mixed by a convolution of twice that many. *)
Lemma channels_CSPBlock (in_channels out_channels depth : nat) (shortcut : bool)
    (activation norm : option string) (c : nat) :
  2 <= out_channels ->
  nn_forward (CSPBlock_init in_channels out_channels depth shortcut activation norm) c
  = if c =? in_channels then Ok out_channels else Raise RuntimeError.
Proof.
  intro Hout. assert (Hhidden : 0 < out_channels / 2)
    by (apply Nat.div_str_pos; lia).
  unfold CSPBlock_init. cbv zeta.
  rewrite CSPBlock_forward, channels_Conv by assumption.
  destruct (Nat.eqb_spec c in_channels) as [-> | Hne]; [| reflexivity].
  cbn [bind].
  rewrite Sequential_keeps.
  - cbn [bind]. rewrite ?channels_Conv_eq by first [assumption | reflexivity].
    cbn [bind]. rewrite channels_cat. cbn [bind list_sum fold_right].
    rewrite channels_Conv_eq by lia. reflexivity.
  - apply Forall_forall. intros m Hm. apply in_map_iff in Hm.
    destruct Hm as (k & <- & _).
    rewrite channels_BottleneckBlock by first [assumption | discriminate].
    now rewrite Nat.eqb_refl.
Qed.

(** The pooling module takes [in_channels] channels and gives
    [out_channels]. *)
Lemma channels_FastSPP (in_channels out_channels kernel_size : nat)
    (activation norm : option string) (c : nat) :
  2 <= in_channels -> 0 < out_channels ->
  nn_forward (FastSPP_init in_channels out_channels kernel_size activation norm) c
  = if c =? in_channels then Ok out_channels else Raise RuntimeError.
Proof.
  intros Hin Hout. assert (Hhidden : 0 < in_channels / 2)
    by (apply Nat.div_str_pos; lia).
  unfold FastSPP_init. cbv zeta.
  rewrite FastSPP_forward, channels_Conv by assumption.
  destruct (Nat.eqb_spec c in_channels) as [-> | Hne]; [| reflexivity].
  cbn [bind]. repeat (rewrite channels_MaxPool; cbn [bind]).
  rewrite channels_cat. cbn [bind list_sum fold_right].
  rewrite channels_Conv_eq by lia. reflexivity.
Qed.

Lemma halves (n : nat) :
  (n + 1) / 2 + n / 2 = n /\ n / 2 <= (n + 1) / 2 <= n / 2 + 1.
Proof.
  destruct (Nat.even n) eqn:Ev.
  - apply Nat.even_spec in Ev. destruct Ev as (k & ->).
    replace (2 * k + 1) with (1 + k * 2) by lia.
    rewrite Nat.div_add by lia. rewrite (Nat.mul_comm 2 k), Nat.div_mul by lia.
    change (1 / 2) with 0. lia.
  - assert (Ho : Nat.odd n = true) by (rewrite <- Nat.negb_even, Ev; reflexivity).
    apply Nat.odd_spec in Ho. destruct Ho as (k & ->).
    replace (2 * k + 1 + 1) with ((k + 1) * 2) by lia.
    rewrite Nat.div_mul by lia.
    replace (2 * k + 1) with (1 + k * 2) by lia.
    rewrite Nat.div_add by lia. change (1 / 2) with 0. lia.
Qed.

Lemma chunk_in_two (n : nat) :
  2 <= n -> chunk n 2 1 = Ok [(n + 1) / 2; n / 2].
Proof.
  intro H. cbn [chunk channel_ops]. change (2 =? 0) with false. cbv iota.
  destruct (Nat.eqb_spec n 0); [lia |]. f_equal.
  replace (n + 2 - 1) with (n + 1) by lia.
  destruct (halves n) as [Hsum Hle].
  generalize dependent ((n + 1) / 2). generalize dependent (n / 2).
  intros q p Hsum Hle.
  cbn [chunk_sizes].
  destruct (Nat.eqb_spec n 0); [lia |].
  destruct (Nat.eqb_spec (n - p) 0); [lia |].
  rewrite Nat.min_l by lia. rewrite Nat.min_r by lia.
  replace (n - p) with q by lia. reflexivity.
Qed.

Lemma even_halves (n : nat) : (n / 2 + n / 2 =? n) = Nat.even n.
Proof.
  destruct (Nat.even n) eqn:Ev.
  - apply Nat.even_spec in Ev. destruct Ev as (k & ->).
    rewrite (Nat.mul_comm 2 k), Nat.div_mul by lia.
    apply Nat.eqb_eq. lia.
  - assert (Ho : Nat.odd n = true) by (rewrite <- Nat.negb_even, Ev; reflexivity).
    apply Nat.odd_spec in Ho. destruct Ho as (k & ->).
    replace (2 * k + 1) with (1 + k * 2) by lia.
    rewrite Nat.div_add by lia. change (1 / 2) with 0.
    apply Nat.eqb_neq. lia.
Qed.

(** A tiny block keeps the second half of its input, as [torch.chunk]
    cuts it, and mixes twice that half. *)
Lemma channels_TinyBlock (num_channels : nat) (activation norm : option string)
    (c : nat) :
  0 < c ->
  nn_forward (TinyBlock_init num_channels activation norm) c
  = if c <? 2 then Raise IndexError
    else if (c / 2 =? num_channels / 2) && Nat.even num_channels
         then Ok num_channels
         else Raise RuntimeError.
Proof.
  intro Hc. unfold TinyBlock_init. cbv zeta. rewrite TinyBlock_forward.
  destruct (Nat.ltb_spec c 2) as [Hsmall | Hbig].
  - assert (c = 1) as -> by lia. reflexivity.
  - rewrite chunk_in_two by assumption. cbn [bind item nth_error].
    assert (Hhalf : 0 < c / 2) by (apply Nat.div_str_pos; lia).
    destruct (Nat.eqb_spec (c / 2) (num_channels / 2)) as [Heq | Hne].
    + assert (Hpos : 0 < num_channels).
      { destruct num_channels as [| n]; [| lia].
        change (0 / 2) with 0 in Heq. lia. }
      rewrite channels_Conv_eq by lia. cbn [bind andb].
      rewrite channels_Conv_eq by first [lia | reflexivity]. cbn [bind].
      rewrite channels_cat. cbn [bind list_sum fold_right].
      rewrite channels_Conv, Nat.add_0_r, even_halves by assumption.
      reflexivity.
    + change (nn_forward (Conv (num_channels / 2) (num_channels / 2) 3 1
                            activation norm) (c / 2))
        with (conv_channels (num_channels / 2) (num_channels / 2) (c / 2)).
      unfold conv_channels.
      destruct (Nat.eqb_spec (c / 2) (num_channels / 2)); [contradiction |].
      reflexivity.
Qed.

Lemma channels_CSPBlock_eq (in_channels out_channels depth : nat) (shortcut : bool)
    (activation norm : option string) (c : nat) :
  c = in_channels -> 2 <= out_channels ->
  nn_forward (CSPBlock_init in_channels out_channels depth shortcut activation norm) c
  = Ok out_channels.
Proof.
  intros -> Hout. rewrite channels_CSPBlock by assumption. now rewrite Nat.eqb_refl.
Qed.

Lemma channels_FastSPP_eq (in_channels out_channels kernel_size : nat)
    (activation norm : option string) (c : nat) :
  c = in_channels -> 2 <= in_channels -> 0 < out_channels ->
  nn_forward (FastSPP_init in_channels out_channels kernel_size activation norm) c
  = Ok out_channels.
Proof.
  intros -> Hin Hout. rewrite channels_FastSPP by assumption.
  now rewrite Nat.eqb_refl.
Qed.

Lemma channels_TinyBlock_eq (num_channels : nat) (activation norm : option string)
    (c : nat) :
  c = num_channels -> 2 <= num_channels -> Nat.even num_channels = true ->
  nn_forward (TinyBlock_init num_channels activation norm) c = Ok num_channels.
Proof.
  intros -> Hbig Hev. rewrite channels_TinyBlock by lia.
  destruct (Nat.ltb_spec num_channels 2); [lia |].
  now rewrite Nat.eqb_refl, Hev.
Qed.

Lemma channels_ZeroPad2d (l r t b c : nat) : nn_forward (ZeroPad2d l r t b) c = Ok c.
Proof. reflexivity. Qed.

Lemma channels_Upsample (scale_factor c : nat) :
  nn_forward (Upsample scale_factor) c = Ok c.
Proof. reflexivity. Qed.

Lemma even_multiple (k m : nat) : Nat.even m = true -> Nat.even (k * m) = true.
Proof. intro H. rewrite Nat.even_mul, H. apply orb_true_r. Qed.

(** Following the channels through a forward pass, one module at a time. *)
Ltac channels_step :=
  first
    [ rewrite Sequential_cons
    | rewrite Sequential_nil
    | rewrite channels_Conv_eq by lia
    | rewrite channels_Conv2d_eq by lia
    | rewrite channels_CSPBlock_eq by lia
    | rewrite channels_FastSPP_eq by lia
    | rewrite channels_TinyBlock_eq
        by first [ lia | apply even_multiple; reflexivity ]
    | rewrite channels_MaxPool
    | rewrite channels_ZeroPad2d
    | rewrite channels_Upsample
    | rewrite channels_cat; cbn [list_sum fold_right]
    | progress cbn [bind] ].

Ltac channels := repeat channels_step.

Lemma channels_YOLOV4TinyBackbone (width : nat) (activation normalization : option string) :
  0 < width ->
  YOLOV4TinyBackbone.forward
    (YOLOV4TinyBackbone.init width activation normalization) 3
  = Ok (width, width * 2, width * 4, width * 8, width * 16).
Proof.
  intro Hw. unfold YOLOV4TinyBackbone.forward, YOLOV4TinyBackbone.init.
  cbv beta zeta.
  cbn [YOLOV4TinyBackbone.stage1 YOLOV4TinyBackbone.downsample2
       YOLOV4TinyBackbone.stage2 YOLOV4TinyBackbone.downsample3
       YOLOV4TinyBackbone.stage3 YOLOV4TinyBackbone.downsample4
       YOLOV4TinyBackbone.stage4 YOLOV4TinyBackbone.downsample5].
  channels. reflexivity.
Qed.

Lemma channels_YOLOV4Backbone (width : nat) (activation normalization : option string) :
  0 < width ->
  CSPStages_forward (YOLOV4Backbone_init width activation normalization) 3
  = Ok (width * 2, width * 4, width * 8, width * 16, width * 32).
Proof.
  intro Hw. unfold CSPStages_forward, YOLOV4Backbone_init. cbv beta zeta.
  cbn [stage1 stage2 stage3 stage4 stage5].
  channels. reflexivity.
Qed.

Lemma channels_YOLOV5Backbone (depth width : nat)
    (activation normalization : option string) :
  0 < width ->
  CSPStages_forward (YOLOV5Backbone_init depth width activation normalization) 3
  = Ok (width, width * 2, width * 4, width * 8, width * 16).
Proof.
  intro Hw. unfold CSPStages_forward, YOLOV5Backbone_init. cbv beta zeta.
  cbn [stage1 stage2 stage3 stage4 stage5].
  channels. reflexivity.
Qed.

(** What the four constructors settle before they build a module: the
    output channels of each detection layer, or the refusal. *)
Lemma network_init_cases (kind : NetworkKind) (num_classes : nat)
    (shapes : option (list PriorShape)) :
  match network_init kind num_classes shapes with
  | Ok heads => num_outputs heads = (5 + num_classes) * anchors_per_cell heads
  | Raise e =>
      e = ValueError PriorShapesNotDivisibleBy3
      /\ exists given, shapes = Some given /\ length given mod 3 <> 0
  end.
Proof.
  destruct shapes as [given |].
  - destruct (Nat.eq_dec (length given mod 3) 0) as [Hdiv | Hndiv].
    + assert (Hlen : length given = 3 * (length given / 3)).
      { pose proof (Nat.div_mod_eq (length given) 3). lia. }
      destruct kind; simpl;
        unfold YOLOV4TinyNetwork_init, YOLOV4Network_init, YOLOV5Network_init,
               YOLOXNetwork_init;
        rewrite (@resolve_prior_shapes_accepts _ _ _ given Hlen); simpl; lia.
    + rewrite network_init_not_divisible by assumption.
      split; [reflexivity |]. now exists given.
  - destruct kind; simpl; lia.
Qed.

Lemma channels_pyramid (depth width : nat) (activation normalization : option string) :
  0 < width ->
  YOLOV5.pyramid
    (Conv (width * 16) (width * 8) 1 1 activation normalization)
    (Upsample 2)
    (Sequential
       [ CSPBlock_init (width * 16) (width * 8) depth false activation normalization;
         Conv (width * 8) (width * 4) 1 1 activation normalization ])
    (CSPBlock_init (width * 8) (width * 4) depth false activation normalization)
    (Conv (width * 4) (width * 4) 3 2 activation normalization)
    (CSPBlock_init (width * 8) (width * 8) depth false activation normalization)
    (Conv (width * 8) (width * 8) 3 2 activation normalization)
    (CSPBlock_init (width * 16) (width * 16) depth false activation normalization)
    (width * 4) (width * 8) (width * 16)
  = Ok (width * 4, width * 8, width * 16).
Proof.
  intro Hw. unfold YOLOV5.pyramid. channels. reflexivity.
Qed.

(* ================================================================== *)
(** * The channels that reach the detection layers *)





(** YOLOv4 of positive width with its own backbone, on an image of 3
    channels: the constructor either refuses the prior shapes or builds a
    network whose forward pass, given at least one anchor per cell, hands
    [detect3], [detect4] and [detect5], in this order, tensors of
    [num_outputs = (5 + num_classes) * anchors_per_cell] channels. *)
Theorem YOLOV4Network_detection_channels (num_classes width : nat)
    (activation normalization : option string)
    (shapes : option (list PriorShape)) :
  0 < width ->
  match YOLOV4.Network_init num_classes None width activation normalization
          shapes with
  | Ok self =>
      let n := num_outputs (YOLOV4.heads self) in
      n = (5 + num_classes) * anchors_per_cell (YOLOV4.heads self)
      /\ (0 < anchors_per_cell (YOLOV4.heads self) ->
          detection_inputs (V4Modules self) 3
          = Ok [(3, n); (4, n); (5, n)])
  | Raise e =>
      e = ValueError PriorShapesNotDivisibleBy3
      /\ exists given, shapes = Some given /\ length given mod 3 <> 0
  end.
Proof.
  intro Hw. unfold YOLOV4.Network_init.
  pose proof (network_init_cases V4 num_classes shapes) as H.
  cbn [network_init] in H.
  destruct (YOLOV4Network_init num_classes shapes) as [heads | e];
    cbn [bind]; [| exact H].
  cbv beta zeta. cbn [YOLOV4.heads]. split; [exact H |]. intro Hanchors.
  assert (Hout : 0 < num_outputs heads)
    by (rewrite H; apply Nat.mul_pos_pos; lia).
  unfold detection_inputs, forward_steps, YOLOV4.forward, note_input.
  cbn [YOLOV4.backbone YOLOV4.pre3 YOLOV4.fpn3 YOLOV4.out3 YOLOV4.pre4
       YOLOV4.fpn4 YOLOV4.pan4 YOLOV4.out4 YOLOV4.pan5 YOLOV4.out5
       YOLOV4.upsample4 YOLOV4.upsample5 YOLOV4.downsample3 YOLOV4.downsample4].
  rewrite channels_YOLOV4Backbone by assumption.
  channels. reflexivity.
Qed.

Lemma YOLOV4Network_detection_channels_witness :
  0 < 32
  /\ match YOLOV4.Network_init 20 None 32 silu batchnorm None with
     | Ok self =>
         let n := num_outputs (YOLOV4.heads self) in
         n = (5 + 20) * anchors_per_cell (YOLOV4.heads self)
         /\ (0 < anchors_per_cell (YOLOV4.heads self) ->
             detection_inputs (V4Modules self) 3
             = Ok [(3, n); (4, n); (5, n)])
     | Raise e =>
         e = ValueError PriorShapesNotDivisibleBy3
         /\ exists given : list PriorShape,
              None = Some given /\ length given mod 3 <> 0
     end.
Proof.
  split; [lia |].
  apply (@YOLOV4Network_detection_channels 20 32 silu batchnorm None). lia.
Defined.

(** YOLOv5 of positive width with its own backbone, on an image of 3
    channels: as for YOLOv4, and for every depth. *)
Theorem YOLOV5Network_detection_channels (num_classes depth width : nat)
    (activation normalization : option string)
    (shapes : option (list PriorShape)) :
  0 < width ->
  match YOLOV5.Network_init num_classes None depth width activation normalization
          shapes with
  | Ok self =>
      let n := num_outputs (YOLOV5.heads self) in
      n = (5 + num_classes) * anchors_per_cell (YOLOV5.heads self)
      /\ (0 < anchors_per_cell (YOLOV5.heads self) ->
          detection_inputs (V5Modules self) 3
          = Ok [(3, n); (4, n); (5, n)])
  | Raise e =>
      e = ValueError PriorShapesNotDivisibleBy3
      /\ exists given, shapes = Some given /\ length given mod 3 <> 0
  end.
Proof.
  intro Hw. unfold YOLOV5.Network_init.
  pose proof (network_init_cases V5 num_classes shapes) as H.
  cbn [network_init] in H.
  destruct (YOLOV5Network_init num_classes shapes) as [heads | e];
    cbn [bind]; [| exact H].
  cbv beta zeta. cbn [YOLOV5.heads]. split; [exact H |]. intro Hanchors.
  assert (Hout : 0 < num_outputs heads)
    by (rewrite H; apply Nat.mul_pos_pos; lia).
  unfold detection_inputs, forward_steps, YOLOV5.forward, note_input.
  cbn [YOLOV5.backbone YOLOV5.pan3 YOLOV5.out3 YOLOV5.fpn4 YOLOV5.pan4
       YOLOV5.out4 YOLOV5.fpn5 YOLOV5.pan5 YOLOV5.out5 YOLOV5.upsample
       YOLOV5.downsample3 YOLOV5.downsample4].
  rewrite channels_YOLOV5Backbone by assumption. cbn [bind].
  rewrite channels_pyramid by assumption. cbn [bind].
  channels. reflexivity.
Qed.

Lemma YOLOV5Network_detection_channels_witness :
  0 < 64
  /\ match YOLOV5.Network_init 20 None 3 64 silu batchnorm None with
     | Ok self =>
         let n := num_outputs (YOLOV5.heads self) in
         n = (5 + 20) * anchors_per_cell (YOLOV5.heads self)
         /\ (0 < anchors_per_cell (YOLOV5.heads self) ->
             detection_inputs (V5Modules self) 3
             = Ok [(3, n); (4, n); (5, n)])
     | Raise e =>
         e = ValueError PriorShapesNotDivisibleBy3
         /\ exists given : list PriorShape,
              None = Some given /\ length given mod 3 <> 0
     end.
Proof.
  split; [lia |].
  apply (@YOLOV5Network_detection_channels 20 3 64 silu batchnorm None). lia.
Defined.

(** YOLOX of positive width with the YOLOv5 backbone, for at least one
    class, on an image of 3 channels: given at least one anchor per cell,
    each detection layer is handed the concatenation of its box,
    confidence and class outputs, [anchors_per_cell * 4 +
    anchors_per_cell + anchors_per_cell * num_classes] channels, which is
    again [(5 + num_classes) * anchors_per_cell]. *)
Theorem YOLOXNetwork_detection_channels (num_classes depth width : nat)
    (activation normalization : option string)
    (shapes : option (list PriorShape)) :
  0 < width -> 0 < num_classes ->
  match YOLOX.Network_init num_classes None depth width activation normalization
          shapes with
  | Ok self =>
      let N := anchors_per_cell (YOLOX.heads self) in
      let n := N * 4 + (N + (N * num_classes + 0)) in
      n = (5 + num_classes) * N
      /\ (0 < N ->
          detection_inputs (XModules self) 3
          = Ok [(3, n); (4, n); (5, n)])
  | Raise e =>
      e = ValueError PriorShapesNotDivisibleBy3
      /\ exists given, shapes = Some given /\ length given mod 3 <> 0
  end.
Proof.
  intros Hw Hclasses. unfold YOLOX.Network_init.
  pose proof (network_init_cases X num_classes shapes) as H.
  cbn [network_init] in H.
  destruct (YOLOXNetwork_init num_classes shapes) as [heads | e];
    cbn [bind]; [| exact H].
  cbv beta zeta. cbn [YOLOX.heads]. split; [lia |]. intro Hanchors.
  unfold detection_inputs, forward_steps, YOLOX.forward, note_input.
  cbn [YOLOX.backbone YOLOX.pan3 YOLOX.out3 YOLOX.fpn4 YOLOX.pan4
       YOLOX.out4 YOLOX.fpn5 YOLOX.pan5 YOLOX.out5 YOLOX.upsample
       YOLOX.downsample3 YOLOX.downsample4].
  rewrite channels_YOLOV5Backbone by assumption. cbn [bind].
  rewrite channels_pyramid by assumption. cbn [bind].
  unfold YOLOX.Output_forward.
  cbn [YOLOX.stem YOLOX.feat YOLOX.box YOLOX.confidence YOLOX.classprob].
  assert (Hout : 0 < anchors_per_cell heads * num_classes)
    by (apply Nat.mul_pos_pos; assumption).
  channels. reflexivity.
Qed.

Lemma YOLOXNetwork_detection_channels_witness :
  0 < 64 /\ 0 < 20
  /\ match YOLOX.Network_init 20 None 3 64 silu batchnorm None with
     | Ok self =>
         let N := anchors_per_cell (YOLOX.heads self) in
         let n := N * 4 + (N + (N * 20 + 0)) in
         n = (5 + 20) * N
         /\ (0 < N ->
             detection_inputs (XModules self) 3
             = Ok [(3, n); (4, n); (5, n)])
     | Raise e =>
         e = ValueError PriorShapesNotDivisibleBy3
         /\ exists given : list PriorShape,
              None = Some given /\ length given mod 3 <> 0
     end.
Proof.
  split; [lia |]. split; [lia |].
  apply (@YOLOXNetwork_detection_channels 20 3 64 silu batchnorm None); lia.
Defined.

(* ================================================================== *)
(** * The channels of the blocks and the backbones *)

(** With at least two channels asked for on either side, a bottleneck
    block, a CSP block and the pooling module each take [in_channels]
    channels and nothing else, and give [out_channels]: the bottleneck
    block whatever its hidden channels, the shortcut being added only
    when input and output agree; the CSP block whatever its depth, and
    also for an odd [out_channels]. *)
Theorem blocks_take_in_give_out (in_channels out_channels : nat)
    (activation norm : option string) (c : nat) :
  2 <= in_channels -> 2 <= out_channels ->
  let expected := if c =? in_channels then Ok out_channels else Raise RuntimeError in
  (forall hidden_channels shortcut,
     hidden_channels <> Some 0 ->
     nn_forward (BottleneckBlock_init in_channels out_channels hidden_channels
                   shortcut activation norm) c = expected)
  /\ (forall depth shortcut,
        nn_forward (CSPBlock_init in_channels out_channels depth shortcut
                      activation norm) c = expected)
  /\ (forall kernel_size,
        nn_forward (FastSPP_init in_channels out_channels kernel_size
                      activation norm) c = expected).
Proof.
  intros Hin Hout. cbv zeta. split; [| split].
  - intros hidden_channels shortcut Hhidden.
    apply channels_BottleneckBlock; [lia | assumption].
  - intros depth shortcut. now apply channels_CSPBlock.
  - intros kernel_size. apply channels_FastSPP; lia.
Qed.

Lemma blocks_take_in_give_out_witness :
  2 <= 64 /\ 2 <= 33
  /\ (forall hidden_channels shortcut,
        hidden_channels <> Some 0 ->
        nn_forward (BottleneckBlock_init 64 33 hidden_channels shortcut
                      silu batchnorm) 64 = Ok 33)
  /\ (forall depth shortcut,
        nn_forward (CSPBlock_init 64 33 depth shortcut silu batchnorm) 64 = Ok 33)
  /\ (forall kernel_size,
        nn_forward (FastSPP_init 64 33 kernel_size silu batchnorm) 64 = Ok 33).
Proof.
  split; [lia |]. split; [lia |].
  apply (@blocks_take_in_give_out 64 33 silu batchnorm 64); lia.
Defined.

(** A tiny block gives [num_channels] channels exactly when
    [num_channels] is even and the second half of its input, as
    [torch.chunk] cuts it, has [num_channels // 2] channels: on an input
    of [num_channels] or of [num_channels + 1] channels.  A single
    channel has no second half. *)
Theorem TinyBlock_accepts (num_channels : nat) (activation norm : option string)
    (c c' : nat) :
  0 < c ->
  nn_forward (TinyBlock_init num_channels activation norm) c = Ok c'
  <-> 2 <= c /\ c / 2 = num_channels / 2 /\ Nat.even num_channels = true
      /\ c' = num_channels.
Proof.
  intro Hc. rewrite channels_TinyBlock by assumption.
  destruct (Nat.ltb_spec c 2) as [Hsmall | Hbig].
  - split; [discriminate | lia].
  - destruct (Nat.eqb_spec (c / 2) (num_channels / 2)) as [Heq | Hne];
      destruct (Nat.even num_channels) eqn:Hev; cbn [andb]; split;
      try discriminate; try (intros (_ & H1 & H2 & _); congruence).
    + intro H. injection H as <-. repeat split; assumption.
    + intros (_ & _ & _ & ->). reflexivity.
Qed.

Lemma TinyBlock_accepts_witness :
  0 < 5
  /\ (nn_forward (TinyBlock_init 4 leaky batchnorm) 5 = Ok 4
      <-> 2 <= 5 /\ 5 / 2 = 4 / 2 /\ Nat.even 4 = true /\ 4 = 4).
Proof.
  split; [lia |]. apply (@TinyBlock_accepts 4 leaky batchnorm 5 4). lia.
Defined.

(** The tiny backbone of positive width takes 3 channels and nothing
    else, and its five stages give [width], [2 * width], [4 * width], [8 * width] and
    [16 * width] channels. *)
Theorem YOLOV4TinyBackbone_channels (width : nat)
    (activation normalization : option string) (c : nat) :
  0 < width ->
  YOLOV4TinyBackbone.forward
    (YOLOV4TinyBackbone.init width activation normalization) c
  = if c =? 3
    then Ok (width, width * 2, width * 4, width * 8, width * 16)
    else Raise RuntimeError.
Proof.
  intro Hw. destruct (Nat.eqb_spec c 3) as [-> | Hne].
  - now apply channels_YOLOV4TinyBackbone.
  - unfold YOLOV4TinyBackbone.forward, YOLOV4TinyBackbone.init.
    cbv beta zeta. cbn [YOLOV4TinyBackbone.stage1].
    rewrite channels_Conv by assumption.
    destruct (Nat.eqb_spec c 3); [contradiction | reflexivity].
Qed.

Lemma YOLOV4TinyBackbone_channels_witness :
  0 < 32
  /\ YOLOV4TinyBackbone.forward (YOLOV4TinyBackbone.init 32 leaky batchnorm) 3
     = (if 3 =? 3
        then Ok (32, 32 * 2, 32 * 4, 32 * 8, 32 * 16)
        else Raise RuntimeError).
Proof.
  split; [lia |]. apply (@YOLOV4TinyBackbone_channels 32 leaky batchnorm 3). lia.
Defined.

(** The YOLOv4 backbone of positive width takes 3 channels and nothing
    else; its first stage already doubles the width, so the five stages
    give
    [2 * width], [4 * width], [8 * width], [16 * width] and
    [32 * width] channels. *)
Theorem YOLOV4Backbone_channels (width : nat)
    (activation normalization : option string) (c : nat) :
  0 < width ->
  CSPStages_forward (YOLOV4Backbone_init width activation normalization) c
  = if c =? 3
    then Ok (width * 2, width * 4, width * 8, width * 16, width * 32)
    else Raise RuntimeError.
Proof.
  intro Hw. destruct (Nat.eqb_spec c 3) as [-> | Hne].
  - now apply channels_YOLOV4Backbone.
  - unfold CSPStages_forward, YOLOV4Backbone_init.
    cbv beta zeta. cbn [stage1].
    rewrite Sequential_cons, channels_Conv by assumption.
    destruct (Nat.eqb_spec c 3); [contradiction | reflexivity].
Qed.

Lemma YOLOV4Backbone_channels_witness :
  0 < 32
  /\ CSPStages_forward (YOLOV4Backbone_init 32 silu batchnorm) 3
     = (if 3 =? 3
        then Ok (32 * 2, 32 * 4, 32 * 8, 32 * 16, 32 * 32)
        else Raise RuntimeError).
Proof.
  split; [lia |]. apply (@YOLOV4Backbone_channels 32 silu batchnorm 3). lia.
Defined.

(** The YOLOv5 backbone of positive width takes 3 channels and nothing
    else, and for every depth its five stages give [width], [2 * width], [4 * width],
    [8 * width] and [16 * width] channels. *)
Theorem YOLOV5Backbone_channels (depth width : nat)
    (activation normalization : option string) (c : nat) :
  0 < width ->
  CSPStages_forward (YOLOV5Backbone_init depth width activation normalization) c
  = if c =? 3
    then Ok (width, width * 2, width * 4, width * 8, width * 16)
    else Raise RuntimeError.
Proof.
  intro Hw. destruct (Nat.eqb_spec c 3) as [-> | Hne].
  - now apply channels_YOLOV5Backbone.
  - unfold CSPStages_forward, YOLOV5Backbone_init.
    cbv beta zeta. cbn [stage1].
    rewrite channels_Conv by assumption.
    destruct (Nat.eqb_spec c 3); [contradiction | reflexivity].
Qed.

Lemma YOLOV5Backbone_channels_witness :
  0 < 64
  /\ CSPStages_forward (YOLOV5Backbone_init 3 64 silu batchnorm) 3
     = (if 3 =? 3
        then Ok (64, 64 * 2, 64 * 4, 64 * 8, 64 * 16)
        else Raise RuntimeError).
Proof.
  split; [lia |]. apply (@YOLOV5Backbone_channels 3 64 silu batchnorm 3). lia.
Defined.

(* ================================================================== *)
(** * The settings of the convolutions *)

Lemma csp_blocks_Sequential_cons (m : nnModule) (rest : list nnModule) :
  csp_blocks (Sequential (m :: rest)) = csp_blocks m ++ csp_blocks (Sequential rest).
Proof. reflexivity. Qed.

Lemma csp_blocks_CSPBlock_init (in_channels out_channels depth : nat)
    (shortcut : bool) (activation norm : option string) :
  csp_blocks (CSPBlock_init in_channels out_channels depth shortcut activation norm)
  = [CSPBlock_init in_channels out_channels depth shortcut activation norm].
Proof. reflexivity. Qed.

Lemma csp_blocks_FastSPP_init (in_channels out_channels kernel_size : nat)
    (activation norm : option string) :
  csp_blocks (FastSPP_init in_channels out_channels kernel_size activation norm) = [].
Proof. reflexivity. Qed.

Lemma convs_BottleneckBlock_init (in_channels out_channels : nat)
    (hidden_channels : option nat) (shortcut : bool)
    (activation norm : option string) :
  Forall (fun conv => conv_settings conv = Some (activation, norm))
         (convs (BottleneckBlock_init in_channels out_channels hidden_channels
                   shortcut activation norm)).
Proof. repeat constructor. Qed.

Lemma convs_CSPBlock_init (in_channels out_channels depth : nat) (shortcut : bool)
    (activation norm : option string) :
  Forall (fun conv => conv_settings conv = Some (activation, norm))
         (convs (CSPBlock_init in_channels out_channels depth shortcut
                   activation norm)).
Proof.
  unfold CSPBlock_init. cbv zeta. cbn [convs].
  repeat (apply Forall_app; split); try (repeat constructor).
  apply Forall_flat_map, Forall_forall. intros b Hb.
  apply in_map_iff in Hb. destruct Hb as (k & <- & _).
  apply convs_BottleneckBlock_init.
Qed.

(** The backbones of YOLOv4 and YOLOv5 build their CSP blocks without
    passing on [activation] and [normalization]: in every stage, each
    convolution inside a CSP block has the block's defaults, "silu" and
    "batchnorm", whatever the backbone was asked for, while the stage's
    first convolution has what was asked for.  Every stage but the first
    of YOLOv5 holds one CSP block. *)
Theorem backbone_csp_blocks_keep_defaults (depth width : nat)
    (activation normalization : option string) :
  let stages :=
    stages_of (YOLOV4Backbone_init width activation normalization)
    ++ stages_of (YOLOV5Backbone_init depth width activation normalization) in
  map (fun stage => length (csp_blocks stage)) stages
  = [1; 1; 1; 1; 1; 0; 1; 1; 1; 1]
  /\ Forall
       (fun stage =>
          (forall block conv,
             In block (csp_blocks stage) -> In conv (convs block) ->
             conv_settings conv = Some (silu, batchnorm))
          /\ (exists conv,
                hd_error (convs stage) = Some conv
                /\ conv_settings conv = Some (activation, normalization)))
       stages.
Proof.
  cbv zeta. split; [reflexivity |].
  unfold stages_of, YOLOV4Backbone_init, YOLOV5Backbone_init. cbv beta zeta.
  cbn [stage1 stage2 stage3 stage4 stage5 app].
  repeat (apply Forall_cons; [split |]); try apply Forall_nil;
    try (eexists; split; reflexivity);
    intros block conv Hblock Hconv;
    rewrite ?csp_blocks_Sequential_cons, ?csp_blocks_CSPBlock_init,
            ?csp_blocks_FastSPP_init in Hblock;
    cbn [csp_blocks flat_map app In] in Hblock;
    repeat (destruct Hblock as [Hblock | Hblock]); try contradiction;
    subst block;
    exact (proj1 (Forall_forall _ _) (convs_CSPBlock_init _ _ _ _ _ _) conv Hconv).
Qed.

(* ================================================================== *)
(** * The forward pass and its detection layers *)

(** Running a forward pass whose detection steps cannot fail: one bind
    at a time, on both sides. *)
Ltac forward_binds H :=
  repeat first
    [ rewrite H; cbn [bind]
    | match goal with
      | |- context [match ?v with pair _ _ => _ end] => is_var v; destruct v
      end
    | match goal with
      | |- bind ?c _ = _ => destruct c; cbn [bind]; [| reflexivity]
      end ].

Section ForwardSteps.

Variable T : Type.
Context {ops : TensorOps T}.
Variable S : Type.
Variable detect : DetectStep T S.
Variable f : nat -> T -> S -> S.
Hypothesis detect_f : forall layer y s, detect layer y s = Ok (f layer y s).

Lemma forward_steps_pure (network : NetworkModules) (x : T) (s : S) :
  forward_steps detect network x s
  = (inputs <- detection_inputs network x ;;
     Ok (fold_left (fun s input => f (fst input) (snd input) s) inputs s)).
Proof.
  unfold detection_inputs.
  destruct network as [self | self | self | self]; cbn [forward_steps];
    [ unfold YOLOV4Tiny.forward | unfold YOLOV4.forward
    | unfold YOLOV5.forward | unfold YOLOX.forward ];
    unfold note_input; forward_binds detect_f; reflexivity.
Qed.

End ForwardSteps.

Section NetworkForwardFacts.

Variable T : Type.
Context {ops : TensorOps T}.
Variable Targets : Type.
Variable ImageSize : Type.
Variable get_image_size : T -> ImageSize.

Lemma set_layer_attrs_same (layer : nat) (state : NetState) :
  set_layer_attrs layer (layer_attrs layer state) state = state.
Proof.
  destruct state. unfold set_layer_attrs, layer_attrs.
  destruct layer as [| [| [| [| [| n]]]]]; reflexivity.
Qed.

Lemma detect_step_inference (layers : DetectionLayers T Targets ImageSize)
    (image_size : ImageSize) (layer : nat) (y : T) (acc : Outputs T * NetState) :
  detect_step layers image_size None layer y acc
  = Ok (let '(detections, losses, hits) := fst acc in
        (detections ++ [decoded layers image_size (layer, y)], losses, hits),
        snd acc).
Proof.
  destruct acc as [[[detections losses] hits] state].
  unfold detect_step, run_detect, DetectionLayer_forward, decoded.
  cbn [fst snd bind]. now rewrite set_layer_attrs_same.
Qed.

Lemma detect_step_training (layers : DetectionLayers T Targets ImageSize)
    (image_size : ImageSize) (targets : Targets) (layer : nat) (y : T)
    (acc : Outputs T * NetState) :
  detect_step layers image_size (Some targets) layer y acc
  = Ok (let '(detections, losses, hits) := fst acc in
        let found := matched layers image_size targets (layer, y) in
        (detections ++ [decoded layers image_size (layer, y)],
         losses ++ [fst found], hits ++ [snd found]),
        set_layer_attrs layer
          (let found := matched layers image_size targets (layer, y) in
           mkLayerAttrs (Some (fst found)) (Some (snd found)))
          (snd acc)).
Proof.
  destruct acc as [[[detections losses] hits] state].
  unfold detect_step, run_detect, DetectionLayer_forward, matched, decoded.
  cbn [fst snd].
  destruct (match_and_loss _ _ _ _) as [l h]. reflexivity.
Qed.

Lemma fold_inference (layers : DetectionLayers T Targets ImageSize)
    (image_size : ImageSize) (inputs : DetectionInputs T)
    (detections : list T) (losses : list Losses) (hits : list Z)
    (state : NetState) :
  fold_left
    (fun (acc : Outputs T * NetState) input =>
       (let '(detections, losses, hits) := fst acc in
        (detections ++ [decoded layers image_size (fst input, snd input)],
         losses, hits),
        snd acc))
    inputs ((detections, losses, hits), state)
  = ((detections ++ map (decoded layers image_size) inputs, losses, hits), state).
Proof.
  revert detections. induction inputs as [| [layer y] rest IH]; intro detections.
  - cbn. now rewrite app_nil_r.
  - cbn [fold_left fst snd map]. rewrite IH, <- app_assoc. reflexivity.
Qed.

Lemma fold_training (layers : DetectionLayers T Targets ImageSize)
    (image_size : ImageSize) (targets : Targets) (inputs : DetectionInputs T)
    (detections : list T) (losses : list Losses) (hits : list Z)
    (state : NetState) :
  exists state',
    fold_left
      (fun (acc : Outputs T * NetState) input =>
         (let '(detections, losses, hits) := fst acc in
          let found := matched layers image_size targets (fst input, snd input) in
          (detections ++ [decoded layers image_size (fst input, snd input)],
           losses ++ [fst found], hits ++ [snd found]),
          set_layer_attrs (fst input)
            (let found :=
               matched layers image_size targets (fst input, snd input) in
             mkLayerAttrs (Some (fst found)) (Some (snd found)))
            (snd acc)))
      inputs ((detections, losses, hits), state)
    = ((detections ++ map (decoded layers image_size) inputs,
        losses ++ map (fun input => fst (matched layers image_size targets input))
                      inputs,
        hits ++ map (fun input => snd (matched layers image_size targets input))
                    inputs),
       state').
Proof.
  revert detections losses hits state.
  induction inputs as [| [layer y] rest IH]; intros detections losses hits state.
  - exists state. cbn. now rewrite !app_nil_r.
  - cbn [fold_left fst snd map].
    edestruct IH as [state' ->]. exists state'.
    rewrite <- !app_assoc. reflexivity.
Qed.

(** The forward pass of each of the four networks fails exactly when one
    of its modules refuses its input, with that error.  Otherwise
    [detections] holds what the detection layers make of their inputs, in
    the order the layers are called, the same with and without targets;
    without targets [losses] and [hits] stay empty and no attribute of a
    layer changes, with targets they hold each layer's losses and hits in
    the same order. *)
Theorem network_forward_outputs (network : NetworkModules)
    (layers : DetectionLayers T Targets ImageSize) (x : T)
    (targets : option Targets) (state : NetState) :
  let image_size := get_image_size x in
  match network_forward get_image_size network layers x targets state with
  | Ok ((detections, losses, hits), state') =>
      exists inputs,
        detection_inputs network x = Ok inputs
        /\ detections = map (decoded layers image_size) inputs
        /\ match targets with
           | None => losses = [] /\ hits = [] /\ state' = state
           | Some targets =>
               losses = map (fun input =>
                               fst (matched layers image_size targets input))
                            inputs
               /\ hits = map (fun input =>
                                snd (matched layers image_size targets input))
                             inputs
           end
  | Raise e => detection_inputs network x = Raise e
  end.
Proof.
  cbv zeta. unfold network_forward.
  destruct targets as [targets |].
  - rewrite (@forward_steps_pure _ _ _ _ _
               (detect_step_training layers (get_image_size x) targets)).
    destruct (detection_inputs network x) as [inputs | e]; cbn [bind];
      [| reflexivity].
    destruct (fold_training layers (get_image_size x) targets inputs [] [] []
                state) as [state' E].
    match type of E with
    | _ = ?r =>
        match goal with
        | |- context [fold_left ?g ?l ?a] =>
            replace (fold_left g l a) with r by (symmetry; exact E)
        end
    end.
    exists inputs. repeat split.
  - rewrite (@forward_steps_pure _ _ _ _ _
               (detect_step_inference layers (get_image_size x))).
    destruct (detection_inputs network x) as [inputs | e]; cbn [bind];
      [| reflexivity].
    pose proof (fold_inference layers (get_image_size x) inputs [] [] [] state)
      as E.
    match type of E with
    | _ = ?r =>
        match goal with
        | |- context [fold_left ?g ?l ?a] =>
            replace (fold_left g l a) with r by (symmetry; exact E)
        end
    end.
    exists inputs. repeat split.
Qed.

End NetworkForwardFacts.
